(** * Marketplace backend (Node/Express): a shallow embedding of [server.js]

    The embedded program is the Express application of
    [marketplace_backend_node.js]: signup and login, the product catalogue,
    the S3 presign endpoint, the Stripe checkout session and the Stripe
    webhook.  Handlers become functions from a request and a database to a
    response and a database; the SQLite tables become lists of rows; the
    libraries the handlers call (bcrypt, jsonwebtoken, Stripe, the S3
    presigner, [JSON.parse]) are fields of a record of services.  The
    stand-alone application of [server.js], with its list of products in
    memory, is embedded in the module [Stub]. *)

From Stdlib Require Import ZArith NArith List Bool Ascii String Lia.
From Stdlib Require Import DecimalString DecimalZ SpecFloat.
From Stdlib Require Import Sorted Permutation.
Import ListNotations.

Local Open Scope Z_scope.

(** ** JavaScript strings

    A JavaScript string is a sequence of UTF-16 code units; the regular
    expression of the presign handler (no [u] flag) works on code units. *)

Definition code_unit := N.
Definition jsstring := list code_unit.

Definition lit (s : string) : jsstring :=
  map N_of_ascii (list_ascii_of_string s).

Fixpoint streq (a b : jsstring) : bool :=
  match a, b with
  | [], [] => true
  | x :: a', y :: b' => N.eqb x y && streq a' b'
  | _, _ => false
  end.

(** A value read from a JSON body or from [process.env]: [None] is
    [undefined]. *)
Definition field := option jsstring.

(** [ToBoolean] on such a value: [undefined] and [''] are falsy. *)
Definition truthy (v : field) : bool :=
  match v with
  | Some (_ :: _) => true
  | _ => false
  end.

(** [v || d] for a string default. *)
Definition or_else (v : field) (d : jsstring) : jsstring :=
  match v with
  | Some (c :: s) => c :: s
  | _ => d
  end.

(** [`${v}`]: a template literal prints [undefined] by name. *)
Definition tmpl (v : field) : jsstring :=
  match v with
  | Some s => s
  | None => lit "undefined"
  end.

(** Decimal rendering of an integer, as [ToString] gives for an integral
    Number below 10^21 (here: [Date.now()]). *)
Definition dec (z : Z) : jsstring :=
  lit (NilZero.string_of_int (Z.to_int z)).

(** [s.split(sep)] for a one-character separator. *)
Fixpoint split_on (sep : code_unit) (s : jsstring) : list jsstring :=
  match s with
  | [] => [[]]
  | c :: s' =>
      if N.eqb c sep then [] :: split_on sep s'
      else
        match split_on sep s' with
        | [] => [[c]]
        | p :: ps => (c :: p) :: ps
        end
  end.

(** ** JavaScript numbers

    IEEE 754 binary64, on the specification floats of the standard library. *)

Module Num.

Definition prec : Z := 53.
Definition emax : Z := 1024.

Definition number := spec_float.

Definition of_Z (z : Z) : number := binary_normalize prec emax z 0 false.
Definition mul : number -> number -> number := SFmul prec emax.
Definition div : number -> number -> number := SFdiv prec emax.

Definition hundred : number := of_Z 100.

(** [ToBoolean]: [+0], [-0] and [NaN] are falsy. *)
Definition truthy (x : number) : bool :=
  match x with
  | S754_zero _ | S754_nan => false
  | _ => true
  end.

(** [Number(v)] for a JSON number or [undefined]. *)
Definition Number (v : option number) : number :=
  match v with
  | Some x => x
  | None => S754_nan
  end.

(** [Math.round]: the closest integer, a tie going towards +∞; the sign of
    a zero result is the sign of the argument. *)
Definition Math_round (x : number) : number :=
  match x with
  | S754_finite s m e =>
      if 0 <=? e then x
      else
        let n := Z.shiftr (2 * cond_Zopp s (Zpos m) + 2 ^ (- e)) (1 - e) in
        if n =? 0 then S754_zero s else of_Z n
  | _ => x
  end.

(** *** [Number::toString] from 10^21 on (exponent notation)

    [x = m * 2^e] with [e > 0].  The digits are the shortest decimal [s]
    (of [k] digits) such that [s * 10^q] rounds to [x]. *)

Definition in_round_interval (m : positive) (e : Z) (v : Z) : bool :=
  let X := Zpos m * 2 ^ e in
  let up := 2 ^ (e - 1) in
  let down := if Zpos m =? 2 ^ (prec - 1) then 2 ^ (e - 2) else 2 ^ (e - 1) in
  if Z.even (Zpos m)
  then (X - down <=? v) && (v <=? X + up)
  else (X - down <? v) && (v <? X + up).

Definition ndigits (X : Z) : Z := Z.of_nat (List.length (dec X)).

Definition candidates (m : positive) (e : Z) (k : Z) : list (Z * Z) :=
  let X := Zpos m * 2 ^ e in
  let D := ndigits X in
  flat_map
    (fun q =>
       filter
         (fun sq : Z * Z =>
            (10 ^ (k - 1) <=? fst sq) && (fst sq <? 10 ^ k)
            && in_round_interval m e (fst sq * 10 ^ q))
         [(X / 10 ^ q, q); (X / 10 ^ q + 1, q)])
    [D - k; D - k + 1].

(** Among the candidates: the closest to [x], and the even one on a tie. *)
Definition closer (X : Z) (a b : Z * Z) : Z * Z :=
  let da := Z.abs (fst a * 10 ^ snd a - X) in
  let db := Z.abs (fst b * 10 ^ snd b - X) in
  if da <? db then a
  else if db <? da then b
  else if Z.even (fst a) then a else b.

Definition best (X : Z) (cs : list (Z * Z)) : option (Z * Z) :=
  match cs with
  | [] => None
  | c :: cs' => Some (fold_left (closer X) cs' c)
  end.

Fixpoint shortest (m : positive) (e : Z) (ks : list Z) : Z * Z * Z :=
  match ks with
  | [] => (Zpos m * 2 ^ e, 0, ndigits (Zpos m * 2 ^ e))
  | k :: ks' =>
      match best (Zpos m * 2 ^ e) (candidates m e k) with
      | Some (s, q) => (s, q, k)
      | None => shortest m e ks'
      end
  end.

Definition toString_large (m : positive) (e : Z) : jsstring :=
  let '(s, q, k) := shortest m e [1; 2; 3; 4; 5; 6; 7; 8; 9; 10; 11; 12; 13; 14; 15; 16; 17] in
  let ds := dec s in
  let n := q + k in
  match ds with
  | [] => []
  | d :: [] => d :: lit "e+" ++ dec (n - 1)
  | d :: rest => d :: lit "." ++ rest ++ lit "e+" ++ dec (n - 1)
  end.

(** *** [Number.prototype.toFixed(2)] *)

(** [10^21 <= m * 2^e], exactly. *)
Definition ge_1e21 (m : positive) (e : Z) : bool :=
  if 0 <=? e then 10 ^ 21 <=? Zpos m * 2 ^ e
  else 10 ^ 21 * 2 ^ (- e) <=? Zpos m.

(** The integer [n] for which [n / 100 - m * 2^e] is closest to zero, the
    larger one when there are two. *)
Definition scaled (m : positive) (e : Z) : Z :=
  if 0 <=? e then Zpos m * 2 ^ e * 100
  else Z.shiftr (2 * (Zpos m * 100) + 2 ^ (- e)) (1 - e).

Definition zero_digit : code_unit := 48%N.
Definition dot : code_unit := 46%N.

(** The digits of [n], padded to three at least, with a point before the
    last two. *)
Definition two_decimals (n : Z) : jsstring :=
  let m := dec n in
  let m := repeat zero_digit (3 - List.length m) ++ m in
  firstn (List.length m - 2) m ++ dot :: skipn (List.length m - 2) m.

Definition toFixed2 (x : number) : jsstring :=
  match x with
  | S754_nan => lit "NaN"
  | S754_infinity s => if s then lit "-Infinity" else lit "Infinity"
  | S754_zero _ => lit "0.00"
  | S754_finite s m e =>
      (if s then lit "-" else [])
        ++ (if ge_1e21 m e then toString_large m e
            else two_decimals (scaled m e))
  end.

End Num.

(** ** The database

    The three tables of [db.exec]; a table is the list of its rows in
    insertion order.  TEXT columns hold strings, [created_at] an integer,
    [price_cents] what SQLite keeps of the bound Number ([None] is NULL). *)

Record user_row := {
  u_id : jsstring;
  u_name : jsstring;
  u_email : jsstring;
  u_password_hash : jsstring;
  u_role : jsstring;
  u_created_at : Z
}.

Record product_row := {
  p_id : jsstring;
  p_title : jsstring;
  p_price_cents : option Num.number;
  p_description : jsstring;
  p_author : jsstring;
  p_asset_key : jsstring;
  p_created_at : Z
}.

Record order_row := {
  o_id : jsstring;
  o_session_id : jsstring;
  o_customer_email : jsstring;
  o_status : jsstring;
  o_metadata : jsstring;
  o_created_at : Z
}.

Record db := {
  users : list user_row;
  products : list product_row;
  orders : list order_row
}.

Definition empty_db : db := {| users := []; products := []; orders := [] |}.

(** What [getUserById] selects: the row without its password hash. *)
Record user_view := {
  uv_id : jsstring;
  uv_name : jsstring;
  uv_email : jsstring;
  uv_role : jsstring;
  uv_created_at : Z
}.

Module Sql.

(** Binding a Number: SQLite turns NaN into NULL, and the INTEGER affinity
    of [price_cents] turns [-0.0] into the integer 0. *)
Definition bind_number (x : Num.number) : option Num.number :=
  match x with
  | S754_nan => None
  | S754_zero _ => Some (S754_zero false)
  | _ => Some x
  end.

(** Binding a JavaScript value that is a Number or [null]. *)
Definition bind_nullable (v : option Num.number) : option Num.number :=
  match v with
  | Some x => bind_number x
  | None => None
  end.

(** [WHERE col = ?] against a TEXT column: NULL (a bound [undefined]) is
    equal to nothing. *)
Definition text_eq (col : jsstring) (v : field) : bool :=
  match v with
  | Some s => streq col s
  | None => false
  end.

(** [INSERT INTO users]: [id] is the primary key and [email] is UNIQUE;
    [None] is the SqliteError of a violated constraint. *)
Definition insertUser (d : db) (r : user_row) : option db :=
  if existsb (fun x => streq (u_id x) (u_id r) || streq (u_email x) (u_email r)) (users d)
  then None
  else Some {| users := users d ++ [r]; products := products d; orders := orders d |}.

Definition getUserByEmail (d : db) (email : field) : option user_row :=
  find (fun x => text_eq (u_email x) email) (users d).

Definition getUserById (d : db) (id : jsstring) : option user_view :=
  match find (fun x => streq (u_id x) id) (users d) with
  | Some x =>
      Some {| uv_id := u_id x; uv_name := u_name x; uv_email := u_email x;
              uv_role := u_role x; uv_created_at := u_created_at x |}
  | None => None
  end.

Definition insertProduct (d : db) (r : product_row) : option db :=
  if existsb (fun x => streq (p_id x) (p_id r)) (products d)
  then None
  else Some {| users := users d; products := products d ++ [r]; orders := orders d |}.

(** [UPDATE products SET title=?, price_cents=?, description=?, author=?,
    asset_key=? WHERE id=?] *)
Definition updateProduct (d : db) (title : jsstring) (price_cents : option Num.number)
    (description author asset_key : jsstring) (id : jsstring) : db :=
  {| users := users d;
     products :=
       map (fun x =>
              if streq (p_id x) id
              then {| p_id := p_id x; p_title := title;
                      p_price_cents := price_cents;
                      p_description := description; p_author := author;
                      p_asset_key := asset_key; p_created_at := p_created_at x |}
              else x)
           (products d);
     orders := orders d |}.

Definition deleteProduct (d : db) (id : jsstring) : db :=
  {| users := users d;
     products := filter (fun x => negb (streq (p_id x) id)) (products d);
     orders := orders d |}.

(** [ORDER BY created_at DESC], by insertion.  SQL leaves the order of
    rows with equal [created_at] open; SQLite returns them in the order
    of their insertion, and so does [getAllProducts] below, which inserts
    an earlier row before the later rows of the same [created_at]. *)
Fixpoint insert_desc (r : product_row) (l : list product_row) : list product_row :=
  match l with
  | [] => [r]
  | x :: l' =>
      if p_created_at x <=? p_created_at r then r :: x :: l'
      else x :: insert_desc r l'
  end.

Definition getAllProducts (d : db) : list product_row :=
  fold_right insert_desc [] (products d).

Definition getProductById (d : db) (id : jsstring) : option product_row :=
  find (fun x => streq (p_id x) id) (products d).

Definition insertOrder (d : db) (r : order_row) : option db :=
  if existsb (fun x => streq (o_id x) (o_id r)) (orders d)
  then None
  else Some {| users := users d; products := products d; orders := orders d ++ [r] |}.

Definition set_status (status : jsstring) (x : order_row) : order_row :=
  {| o_id := o_id x; o_session_id := o_session_id x;
     o_customer_email := o_customer_email x; o_status := status;
     o_metadata := o_metadata x; o_created_at := o_created_at x |}.

(** [UPDATE orders SET status = ? WHERE session_id = ?] *)
Definition updateOrderStatus (d : db) (status : jsstring) (session_id : field) : db :=
  {| users := users d;
     products := products d;
     orders :=
       map (fun x => if text_eq (o_session_id x) session_id then set_status status x else x)
           (orders d) |}.

End Sql.

(** ** JSON values, for the event of the webhook *)

#[local] Unset Elimination Schemes.
Inductive json : Type :=
  | JNull
  | JBool (b : bool)
  | JNum (x : Num.number)
  | JStr (s : jsstring)
  | JArr (xs : list json)
  | JObj (fs : list (jsstring * json)).
#[local] Set Elimination Schemes.

Fixpoint own_property (k : jsstring) (fs : list (jsstring * json)) : option json :=
  match fs with
  | [] => None
  | (k', v) :: fs' => if streq k' k then Some v else own_property k fs'
  end.

(** [v.k] for the names this program reads ([type], [data], [object],
    [id]), which no built-in prototype defines.  The value [None] is
    [undefined]; the result [None] is the TypeError of reading a property
    of [undefined] or [null]. *)
Definition prop (v : option json) (k : jsstring) : option (option json) :=
  match v with
  | None | Some JNull => None
  | Some (JObj fs) => Some (own_property k fs)
  | Some _ => Some None
  end.

(** ** Requests, responses and the outside world *)

Record claims := { c_sub : field; c_role : field }.

Record item := {
  i_title : field;
  i_price : option Num.number;
  i_quantity : option Num.number
}.

Record line_item := {
  li_name : field;
  li_unit_amount : Num.number;
  li_quantity : Num.number
}.

Record checkout_params := {
  cp_line_items : list line_item;
  cp_success_url : field;
  cp_cancel_url : field;
  cp_customer_email : field
}.

Record session := { s_id : jsstring; s_url : jsstring }.

(** The libraries.  A result [None] is a thrown exception or a rejected
    promise.  [bcrypt_hash] takes the randomness of its salt, the two JWT
    functions the secret and the current time, [getSignedUrl] the bucket,
    the key and the content type, [sessions_create] the API key of the
    Stripe client, [getSignedUrl] also the region of the S3 client.
    [bind_other] is what better-sqlite3 and the TEXT affinity of the
    column make of a bound value that is neither a string nor [null]
    (the value [None] is [undefined]): a text, NULL, or an exception. *)
Record services := {
  bcrypt_hash : jsstring -> N -> jsstring;
  bcrypt_compare : field -> jsstring -> option bool;
  jwt_sign : claims -> jsstring -> Z -> jsstring;
  jwt_verify : jsstring -> jsstring -> Z -> option claims;
  getSignedUrl : field -> field -> jsstring -> jsstring -> option jsstring;
  sessions_create : jsstring -> checkout_params -> option session;
  constructEvent : jsstring -> field -> jsstring -> option json;
  JSON_parse : jsstring -> option json;
  JSON_stringify : list item -> jsstring;
  bind_other : option json -> option field
}.

(** [process.env] *)
Record config := {
  env_JWT_SECRET : field;
  env_STRIPE_SECRET : field;
  env_STRIPE_WEBHOOK_SECRET : field;
  env_AWS_REGION : field;
  env_S3_BUCKET : field
}.

Definition JWT_SECRET (cfg : config) : jsstring :=
  or_else (env_JWT_SECRET cfg) (lit "dev_jwt_secret").

(** What the runtime hands to one request: [Date.now()], [uuidv4()] and
    the randomness of the bcrypt salt. *)
Record world := { now : Z; uuid : jsstring; entropy : N }.

(** The two headers the handlers read.  [Content-Type] is read by the
    body parsers only: it decides what [req.body] is, and [req.body] is
    part of the requests below. *)
Record headers := { authorization : field; stripe_signature : field }.

Record product_view := {
  pv_id : jsstring;
  pv_title : jsstring;
  pv_price : jsstring;
  pv_description : jsstring;
  pv_author : jsstring;
  pv_asset_key : jsstring
}.

Inductive body : Type :=
  | Welcome
  | Error (msg : jsstring)
  | TokenUser (token : jsstring) (user : user_view)
  | ProductList (ps : list product_view)
  | Created (id title price : jsstring) (description author asset_key : field)
  | Ok
  | Presigned (uploadUrl key publicUrl : jsstring)
  | Redirect (url : jsstring)
  | Received
  | WebhookError.

(** [Unanswered]: the promise of an [async] handler was rejected, and
    Express 4 sends nothing.  [Crashed]: a synchronous handler threw, and
    the default error handler of Express answers 500. *)
Inductive response : Type :=
  | Reply (status : Z) (b : body)
  | Unanswered
  | Crashed.

Definition err (status : Z) (msg : string) : response := Reply status (Error (lit msg)).

(** The JSON bodies, field by field: a text field is a string or is
    missing, a price or a quantity is a number or is missing. *)
Record signup_body := { sb_name : field; sb_email : field; sb_password : field }.

Record login_body := { lb_email : field; lb_password : field }.

Record product_body := {
  pb_title : field;
  pb_price : option Num.number;
  pb_description : field;
  pb_author : field;
  pb_asset_key : field
}.

Record presign_body := { ps_filename : field; ps_contentType : field }.

Record checkout_body := {
  cb_items : option (list item);
  cb_successUrl : field;
  cb_cancelUrl : field;
  cb_customerEmail : field
}.

(** The routes of the application, each with [req.body] as the body
    parsers made it from the content and the [Content-Type] of the
    request.  The [payload] of the webhook is [req.body] as the handler
    passes it to [constructEvent] or, through [toString], to
    [JSON.parse]. *)
Inductive request : Type :=
  | GetRoot
  | PostSignup (b : signup_body)
  | PostLogin (b : login_body)
  | GetProducts
  | PostProduct (h : headers) (b : product_body)
  | PutProduct (h : headers) (id : jsstring) (b : product_body)
  | DeleteProduct (h : headers) (id : jsstring)
  | PostPresign (h : headers) (b : presign_body)
  | PostCheckout (b : checkout_body)
  | PostWebhook (h : headers) (payload : jsstring).

(** A step that may throw, then the rest. *)
Notation "x <- e ;; k" :=
  (match e with Some x => k | None => None end)
  (at level 61, e at next level, right associativity).

(** ** The handlers *)

Definition space : code_unit := 32%N.
Definition underscore : code_unit := 95%N.

(** The character class [a-zA-Z0-9.-]. *)
Definition allowed (c : code_unit) : bool :=
  ((97 <=? c) && (c <=? 122) || (65 <=? c) && (c <=? 90)
   || (48 <=? c) && (c <=? 57) || (c =? 46) || (c =? 45))%N.

(** [filename.replace(/[^a-zA-Z0-9.-]/g, '_')] *)
Definition sanitize (filename : jsstring) : jsstring :=
  map (fun c => if allowed c then c else underscore) filename.

(** [`uploads/${Date.now()}_${...}`] *)
Definition object_key (t : Z) (filename : jsstring) : jsstring :=
  lit "uploads/" ++ dec t ++ underscore :: sanitize filename.

(** [v === 'lit'] *)
Definition is_str (v : option json) (s : string) : bool :=
  match v with
  | Some (JStr x) => streq x (lit s)
  | _ => false
  end.

(** What [WHERE session_id = ?] compares the column with, for a bound
    JavaScript value. *)
Definition bind_text (lib : services) (v : option json) : option field :=
  match v with
  | Some JNull => Some None
  | Some (JStr s) => Some (Some s)
  | _ => bind_other lib v
  end.

(** The same for a value that is a string or [undefined]. *)
Definition bind_field (lib : services) (v : field) : option field :=
  match v with
  | Some s => Some (Some s)
  | None => bind_other lib None
  end.

Section Server.

Variable lib : services.
Variable cfg : config.

Definition hashPassword (w : world) (plain : jsstring) : jsstring :=
  bcrypt_hash lib plain (entropy w).

Definition verifyPassword (plain : field) (hash : jsstring) : option bool :=
  bcrypt_compare lib plain hash.

Definition generateToken (w : world) (user : user_view) : jsstring :=
  jwt_sign lib {| c_sub := Some (uv_id user); c_role := Some (uv_role user) |}
    (JWT_SECRET cfg) (now w).

(** The left result is the response of the middleware; the right one is
    [req.user]. *)
Definition authMiddleware (w : world) (h : headers) : response + claims :=
  match authorization h with
  | Some (c :: auth) =>
      match split_on space (c :: auth) with
      | [_; token] =>
          match jwt_verify lib token (JWT_SECRET cfg) (now w) with
          | Some payload => inr payload
          | None => inl (err 401 "Invalid token")
          end
      | _ => inl (err 401 "Bad auth")
      end
  | _ => inl (err 401 "No auth")
  end.

(** [req.user.role !== 'admin'], negated. *)
Definition is_admin (user : claims) : bool :=
  match c_role user with
  | Some r => streq r (lit "admin")
  | None => false
  end.

Definition signup (w : world) (b : signup_body) (d : db) : response * db :=
  match sb_email b, sb_password b with
  | Some (e :: email), Some (p :: password) =>
      match Sql.getUserByEmail d (Some (e :: email)) with
      | Some _ => (err 409 "Email exists", d)
      | None =>
          let id := uuid w in
          let hash := hashPassword w (p :: password) in
          let role := lit "admin" in
          match Sql.insertUser d
                  {| u_id := id; u_name := or_else (sb_name b) []; u_email := e :: email;
                     u_password_hash := hash; u_role := role; u_created_at := now w |} with
          | None => (Unanswered, d)
          | Some d' =>
              match Sql.getUserById d' id with
              | Some user => (Reply 200 (TokenUser (generateToken w user) user), d')
              | None => (Unanswered, d')
              end
          end
      end
  | _, _ => (err 400 "Missing fields", d)
  end.

Definition login (w : world) (b : login_body) (d : db) : response * db :=
  match bind_field lib (lb_email b) with
  | None => (Unanswered, d)
  | Some email =>
      match Sql.getUserByEmail d email with
      | None => (err 401 "Invalid", d)
      | Some row =>
          match verifyPassword (lb_password b) (u_password_hash row) with
          | None => (Unanswered, d)
          | Some false => (err 401 "Invalid", d)
          | Some true =>
              match Sql.getUserById d (u_id row) with
              | Some user => (Reply 200 (TokenUser (generateToken w user) user), d)
              | None => (Unanswered, d)
              end
          end
      end
  end.

(** [(r.price_cents/100).toFixed(2)]; a NULL column reads as [null], and
    [null/100] is 0. *)
Definition render_price (price_cents : option Num.number) : jsstring :=
  Num.toFixed2
    (Num.div (match price_cents with Some x => x | None => S754_zero false end)
       Num.hundred).

Definition view (r : product_row) : product_view :=
  {| pv_id := p_id r; pv_title := p_title r; pv_price := render_price (p_price_cents r);
     pv_description := p_description r; pv_author := p_author r;
     pv_asset_key := p_asset_key r |}.

Definition listProducts (d : db) : response * db :=
  (Reply 200 (ProductList (map view (Sql.getAllProducts d))), d).

(** [Math.round(Number(price) * 100)] *)
Definition to_cents (price : option Num.number) : Num.number :=
  Num.Math_round (Num.mul (Num.Number price) Num.hundred).

Definition createProduct (w : world) (h : headers) (b : product_body) (d : db)
  : response * db :=
  match authMiddleware w h with
  | inl r => (r, d)
  | inr user =>
      if negb (is_admin user) then (err 403 "Forbidden", d)
      else
        match pb_title b, pb_price b with
        | Some (t :: title), Some price =>
            if Num.truthy price then
              let id := uuid w in
              let price_cents := to_cents (Some price) in
              match Sql.insertProduct d
                      {| p_id := id; p_title := t :: title;
                         p_price_cents := Sql.bind_number price_cents;
                         p_description := or_else (pb_description b) [];
                         p_author := or_else (pb_author b) [];
                         p_asset_key := or_else (pb_asset_key b) [];
                         p_created_at := now w |} with
              | Some d' =>
                  (Reply 200
                     (Created id (t :: title)
                        (Num.toFixed2 (Num.div price_cents Num.hundred))
                        (pb_description b) (pb_author b) (pb_asset_key b)), d')
              | None => (Crashed, d)
              end
            else (err 400 "Missing", d)
        | _, _ => (err 400 "Missing", d)
        end
  end.

Definition putProduct (w : world) (h : headers) (id : jsstring) (b : product_body)
    (d : db) : response * db :=
  match authMiddleware w h with
  | inl r => (r, d)
  | inr user =>
      if negb (is_admin user) then (err 403 "Forbidden", d)
      else
        match Sql.getProductById d id with
        | None => (err 404 "Not found", d)
        | Some row =>
            let price_cents := to_cents (pb_price b) in
            (Reply 200 Ok,
             Sql.updateProduct d
               (or_else (pb_title b) (p_title row))
               (Sql.bind_nullable
                  (if Num.truthy price_cents then Some price_cents else p_price_cents row))
               (or_else (pb_description b) (p_description row))
               (or_else (pb_author b) (p_author row))
               (or_else (pb_asset_key b) (p_asset_key row))
               id)
        end
  end.

Definition deleteProductHandler (w : world) (h : headers) (id : jsstring) (d : db)
  : response * db :=
  match authMiddleware w h with
  | inl r => (r, d)
  | inr user =>
      if negb (is_admin user) then (err 403 "Forbidden", d)
      else (Reply 200 Ok, Sql.deleteProduct d id)
  end.

Definition presign (w : world) (h : headers) (b : presign_body) (d : db)
  : response * db :=
  match authMiddleware w h with
  | inl r => (r, d)
  | inr user =>
      if negb (is_admin user) then (err 403 "Forbidden", d)
      else
        match ps_filename b, ps_contentType b with
        | Some (f :: filename), Some (c :: contentType) =>
            let key := object_key (now w) (f :: filename) in
            match getSignedUrl lib (env_AWS_REGION cfg) (env_S3_BUCKET cfg) key
                    (c :: contentType) with
            | Some url =>
                let publicUrl :=
                  lit "https://" ++ tmpl (env_S3_BUCKET cfg) ++ lit ".s3."
                    ++ tmpl (env_AWS_REGION cfg) ++ lit ".amazonaws.com/" ++ key in
                (Reply 200 (Presigned url key publicUrl), d)
            | None => (err 500 "presign failed", d)
            end
        | _, _ => (err 400 "Missing", d)
        end
  end.

Definition line_item_of (i : item) : line_item :=
  {| li_name := i_title i;
     li_unit_amount := to_cents (i_price i);
     li_quantity :=
       match i_quantity i with
       | Some q => if Num.truthy q then q else Num.of_Z 1
       | None => Num.of_Z 1
       end |}.

(** The whole handler is inside [try]: every exception answers 500. *)
Definition checkout (w : world) (b : checkout_body) (d : db) : response * db :=
  match cb_items b with
  | None => (err 500 "stripe error", d)
  | Some items =>
      match sessions_create lib (or_else (env_STRIPE_SECRET cfg) [])
              {| cp_line_items := map line_item_of items;
                 cp_success_url := cb_successUrl b;
                 cp_cancel_url := cb_cancelUrl b;
                 cp_customer_email := cb_customerEmail b |} with
      | None => (err 500 "stripe error", d)
      | Some session =>
          match Sql.insertOrder d
                  {| o_id := uuid w; o_session_id := s_id session;
                     o_customer_email := or_else (cb_customerEmail b) [];
                     o_status := lit "pending";
                     o_metadata := JSON_stringify lib items;
                     o_created_at := now w |} with
          | Some d' => (Reply 200 (Redirect (s_url session)), d')
          | None => (err 500 "stripe error", d)
          end
      end
  end.

(** The [try] block of the webhook: [constructEvent] when a webhook secret
    is configured, plain [JSON.parse] otherwise. *)
Definition construct (payload : jsstring) (sig : field) : option json :=
  match env_STRIPE_WEBHOOK_SECRET cfg with
  | Some (c :: secret) => constructEvent lib payload sig (c :: secret)
  | _ => JSON_parse lib payload
  end.

(** After the [try] block.  [None]: an exception; [Some None]: an event of
    another type; [Some (Some sid)]: [updateOrderStatus.run('paid', sid)]. *)
Definition completed_session (event : json) : option (option field) :=
  ty <- prop (Some event) (lit "type") ;;
  if is_str ty "checkout.session.completed" then
    data <- prop (Some event) (lit "data") ;;
    session <- prop data (lit "object") ;;
    id <- prop session (lit "id") ;;
    sid <- bind_text lib id ;;
    Some (Some sid)
  else Some None.

Definition webhook (h : headers) (payload : jsstring) (d : db) : response * db :=
  match construct payload (stripe_signature h) with
  | None => (Reply 400 WebhookError, d)
  | Some event =>
      match completed_session event with
      | None => (Crashed, d)
      | Some None => (Reply 200 Received, d)
      | Some (Some sid) => (Reply 200 Received, Sql.updateOrderStatus d (lit "paid") sid)
      end
  end.

(** The routes. *)
Definition handle (w : world) (r : request) (d : db) : response * db :=
  match r with
  | GetRoot => (Reply 200 Welcome, d)
  | PostSignup b => signup w b d
  | PostLogin b => login w b d
  | GetProducts => listProducts d
  | PostProduct h b => createProduct w h b d
  | PutProduct h id b => putProduct w h id b d
  | DeleteProduct h id => deleteProductHandler w h id d
  | PostPresign h b => presign w h b d
  | PostCheckout b => checkout w b d
  | PostWebhook h payload => webhook h payload d
  end.

(** The server run on a sequence of requests. *)
Fixpoint run (d : db) (trace : list (world * request)) : db :=
  match trace with
  | [] => d
  | (w, r) :: trace' => run (snd (handle w r d)) trace'
  end.

End Server.

(** ** A small instance of the services, to run the handlers on examples *)

Module Demo.

Fixpoint strip_prefix (p s : jsstring) : option jsstring :=
  match p, s with
  | [], _ => Some s
  | a :: p', b :: s' => if N.eqb a b then strip_prefix p' s' else None
  | _ :: _, [] => None
  end.

Definition hash (plain : jsstring) (_ : N) : jsstring := lit "bcrypt:" ++ plain.

Definition compare (plain : field) (hashed : jsstring) : option bool :=
  match plain with
  | Some p => Some (streq (lit "bcrypt:" ++ p) hashed)
  | None => None
  end.

(** A token is [secret.role.sub]. *)
Definition sign (c : claims) (secret : jsstring) (_ : Z) : jsstring :=
  secret ++ Num.dot :: tmpl (c_role c) ++ Num.dot :: tmpl (c_sub c).

Definition verify (token secret : jsstring) (_ : Z) : option claims :=
  match split_on Num.dot token with
  | [s; r; u] =>
      if streq s secret then Some {| c_sub := Some u; c_role := Some r |} else None
  | _ => None
  end.

Definition completed_event (sid : jsstring) : json :=
  JObj [(lit "type", JStr (lit "checkout.session.completed"));
        (lit "data", JObj [(lit "object", JObj [(lit "id", JStr sid)])])].

(** The payload [completed:<id>] stands for a completion event of session
    [<id>], [ping] for an event of another type; nothing else parses. *)
Definition parse (payload : jsstring) : option json :=
  match strip_prefix (lit "completed:") payload with
  | Some sid => Some (completed_event sid)
  | None =>
      if streq payload (lit "ping") then Some (JObj [(lit "type", JStr (lit "ping"))])
      else None
  end.

(** The signature of a payload is the secret itself; a request without the
    header never verifies. *)
Definition construct_event (payload : jsstring) (sig : field) (secret : jsstring)
  : option json :=
  match sig with
  | Some s => if streq s secret then parse payload else None
  | None => None
  end.

Definition toy : services :=
  {| bcrypt_hash := hash;
     bcrypt_compare := compare;
     jwt_sign := sign;
     jwt_verify := verify;
     getSignedUrl := fun _ _ key _ => Some (lit "https://signed/" ++ key);
     sessions_create :=
       fun _ p => Some {| s_id := lit "cs_" ++ tmpl (cp_customer_email p);
                          s_url := lit "https://checkout/" |};
     constructEvent := construct_event;
     JSON_parse := parse;
     JSON_stringify := fun _ => lit "[]";
     bind_other := fun _ => None |}.

(** No variable of the environment is set. *)
Definition dev : config :=
  {| env_JWT_SECRET := None; env_STRIPE_SECRET := None;
     env_STRIPE_WEBHOOK_SECRET := None; env_AWS_REGION := None;
     env_S3_BUCKET := None |}.

(** As [dev], with a webhook secret. *)
Definition prod : config :=
  {| env_JWT_SECRET := None; env_STRIPE_SECRET := None;
     env_STRIPE_WEBHOOK_SECRET := Some (lit "whsec_1"); env_AWS_REGION := None;
     env_S3_BUCKET := None |}.

Definition at_time (t : Z) (id : string) : world :=
  {| now := t; uuid := lit id; entropy := 0%N |}.

Definition anonymous : headers := {| authorization := None; stripe_signature := None |}.

Definition bearer (token : jsstring) : headers :=
  {| authorization := Some (lit "Bearer " ++ token); stripe_signature := None |}.

Definition signed (sig : string) : headers :=
  {| authorization := None; stripe_signature := Some (lit sig) |}.

Definition admin_token : jsstring := lit "dev_jwt_secret.admin.u1".
Definition guest_token : jsstring := lit "dev_jwt_secret.guest.u2".

Definition alice : signup_body :=
  {| sb_name := Some (lit "Alice"); sb_email := Some (lit "a@x.com");
     sb_password := Some (lit "pw") |}.

Definition ebook (price : Num.number) : product_body :=
  {| pb_title := Some (lit "Ebook"); pb_price := Some price;
     pb_description := Some (lit "old"); pb_author := None; pb_asset_key := None |}.

(** 19.99, the binary64 closest to 1999/100. *)
Definition n19_99 : Num.number := Num.div (Num.of_Z 1999) Num.hundred.

Definition cart : checkout_body :=
  {| cb_items := Some [{| i_title := Some (lit "Ebook"); i_price := Some n19_99;
                          i_quantity := None |}];
     cb_successUrl := None; cb_cancelUrl := None;
     cb_customerEmail := Some (lit "a@x.com") |}.

End Demo.
(** ** The vocabulary of the statements *)

(** The object key as the specification words it: the characters outside
    the class are removed. *)
Definition stripped (filename : jsstring) : jsstring := filter allowed filename.

(** [UPDATE orders SET status = 'paid' WHERE session_id = sid], on one row. *)
Definition mark_paid (sid : field) (o : order_row) : order_row :=
  if Sql.text_eq (o_session_id o) sid then Sql.set_status (lit "paid") o else o.

(** The same order, whatever its status. *)
Definition same_order (o o' : order_row) : Prop :=
  o_id o' = o_id o /\ o_session_id o' = o_session_id o
  /\ o_customer_email o' = o_customer_email o
  /\ o_metadata o' = o_metadata o /\ o_created_at o' = o_created_at o.

Definition known_status (o : order_row) : Prop :=
  o_status o = lit "pending" \/ o_status o = lit "paid".

(** [event] is a [checkout.session.completed] event about the session
    [sid]. *)
Definition completion_of (event : json) (sid : jsstring) : Prop :=
  exists data session,
    prop (Some event) (lit "type")
    = Some (Some (JStr (lit "checkout.session.completed")))
    /\ prop (Some event) (lit "data") = Some data
    /\ prop data (lit "object") = Some session
    /\ prop session (lit "id") = Some (Some (JStr sid)).

(** The request is a webhook call whose payload the [try] block turned
    into an event ([constructEvent] with the configured secret, or
    [JSON.parse] when none is configured), and the handler then ran
    [updateOrderStatus] for [session_id]. *)
Definition accepted_completion (lib : services) (cfg : config) (r : request)
    (session_id : jsstring) : Prop :=
  exists h payload event,
    r = PostWebhook h payload
    /\ match env_STRIPE_WEBHOOK_SECRET cfg with
       | Some (c :: secret) =>
           constructEvent lib payload (stripe_signature h) (c :: secret) = Some event
       | _ => JSON_parse lib payload = Some event
       end
    /\ (exists ty, prop (Some event) (lit "type") = Some ty
                   /\ is_str ty "checkout.session.completed" = true)
    /\ completed_session lib event = Some (Some (Some session_id)).

(** The routes behind [authMiddleware] and the admin check, with the
    headers of the request. *)
Definition guarded (r : request) : option headers :=
  match r with
  | PostProduct h _ | PutProduct h _ _ | DeleteProduct h _ | PostPresign h _ => Some h
  | _ => None
  end.

Definition admin_role (u : user_row) : Prop := u_role u = lit "admin".

(** C9 as stated: an omitted field keeps the stored value, a supplied one
    replaces it. *)
Definition replaced (supplied : field) (old : jsstring) : jsstring :=
  match supplied with
  | Some s => s
  | None => old
  end.

(** What the update does with a text field: an omitted or empty one
    keeps the stored value, another one replaces it. *)
Definition merged (supplied : field) (old new : jsstring) : Prop :=
  match supplied with
  | Some (c :: s) => new = c :: s
  | _ => new = old
  end.

(** What the update does with the price: the stored cents stay when
    [Math.round(Number(price) * 100)] is 0 or NaN (a price that is
    omitted, is 0 or rounds to 0 cents), and are replaced otherwise. *)
Definition merged_price (supplied : option Num.number) (old new : option Num.number) : Prop :=
  if Num.truthy (to_cents supplied) then new = Some (to_cents supplied) else new = old.

Definition is_digit (c : code_unit) : bool := ((48 <=? c) && (c <=? 57))%N.

(** A decimal numeral with exactly two decimals: an optional minus sign,
    one digit at least, a point, two digits. *)
Definition two_decimal_format (s : jsstring) : Prop :=
  exists sign int frac,
    s = sign ++ int ++ Num.dot :: frac
    /\ (sign = [] \/ sign = lit "-")
    /\ int <> [] /\ Forall (fun c => is_digit c = true) int
    /\ Forall (fun c => is_digit c = true) frac /\ List.length frac = 2%nat.

(** A finite number below 10^21 in magnitude. *)
Definition below_1e21 (x : Num.number) : bool :=
  match x with
  | S754_zero _ => true
  | S754_finite _ m e => negb (Num.ge_1e21 m e)
  | _ => false
  end.

(** A value SQLite can hold in [price_cents]: not NaN, not [-0.0]. *)
Definition storable (v : option Num.number) : Prop := Sql.bind_nullable v = v.

Definition storable_rows (d : db) : Prop :=
  Forall (fun x => storable (p_price_cents x)) (products d).

(** C1 as stated: a status changes only through a webhook call whose
    signature [constructEvent] verified against the webhook secret. *)
Definition changes_only_when_verified (lib : services) (cfg : config) : Prop :=
  forall trace w r i o o',
    nth_error (orders (run lib cfg empty_db trace)) i = Some o ->
    nth_error (orders (snd (handle lib cfg w r (run lib cfg empty_db trace)))) i = Some o' ->
    o_status o' <> o_status o ->
    exists h payload secret event,
      r = PostWebhook h payload
      /\ env_STRIPE_WEBHOOK_SECRET cfg = Some secret
      /\ constructEvent lib payload (stripe_signature h) secret = Some event.

(** C3 as stated: a webhook call whose signature header verifies against
    no secret is answered 400 and changes nothing. *)
Definition rejects_unverified (lib : services) (cfg : config) : Prop :=
  forall h payload d,
    (forall secret, constructEvent lib payload (stripe_signature h) secret = None) ->
    webhook lib cfg h payload d = (Reply 400 WebhookError, d).

(** ** The stand-alone server of [server.js]

    A second Express application: a list of products kept in memory, a
    route that returns it and a route that appends to it. *)

Module Stub.

(** A JavaScript object: its own properties, each key once.  The list is
    read through [own_property]; its order is not the order in which
    JavaScript enumerates the keys (integer-like keys first). *)
Definition object := list (jsstring * json).



(** Defining the property [k] of an object literal: a key that is there
    gets the new value, another key is added. *)
Fixpoint define (k : jsstring) (v : json) (o : object) : object :=
  match o with
  | [] => [(k, v)]
  | (k', v') :: o' =>
      if streq k' k then (k, v) :: o' else (k', v') :: define k v o'
  end.

Fixpoint indexed {A : Type} (f : A -> json) (i : nat) (xs : list A) : object :=
  match xs with
  | [] => []
  | x :: xs' => (dec (Z.of_nat i), f x) :: indexed f (Datatypes.S i) xs'
  end.

(** The own enumerable properties that [...v] copies: the fields of an
    object, the elements of an array and the characters of a string under
    their indices, nothing for the other values. *)
Definition own_entries (v : json) : object :=
  match v with
  | JObj fs => fs
  | JArr xs => indexed (fun x => x) 0 xs
  | JStr s => indexed (fun c => JStr [c]) 0 s
  | _ => []
  end.

(** [{ ...o, ...v }] *)
Definition spread (o : object) (v : json) : object :=
  fold_left (fun acc kv => define (fst kv) (snd kv) acc) (own_entries v) o.

(** The content of a POST as [bodyParser.json()] reads it: [Some j] for a
    JSON request whose text is the JSON value [j], [None] for a JSON
    request whose text is not JSON.  A request that has no content, or
    whose [Content-Type] is not JSON, is not parsed and counts as
    [Some (JObj [])]: [req.body] is [{}] then. *)
Inductive request : Type :=
  | GetRoot
  | GetProducts
  | PostProducts (sent : option json).

Inductive response : Type :=
  | Banner
  | Listing (ps : list object)
  | Product (p : object)
  | BadRequest.

(** [app.use(bodyParser.json())], in its default strict mode: an object
    or an array gets to the route as [req.body]; a text that is not
    JSON, a string, a number, a boolean and [null] are answered 400 by
    the parser. *)
Definition body_parser (sent : option json) : option json :=
  match sent with
  | Some (JObj fs) => Some (JObj fs)
  | Some (JArr xs) => Some (JArr xs)
  | _ => None
  end.

(** [{ id: Date.now(), ...req.body }] *)
Definition newProduct (w : world) (body : json) : object :=
  spread [(lit "id", JNum (Num.of_Z (now w)))] body.

Definition handle (w : world) (r : request) (products : list object)
  : response * list object :=
  match r with
  | GetRoot => (Banner, products)
  | GetProducts => (Listing products, products)
  | PostProducts sent =>
      match body_parser sent with
      | Some body => (Product (newProduct w body), products ++ [newProduct w body])
      | None => (BadRequest, products)
      end
  end.

Fixpoint run (products : list object) (trace : list (world * request)) : list object :=
  match trace with
  | [] => products
  | (w, r) :: trace' => run (snd (handle w r products)) trace'
  end.



End Stub.

(** ** More vocabulary *)

(** The keys the schema declares: [id] in the three tables, and the
    UNIQUE [email]. *)
Definition unique_keys (d : db) : Prop :=
  NoDup (map u_id (users d)) /\ NoDup (map u_email (users d))
  /\ NoDup (map p_id (products d)) /\ NoDup (map o_id (orders d)).

(** What one request does to the database: nothing, or the write of one
    prepared statement. *)
Inductive effect (d : db) : db -> Prop :=
  | Unchanged : effect d d
  | UserInserted (r : user_row) (d' : db) :
      Sql.insertUser d r = Some d' -> effect d d'
  | ProductInserted (r : product_row) (d' : db) :
      Sql.insertProduct d r = Some d' -> effect d d'
  | ProductUpdated (title : jsstring) (price_cents : option Num.number)
      (description author asset_key id : jsstring) :
      effect d (Sql.updateProduct d title price_cents description author asset_key id)
  | ProductDeleted (id : jsstring) : effect d (Sql.deleteProduct d id)
  | OrderInserted (r : order_row) (d' : db) :
      Sql.insertOrder d r = Some d' -> effect d d'
  | OrderUpdated (status : jsstring) (sid : field) :
      effect d (Sql.updateOrderStatus d status sid).

(** The routes that only read the database. *)
Definition read_only (r : request) : bool :=
  match r with
  | GetRoot | GetProducts | PostLogin _ | PostPresign _ _ => true
  | _ => false
  end.

(** The binary64 closest to [c / 100]: the Number a JSON body gives for
    a price written in cents, as [19.99] for 1999. *)
Definition price_of_cents (c : Z) : Num.number := Num.div (Num.of_Z c) Num.hundred.

(** [c] cents written as a price with two decimals: [-0.05] for -5. *)
Definition decimal_price (c : Z) : jsstring :=
  (if c <? 0 then lit "-" else []) ++ Num.two_decimals (Z.abs c).

(** 100 * 2^45 cents.  Below 2^45 a Number has eight binary places after
    the point at least; from 2^45 on it has seven at most, and a price can
    come back from the catalogue one cent higher. *)
Definition cents_limit : Z := 3518437208883200.

Definition p52 : Z := 4503599627370496.
Definition p53 : Z := 9007199254740992.

(** The mantissa of [Num.hundred], which is [m100 * 2^(-46)]. *)
Definition m100 : Z := 7036874417766400.

(** How [SpecFloat] keeps a quotient while it rounds it: the record [x]
    places [N / D], counted in units of [2^k], at its mantissa (neither
    bit set), at the half above it (the round bit alone) or strictly
    between these and the next integer. *)
Definition placed (N D k : Z) (x : shr_record) : Prop :=
  0 <= shr_m x /\
  match shr_r x, shr_s x with
  | false, false => N = shr_m x * (2 ^ k * D)
  | false, true => shr_m x * (2 ^ k * D) < N /\ 2 * N < (2 * shr_m x + 1) * (2 ^ k * D)
  | true, false => 2 * N = (2 * shr_m x + 1) * (2 ^ k * D)
  | true, true => (2 * shr_m x + 1) * (2 ^ k * D) < 2 * N /\ N < (shr_m x + 1) * (2 ^ k * D)
  end.

Definition number_eqb (x y : Num.number) : bool :=
  match x, y with
  | S754_zero a, S754_zero b => Bool.eqb a b
  | S754_infinity a, S754_infinity b => Bool.eqb a b
  | S754_nan, S754_nan => true
  | S754_finite a m e, S754_finite b m' e' => Bool.eqb a b && Pos.eqb m m' && Z.eqb e e'
  | _, _ => false
  end.

(** A check by computation: the price of [c] cents is turned into the
    Number [c] by the create handler, and [toFixed(2)] of the stored [c]
    divided by 100 prints the integer [c] (with a point before its last
    two digits). *)
Definition cents_round_trip (c : Z) : bool :=
  number_eqb (to_cents (Some (price_of_cents c))) (Num.of_Z c)
  && match Sql.bind_number (Num.of_Z c) with
     | Some stored =>
         match Num.div stored Num.hundred with
         | S754_zero _ => c =? 0
         | S754_finite false m e => negb (Num.ge_1e21 m e) && (Num.scaled m e =? c)
         | _ => false
         end
     | None => false
     end.

(** [f] on every integer from [a] to [a + len - 1]. *)
Fixpoint all_range (f : Z -> bool) (a : Z) (len : positive) : bool :=
  match len with
  | xH => f a
  | xO p => all_range f a p && all_range f (a + Zpos p) p
  | xI p => f a && all_range f (a + 1) p && all_range f (a + 1 + Zpos p) p
  end.

(** [a] was created no earlier than [b]. *)
Definition newer (a b : product_row) : Prop := p_created_at b <= p_created_at a.

Definition slash : code_unit := 47%N.

(** The number of spaces of a header. *)
Definition spaces (auth : jsstring) : nat := count_occ N.eq_dec auth space.

(** * Properties *)

(** ** Strings *)

Lemma streq_true_iff (a b : jsstring) : streq a b = true <-> a = b.
Proof.
  revert b; induction a as [|x a IH]; intros [|y b]; simpl; split; intro H;
    try reflexivity; try discriminate.
  - apply andb_true_iff in H as [Hx Hab].
    apply N.eqb_eq in Hx. apply IH in Hab. congruence.
  - injection H as -> ->. rewrite N.eqb_refl. simpl. now apply IH.
Qed.

Lemma streq_refl (a : jsstring) : streq a a = true.
Proof. now apply streq_true_iff. Qed.

Lemma streq_false_iff (a b : jsstring) : streq a b = false <-> a <> b.
Proof.
  destruct (streq a b) eqn:E; split; intro H; try congruence.
  - apply streq_true_iff in E. contradiction.
  - intros ->. rewrite streq_refl in E. discriminate.
Qed.

Lemma lit_inj (s t : string) : lit s = lit t -> s = t.
Proof.
  unfold lit. intro H.
  rewrite <- (string_of_list_ascii_of_string s), <- (string_of_list_ascii_of_string t).
  f_equal.
  revert H. generalize (list_ascii_of_string s) (list_ascii_of_string t).
  induction l as [|a l IH]; intros [|b l']; simpl; intro H; try discriminate; auto.
  injection H as Hab Hl. f_equal; auto.
  rewrite <- (ascii_N_embedding a), <- (ascii_N_embedding b). now f_equal.
Qed.

Lemma to_int_not_nil (z : Z) : Z.to_int z <> Decimal.Pos Decimal.Nil /\ Z.to_int z <> Decimal.Neg Decimal.Nil.
Proof.
  destruct z as [|q|q]; simpl; split; try discriminate; intros [= H];
    now apply DecimalPos.Unsigned.to_uint_nonnil in H.
Qed.

(** Two integers with the same decimal rendering are equal. *)
Lemma dec_inj (t1 t2 : Z) : dec t1 = dec t2 -> t1 = t2.
Proof.
  unfold dec. intro H. apply lit_inj in H.
  apply DecimalZ.to_int_inj.
  destruct (to_int_not_nil t1) as [P1 N1], (to_int_not_nil t2) as [P2 N2].
  pose proof (NilZero.isi _ P1 N1) as E1.
  pose proof (NilZero.isi _ P2 N2) as E2.
  rewrite H in E1. congruence.
Qed.

Lemma split_on_not_nil (sep : code_unit) (s : jsstring) : split_on sep s <> [].
Proof.
  destruct s as [|c s]; simpl; [discriminate|].
  destruct (N.eqb c sep); [discriminate|].
  destruct (split_on sep s); discriminate.
Qed.

Lemma split_on_one (a b : jsstring) :
  ~ In space a -> ~ In space b -> split_on space (a ++ space :: b) = [a; b].
Proof.
  intros Ha Hb.
  assert (Eb : split_on space b = [b]).
  { clear Ha. induction b as [|c b IH]; [reflexivity|]. cbn [split_on].
    destruct (N.eqb c space) eqn:Ec.
    - apply N.eqb_eq in Ec. exfalso. apply Hb. now left.
    - rewrite IH; [reflexivity|]. intro H. apply Hb. now right. }
  induction a as [|c a IH]; cbn [split_on app].
  - now rewrite N.eqb_refl, Eb.
  - destruct (N.eqb c space) eqn:Ec.
    + apply N.eqb_eq in Ec. exfalso. apply Ha. now left.
    + rewrite IH; [reflexivity|]. intro H. apply Ha. now right.
Qed.

Lemma split_on_single (s b : jsstring) :
  split_on space s = [b] -> s = b /\ ~ In space b.
Proof.
  revert b. induction s as [|c s IH]; intros b H; cbn [split_on] in H.
  - injection H as <-. auto.
  - destruct (N.eqb c space) eqn:Ec.
    + injection H as _ H. now apply split_on_not_nil in H.
    + destruct (split_on space s) as [|q qs] eqn:E; [now apply split_on_not_nil in E|].
      injection H as <- ->.
      destruct (IH q eq_refl) as [-> Hq].
      split; [reflexivity|]. intros [H|H]; [|contradiction].
      subst c. now rewrite N.eqb_refl in Ec.
Qed.

Lemma split_on_two (s a b : jsstring) :
  split_on space s = [a; b] -> s = a ++ space :: b /\ ~ In space a /\ ~ In space b.
Proof.
  revert a b. induction s as [|c s IH]; intros a b H; cbn [split_on] in H; [discriminate|].
  destruct (N.eqb c space) eqn:Ec.
  - apply N.eqb_eq in Ec. subst c.
    injection H as <- H. apply split_on_single in H as [-> Hb]. auto.
  - destruct (split_on space s) as [|q qs] eqn:E; [now apply split_on_not_nil in E|].
    injection H as <- ->.
    destruct (IH q b eq_refl) as (-> & Hq & Hb).
    repeat split; auto. intros [H|H]; [|contradiction].
    subst c. now rewrite N.eqb_refl in Ec.
Qed.

(** ** The upload broker *)

Lemma sanitize_length (f : jsstring) : List.length (sanitize f) = List.length f.
Proof. apply length_map. Qed.

Lemma sanitize_nth (f : jsstring) (i : nat) (c : code_unit) :
  nth_error f i = Some c ->
  nth_error (sanitize f) i = Some (if allowed c then c else underscore).
Proof. intro H. unfold sanitize. now rewrite nth_error_map, H. Qed.

Lemma sanitize_charset (f : jsstring) :
  Forall (fun c => allowed c = true \/ c = underscore) (sanitize f).
Proof.
  unfold sanitize. apply Forall_map, Forall_forall. intros c _.
  destruct (allowed c) eqn:E; auto.
Qed.

Lemma object_key_inj_time (t1 t2 : Z) (f : jsstring) :
  object_key t1 f = object_key t2 f -> t1 = t2.
Proof.
  unfold object_key. intro H.
  apply app_inv_head in H.
  change (dec t1 ++ [underscore] ++ sanitize f = dec t2 ++ [underscore] ++ sanitize f) in H.
  rewrite !app_assoc in H. apply app_inv_tail in H. apply app_inv_tail in H.
  now apply dec_inj.
Qed.

(** C4, as stated, fails: for the file name [a b] the handler returns the
    key [uploads/5_a_b]; it does not end with the stripped name [ab], and
    after its prefix it holds an underscore, which is outside
    [A-Za-z0-9.-]. *)
Lemma presign_does_not_strip :
  exists url key publicUrl,
    fst (presign Demo.toy Demo.dev (Demo.at_time 5 "") (Demo.bearer Demo.admin_token)
           {| ps_filename := Some (lit "a b"); ps_contentType := Some (lit "image/png") |}
           empty_db)
    = Reply 200 (Presigned url key publicUrl)
    /\ key = lit "uploads/5_a_b"
    /\ (forall prefix, key <> prefix ++ stripped (lit "a b"))
    /\ ~ Forall (fun c => allowed c = true) (skipn (List.length (lit "uploads/5_")) key).
Proof.
  eexists _, _, _. split; [vm_compute; reflexivity|].
  split; [reflexivity|]. split.
  - intros prefix H.
    apply (f_equal (@rev code_unit)) in H. rewrite rev_app_distr in H.
    vm_compute in H. discriminate.
  - intro H. vm_compute in H.
    inversion H as [|? ? _ H1]. inversion H1 as [|? ? U _]. discriminate.
Qed.

Section Presign.

Variable lib : services.
Variable cfg : config.

(** C4, amended: for an admin and a request with [filename] and
    [contentType], the handler answers 500 when the object store refuses
    and otherwise returns the key [uploads/<time>_<name>], where [<name>]
    is the file name with every character outside [A-Za-z0-9.-] replaced
    by an underscore, position by position; the keys of one file name at
    two different times differ; after the prefix every character is in the
    class or is an underscore. *)
Theorem presign_key (w : world) (h : headers) (b : presign_body) (d : db)
    (user : claims) (filename contentType : jsstring) :
  authMiddleware lib cfg w h = inr user ->
  is_admin user = true ->
  ps_filename b = Some filename -> filename <> [] ->
  ps_contentType b = Some contentType -> contentType <> [] ->
  let key := lit "uploads/" ++ dec (now w) ++ underscore :: sanitize filename in
  (presign lib cfg w h b d = (err 500 "presign failed", d)
   \/ exists url publicUrl,
        presign lib cfg w h b d = (Reply 200 (Presigned url key publicUrl), d))
  /\ List.length (sanitize filename) = List.length filename
  /\ (forall i c, nth_error filename i = Some c ->
        nth_error (sanitize filename) i = Some (if allowed c then c else underscore))
  /\ Forall (fun c => allowed c = true \/ c = underscore) (sanitize filename)
  /\ (forall t, t <> now w ->
        lit "uploads/" ++ dec t ++ underscore :: sanitize filename <> key).
Proof.
  intros Hauth Hadmin Hf Hf0 Hc Hc0 key.
  split; [|split; [|split; [|split]]].
  - unfold presign. rewrite Hauth, Hadmin, Hf, Hc. simpl.
    destruct filename as [|f0 f]; [contradiction|].
    destruct contentType as [|c0 c]; [contradiction|].
    fold (object_key (now w) (f0 :: f)).
    destruct (getSignedUrl lib _ _ _ _); [right|left]; eauto.
  - apply sanitize_length.
  - apply sanitize_nth.
  - apply sanitize_charset.
  - intros t Ht E. apply Ht. now apply (object_key_inj_time t (now w) filename).
Qed.

End Presign.

Lemma presign_key_witness :
  exists url publicUrl,
    presign Demo.toy Demo.dev (Demo.at_time 5 "") (Demo.bearer Demo.admin_token)
      {| ps_filename := Some (lit "a b"); ps_contentType := Some (lit "image/png") |}
      empty_db
    = (Reply 200 (Presigned url (lit "uploads/5_a_b") publicUrl), empty_db).
Proof.
  destruct (presign_key Demo.toy Demo.dev (Demo.at_time 5 "") (Demo.bearer Demo.admin_token)
              {| ps_filename := Some (lit "a b"); ps_contentType := Some (lit "image/png") |}
              empty_db
              {| c_sub := Some (lit "u1"); c_role := Some (lit "admin") |}
              (lit "a b") (lit "image/png"))
    as [[H|H] _];
    [ reflexivity | reflexivity | reflexivity | discriminate | reflexivity | discriminate
    | discriminate H | exact H ].
Defined.

(** ** The order ledger *)

Lemma mark_paid_none (l : list order_row) : map (mark_paid None) l = l.
Proof. induction l as [|o l IH]; simpl; [reflexivity | now rewrite IH]. Qed.

Lemma db_eta (d : db) :
  {| users := users d; products := products d; orders := orders d |} = d.
Proof. now destruct d. Qed.

Lemma insertUser_Some (d d' : db) (r : user_row) :
  Sql.insertUser d r = Some d' ->
  d' = {| users := users d ++ [r]; products := products d; orders := orders d |}.
Proof. unfold Sql.insertUser. destruct (existsb _ _); congruence. Qed.

Lemma insertProduct_Some (d d' : db) (r : product_row) :
  Sql.insertProduct d r = Some d' ->
  d' = {| users := users d; products := products d ++ [r]; orders := orders d |}.
Proof. unfold Sql.insertProduct. destruct (existsb _ _); congruence. Qed.

Lemma insertOrder_Some (d d' : db) (r : order_row) :
  Sql.insertOrder d r = Some d' ->
  d' = {| users := users d; products := products d; orders := orders d ++ [r] |}.
Proof. unfold Sql.insertOrder. destruct (existsb _ _); congruence. Qed.

(** Destructs the scrutinee of the first [match] of the goal. *)
Ltac case_match :=
  match goal with
  | |- context [match ?x with _ => _ end] => destruct x eqn:?
  end.

(** Replaces the database of a successful INSERT by its value. *)
Ltac inserted :=
  repeat match goal with
    | H : Sql.insertUser _ _ = Some _ |- _ => apply insertUser_Some in H; subst
    | H : Sql.insertProduct _ _ = Some _ |- _ => apply insertProduct_Some in H; subst
    | H : Sql.insertOrder _ _ = Some _ |- _ => apply insertOrder_Some in H; subst
    end.

(** Walks through a handler, branch by branch. *)
Ltac branches := try reflexivity; repeat (case_match; inserted; try reflexivity).

Section Ledger.

Variable lib : services.
Variable cfg : config.

Lemma construct_accepts (payload : jsstring) (sig : field) (event : json) :
  construct lib cfg payload sig = Some event <->
  match env_STRIPE_WEBHOOK_SECRET cfg with
  | Some (c :: secret) => constructEvent lib payload sig (c :: secret) = Some event
  | _ => JSON_parse lib payload = Some event
  end.
Proof. unfold construct. destruct (env_STRIPE_WEBHOOK_SECRET cfg) as [[|c s]|]; tauto. Qed.

Lemma completed_session_type (event : json) (sid : field) :
  completed_session lib event = Some (Some sid) ->
  exists ty, prop (Some event) (lit "type") = Some ty
             /\ is_str ty "checkout.session.completed" = true.
Proof.
  unfold completed_session. intro H.
  destruct (prop (Some event) (lit "type")) as [ty|]; [|discriminate].
  exists ty. split; [reflexivity|].
  destruct (is_str ty "checkout.session.completed"); [reflexivity|discriminate].
Qed.

(** One request: the orders are the former ones, those of one session
    marked paid by an accepted completion event, and at most one new
    pending order behind them. *)
Lemma handle_orders (w : world) (r : request) (d : db) :
  exists (sid : field) (extra : list order_row),
    orders (snd (handle lib cfg w r d)) = map (mark_paid sid) (orders d) ++ extra
    /\ Forall (fun o => o_status o = lit "pending") extra
    /\ (forall s, sid = Some s -> accepted_completion lib cfg r s).
Proof.
  assert (Same : forall d', orders d' = orders d ->
            exists sid extra,
              orders d' = map (mark_paid sid) (orders d) ++ extra
              /\ Forall (fun o => o_status o = lit "pending") extra
              /\ (forall s, sid = Some s -> accepted_completion lib cfg r s)).
  { intros d' E. exists None, []. rewrite mark_paid_none, app_nil_r.
    repeat split; auto. discriminate. }
  destruct r as [|b|b| |h b|h id b|h id|h b|b|h payload]; cbn [handle].
  - now apply Same.
  - apply Same. unfold signup. branches.
  - apply Same. unfold login. branches.
  - now apply Same.
  - apply Same. unfold createProduct. branches.
  - apply Same. unfold putProduct. branches.
  - apply Same. unfold deleteProductHandler. branches.
  - apply Same. unfold presign. branches.
  - unfold checkout.
    destruct (cb_items b) as [items|]; [|now apply Same].
    destruct (sessions_create lib _ _) as [session|]; [|now apply Same].
    destruct (Sql.insertOrder d _) as [d'|] eqn:Hins; [|now apply Same].
    inserted.
    eexists None, [_]. cbn [snd orders]. rewrite mark_paid_none.
    repeat split; [|discriminate]. repeat constructor.
  - unfold webhook.
    destruct (construct lib cfg payload (stripe_signature h)) as [event|] eqn:Ec;
      [|now apply Same].
    destruct (completed_session lib event) as [[sid|]|] eqn:Es; try now apply Same.
    exists sid, []. cbn [snd orders Sql.updateOrderStatus]. rewrite app_nil_r.
    repeat split; auto.
    intros s ->. exists h, payload, event. repeat split; auto.
    + now apply construct_accepts.
    + now apply completed_session_type in Es.
Qed.

Lemma mark_paid_same (sid : field) (o : order_row) : same_order o (mark_paid sid o).
Proof.
  unfold mark_paid, same_order. destruct (Sql.text_eq _ _); simpl; repeat split.
Qed.

Lemma mark_paid_status (sid : field) (o : order_row) :
  o_status (mark_paid sid o) = o_status o
  \/ (exists s, sid = Some s /\ o_session_id o = s)
     /\ o_status (mark_paid sid o) = lit "paid".
Proof.
  unfold mark_paid, Sql.text_eq. destruct sid as [s|]; [|now left].
  destruct (streq (o_session_id o) s) eqn:E; [|now left].
  right. apply streq_true_iff in E. split; [eauto | reflexivity].
Qed.

(** One request on one order. *)
Lemma handle_order (w : world) (r : request) (d : db) (i : nat) (o : order_row) :
  nth_error (orders d) i = Some o ->
  exists o',
    nth_error (orders (snd (handle lib cfg w r d))) i = Some o'
    /\ same_order o o'
    /\ (o_status o' = o_status o
        \/ o_status o' = lit "paid" /\ accepted_completion lib cfg r (o_session_id o)).
Proof.
  intro Hi.
  destruct (handle_orders w r d) as (sid & extra & E & _ & Hacc).
  exists (mark_paid sid o). rewrite E. split; [|split].
  - rewrite nth_error_app1.
    + now rewrite nth_error_map, Hi.
    + rewrite length_map. apply nth_error_Some. congruence.
  - apply mark_paid_same.
  - destruct (mark_paid_status sid o) as [H|[(s & -> & Hs) H]]; [now left|].
    right. split; [assumption|]. apply Hacc. now rewrite Hs.
Qed.

Lemma handle_known_status (w : world) (r : request) (d : db) :
  Forall known_status (orders d) ->
  Forall known_status (orders (snd (handle lib cfg w r d))).
Proof.
  intro H. destruct (handle_orders w r d) as (sid & extra & E & Hex & _).
  rewrite E. apply Forall_app. split.
  - apply Forall_map. eapply Forall_impl; [|exact H].
    intros o Ho. unfold known_status in *.
    destruct (mark_paid_status sid o) as [->|[_ ->]]; [assumption|now right].
  - eapply Forall_impl; [|exact Hex]. intros o Ho. now left.
Qed.

Lemma run_known_status (trace : list (world * request)) (d : db) :
  Forall known_status (orders d) -> Forall known_status (orders (run lib cfg d trace)).
Proof.
  revert d. induction trace as [|[w r] trace IH]; intros d H; simpl; [assumption|].
  apply IH. now apply handle_known_status.
Qed.

(** A paid order stays paid, whatever requests follow. *)
Lemma run_paid (trace : list (world * request)) (d : db) (i : nat) (o : order_row) :
  nth_error (orders d) i = Some o ->
  exists o',
    nth_error (orders (run lib cfg d trace)) i = Some o'
    /\ same_order o o'
    /\ (o_status o = lit "paid" -> o_status o' = lit "paid").
Proof.
  revert d o. induction trace as [|[w r] trace IH]; intros d o Hi; simpl.
  - exists o. repeat split; auto.
  - destruct (handle_order w r d i o Hi) as (o1 & H1 & S1 & C1).
    destruct (IH _ _ H1) as (o2 & H2 & S2 & C2).
    exists o2. split; [assumption|]. split.
    + unfold same_order in *. intuition congruence.
    + intro P. apply C2. destruct C1 as [->|[-> _]]; auto.
Qed.

(** C1, amended: in every state the server reaches from the empty
    database an order is pending or paid; one request keeps every order
    in place with all its other columns, and changes its status only from
    pending to paid and only through a webhook call carrying a
    [checkout.session.completed] event for the session of the order, an
    event that [constructEvent] verified when a webhook secret is
    configured and that [JSON.parse] merely parsed when none is; a paid
    order stays paid through every later request, so the status changes
    at most once; and an order that a request adds is pending. *)
Theorem order_status_lifecycle (trace : list (world * request)) (w : world)
    (r : request) (i : nat) (o : order_row) :
  nth_error (orders (run lib cfg empty_db trace)) i = Some o ->
  known_status o
  /\ exists o',
       nth_error (orders (snd (handle lib cfg w r (run lib cfg empty_db trace)))) i = Some o'
       /\ same_order o o'
       /\ (o_status o' = o_status o
           \/ o_status o = lit "pending" /\ o_status o' = lit "paid"
              /\ accepted_completion lib cfg r (o_session_id o))
       /\ (forall later,
             exists o'',
               nth_error
                 (orders (run lib cfg (snd (handle lib cfg w r (run lib cfg empty_db trace)))
                            later))
                 i = Some o''
               /\ same_order o o''
               /\ (o_status o' = lit "paid" -> o_status o'' = lit "paid"))
       /\ forall j n,
            nth_error (orders (run lib cfg empty_db trace)) j = None ->
            nth_error (orders (snd (handle lib cfg w r (run lib cfg empty_db trace)))) j
            = Some n ->
            o_status n = lit "pending".
Proof.
  intro Hi.
  assert (K : known_status o).
  { pose proof (run_known_status trace empty_db (Forall_nil _)) as F.
    rewrite Forall_forall in F. apply F. eapply nth_error_In, Hi. }
  split; [exact K|].
  destruct (handle_order w r _ i o Hi) as (o' & H' & Same & Ch).
  exists o'. split; [exact H'|]. split; [exact Same|]. split.
  - destruct Ch as [E|[P A]]; [now left|].
    destruct K as [K|K]; [right; auto | left; congruence].
  - split.
    + intro later.
      destruct (run_paid later _ i o' H') as (o'' & H'' & Same' & P).
      exists o''. split; [exact H''|]. split; [|exact P].
      unfold same_order in *. intuition congruence.
    + intros j n Hj Hn.
      destruct (handle_orders w r (run lib cfg empty_db trace))
        as (sid & extra & E & Pending & _).
      rewrite E in Hn. apply nth_error_None in Hj.
      rewrite nth_error_app2 in Hn by (rewrite length_map; exact Hj).
      apply nth_error_In in Hn. rewrite Forall_forall in Pending. now apply Pending.
Qed.

(** C3, amended: the webhook answers 400 and changes nothing exactly when
    its [try] block throws, that is when [constructEvent] rejects the
    payload or its signature header under the configured secret or, with
    no secret configured, when [JSON.parse] rejects the payload (the
    signature header is then not looked at); and whenever the answer is
    not [{received: true}] the database is unchanged. *)
Theorem webhook_rejects (h : headers) (payload : jsstring) (d : db) :
  (match env_STRIPE_WEBHOOK_SECRET cfg with
   | Some (c :: secret) =>
       constructEvent lib payload (stripe_signature h) (c :: secret) = None
   | _ => JSON_parse lib payload = None
   end
   <-> webhook lib cfg h payload d = (Reply 400 WebhookError, d))
  /\ (fst (webhook lib cfg h payload d) <> Reply 200 Received ->
      snd (webhook lib cfg h payload d) = d).
Proof.
  unfold webhook, construct.
  destruct (env_STRIPE_WEBHOOK_SECRET cfg) as [[|c secret]|].
  all: match goal with
       | |- context [match ?e with Some _ => _ | None => _ end] =>
           destruct e as [event|] eqn:E
       end.
  all: try (split; [split; [discriminate | intro H] | intro H]).
  all: try (split; [split; reflexivity | reflexivity]).
  all: destruct (completed_session lib event) as [[sid|]|];
       simpl in *; try discriminate; try reflexivity; try (now elim H).
Qed.

(** C2: when the [try] block of the webhook yields a
    [checkout.session.completed] event for the session [sid] (an event
    verified by [constructEvent] whenever a webhook secret is configured),
    the handler answers [{received: true}] and sets to paid the orders
    whose [session_id] is [sid], touching nothing else; without such an
    order the database is unchanged; and the same call on the resulting
    database gives the same answer and the same database. *)
Theorem completion_marks_paid (h : headers) (payload : jsstring) (event : json)
    (sid : jsstring) (d : db) :
  construct lib cfg payload (stripe_signature h) = Some event ->
  completion_of event sid ->
  let d' := Sql.updateOrderStatus d (lit "paid") (Some sid) in
  webhook lib cfg h payload d = (Reply 200 Received, d')
  /\ users d' = users d /\ products d' = products d
  /\ orders d'
     = map (fun o => if streq (o_session_id o) sid
                     then Sql.set_status (lit "paid") o else o) (orders d)
  /\ ((forall o, In o (orders d) -> o_session_id o <> sid) -> d' = d)
  /\ webhook lib cfg h payload d' = (Reply 200 Received, d').
Proof.
  intros Hc (data & session & Hty & Hdata & Hobj & Hid) d'.
  assert (Es : completed_session lib event = Some (Some (Some sid))).
  { unfold completed_session. rewrite Hty. cbn [is_str]. rewrite streq_refl.
    rewrite Hdata, Hobj, Hid. reflexivity. }
  assert (W : forall x, webhook lib cfg h payload x
                        = (Reply 200 Received, Sql.updateOrderStatus x (lit "paid") (Some sid))).
  { intro x. unfold webhook. now rewrite Hc, Es. }
  split; [apply W|]. split; [reflexivity|]. split; [reflexivity|].
  split; [reflexivity|]. split.
  - intro Hno. subst d'. unfold Sql.updateOrderStatus.
    rewrite <- (db_eta d) at 4. f_equal.
    rewrite <- (map_id (orders d)) at 2. apply map_ext_in.
    intros o Ho. cbn [Sql.text_eq].
    destruct (streq (o_session_id o) sid) eqn:E; [|reflexivity].
    apply streq_true_iff in E. now apply Hno in Ho.
  - rewrite W. f_equal. subst d'. unfold Sql.updateOrderStatus. cbn [users products orders].
    f_equal. rewrite map_map. apply map_ext. intro o. cbn [Sql.text_eq].
    destruct (streq (o_session_id o) sid) eqn:E; cbn [Sql.set_status o_session_id];
      rewrite E; reflexivity.
Qed.

End Ledger.

(** C1, as stated, fails: with no webhook secret configured, a webhook
    call without any signature header turns the pending order of a
    checkout into a paid one. *)
Lemma unverified_event_marks_paid : ~ changes_only_when_verified Demo.toy Demo.dev.
Proof.
  intro H.
  destruct (H [(Demo.at_time 5 "o1", PostCheckout Demo.cart)]
              (Demo.at_time 6 "")
              (PostWebhook Demo.anonymous (lit "completed:cs_a@x.com"))
              0%nat
              {| o_id := lit "o1"; o_session_id := lit "cs_a@x.com";
                 o_customer_email := lit "a@x.com"; o_status := lit "pending";
                 o_metadata := lit "[]"; o_created_at := 5 |}
              {| o_id := lit "o1"; o_session_id := lit "cs_a@x.com";
                 o_customer_email := lit "a@x.com"; o_status := lit "paid";
                 o_metadata := lit "[]"; o_created_at := 5 |})
    as (h & payload & secret & event & _ & Hsecret & _).
  - reflexivity.
  - reflexivity.
  - discriminate.
  - discriminate Hsecret.
Qed.

Lemma order_status_lifecycle_witness :
  known_status
    {| o_id := lit "o1"; o_session_id := lit "cs_a@x.com";
       o_customer_email := lit "a@x.com"; o_status := lit "pending";
       o_metadata := lit "[]"; o_created_at := 5 |}
  /\ exists o',
       nth_error
         (orders
            (run Demo.toy Demo.prod empty_db
               [(Demo.at_time 5 "o1", PostCheckout Demo.cart);
                (Demo.at_time 6 "",
                 PostWebhook (Demo.signed "whsec_1") (lit "completed:cs_a@x.com"))]))
         0
       = Some o'
       /\ same_order
            {| o_id := lit "o1"; o_session_id := lit "cs_a@x.com";
               o_customer_email := lit "a@x.com"; o_status := lit "pending";
               o_metadata := lit "[]"; o_created_at := 5 |} o'.
Proof.
  destruct (order_status_lifecycle Demo.toy Demo.prod
              [(Demo.at_time 5 "o1", PostCheckout Demo.cart)]
              (Demo.at_time 6 "")
              (PostWebhook (Demo.signed "whsec_1") (lit "completed:cs_a@x.com"))
              0%nat
              {| o_id := lit "o1"; o_session_id := lit "cs_a@x.com";
                 o_customer_email := lit "a@x.com"; o_status := lit "pending";
                 o_metadata := lit "[]"; o_created_at := 5 |})
    as (K & o' & H & Same & _).
  - reflexivity.
  - split; [exact K|]. exists o'. split; [exact H | exact Same].
Defined.

(** C3, as stated, fails: with no webhook secret configured, a call
    without signature header, which verifies against no secret, is
    answered 200 and marks the order paid. *)
Lemma unsigned_event_accepted : ~ rejects_unverified Demo.toy Demo.dev.
Proof.
  intro H.
  specialize (H Demo.anonymous (lit "completed:cs_a@x.com")
                (run Demo.toy Demo.dev empty_db
                   [(Demo.at_time 5 "o1", PostCheckout Demo.cart)])
                (fun _ => eq_refl)).
  vm_compute in H. discriminate H.
Qed.

Lemma webhook_rejects_witness :
  webhook Demo.toy Demo.prod (Demo.signed "forged") (lit "completed:cs_a@x.com")
    (run Demo.toy Demo.prod empty_db [(Demo.at_time 5 "o1", PostCheckout Demo.cart)])
  = (Reply 400 WebhookError,
     run Demo.toy Demo.prod empty_db [(Demo.at_time 5 "o1", PostCheckout Demo.cart)]).
Proof.
  apply (webhook_rejects Demo.toy Demo.prod (Demo.signed "forged")
           (lit "completed:cs_a@x.com")).
  reflexivity.
Defined.

Lemma completion_marks_paid_witness :
  webhook Demo.toy Demo.prod (Demo.signed "whsec_1") (lit "completed:cs_a@x.com")
    (run Demo.toy Demo.prod empty_db [(Demo.at_time 5 "o1", PostCheckout Demo.cart)])
  = (Reply 200 Received,
     {| users := []; products := [];
        orders := [ {| o_id := lit "o1"; o_session_id := lit "cs_a@x.com";
                       o_customer_email := lit "a@x.com"; o_status := lit "paid";
                       o_metadata := lit "[]"; o_created_at := 5 |} ] |}).
Proof.
  apply (completion_marks_paid Demo.toy Demo.prod (Demo.signed "whsec_1")
           (lit "completed:cs_a@x.com") (Demo.completed_event (lit "cs_a@x.com"))
           (lit "cs_a@x.com")).
  - reflexivity.
  - eexists _, _. repeat split; reflexivity.
Defined.

(** ** The auth gate *)

Section Auth.

Variable lib : services.
Variable cfg : config.

Lemma auth_accepts (w : world) (h : headers) (user : claims) :
  authMiddleware lib cfg w h = inr user <->
  exists scheme token,
    authorization h = Some (scheme ++ space :: token)
    /\ ~ In space scheme /\ ~ In space token
    /\ jwt_verify lib token (JWT_SECRET cfg) (now w) = Some user.
Proof.
  unfold authMiddleware. split.
  - destruct (authorization h) as [[|c auth]|]; try discriminate.
    destruct (split_on space (c :: auth)) as [|a [|t [|x l]]] eqn:E; try discriminate.
    destruct (jwt_verify lib t _ _) as [payload|] eqn:V; [|discriminate].
    intros [= <-]. apply split_on_two in E as (E & Ha & Ht).
    exists a, t. rewrite E. auto.
  - intros (scheme & token & -> & Hs & Ht & V).
    destruct (scheme ++ space :: token) as [|c auth] eqn:E.
    + now destruct scheme.
    + rewrite <- E, split_on_one by assumption. now rewrite V.
Qed.

Lemma auth_rejects (w : world) (h : headers) (resp : response) :
  authMiddleware lib cfg w h = inl resp -> exists msg, resp = Reply 401 (Error msg).
Proof.
  unfold authMiddleware, err.
  repeat case_match; intros [= <-]; eauto.
Qed.

Lemma is_admin_true (user : claims) :
  is_admin user = true <-> c_role user = Some (lit "admin").
Proof.
  unfold is_admin. destruct (c_role user) as [r|]; [|split; discriminate].
  rewrite streq_true_iff. split; congruence.
Qed.

(** A guarded route, once the middleware has answered. *)
Lemma guarded_rejected (w : world) (r : request) (h : headers) (d : db) (resp : response) :
  guarded r = Some h -> authMiddleware lib cfg w h = inl resp ->
  handle lib cfg w r d = (resp, d).
Proof.
  intros G A.
  destruct r; try discriminate; injection G as ->; cbn [handle];
    unfold createProduct, putProduct, deleteProductHandler, presign; now rewrite A.
Qed.

Lemma guarded_forbidden (w : world) (r : request) (h : headers) (d : db) (user : claims) :
  guarded r = Some h -> authMiddleware lib cfg w h = inr user -> is_admin user = false ->
  handle lib cfg w r d = (err 403 "Forbidden", d).
Proof.
  intros G A F.
  destruct r; try discriminate; injection G as ->; cbn [handle];
    unfold createProduct, putProduct, deleteProductHandler, presign; now rewrite A, F.
Qed.

(** What an admin can be answered on a guarded route. *)
Lemma guarded_admin (w : world) (r : request) (h : headers) (d : db) (user : claims)
    (status : Z) (b : body) :
  guarded r = Some h -> authMiddleware lib cfg w h = inr user -> is_admin user = true ->
  fst (handle lib cfg w r d) = Reply status b ->
  status = 200 \/ status = 400 \/ status = 404 \/ status = 500.
Proof.
  intros G A F.
  destruct r; try discriminate; injection G as ->; cbn [handle];
    unfold createProduct, putProduct, deleteProductHandler, presign, err;
    rewrite A, F; cbn [negb];
    repeat case_match; cbn [fst]; intros [= <- <-]; auto.
Qed.

(** Only a guarded route changes the catalogue, and only for an admin. *)
Lemma catalogue_changed (w : world) (r : request) (d : db) :
  products (snd (handle lib cfg w r d)) <> products d ->
  exists h user,
    guarded r = Some h /\ authMiddleware lib cfg w h = inr user /\ is_admin user = true.
Proof.
  intro Hne.
  destruct (guarded r) as [h|] eqn:G.
  - destruct (authMiddleware lib cfg w h) as [resp|user] eqn:A.
    + rewrite (guarded_rejected w r h d resp G A) in Hne. now elim Hne.
    + destruct (is_admin user) eqn:F; [eauto|].
      rewrite (guarded_forbidden w r h d user G A F) in Hne. now elim Hne.
  - exfalso. apply Hne.
    destruct r; try discriminate; cbn [handle];
      unfold signup, login, listProducts, checkout, webhook; branches.
Qed.

(** C6: on the create, update, delete and presign routes, a request
    without Authorization header, and any request the middleware turns
    down, is answered 401; a request whose token fails verification is
    answered 401; a request with a verified token whose role is not
    [admin] is answered 403; in all these cases the database is
    unchanged; and whatever the route, a request that changes the
    products carries a verified token whose role is [admin]. *)
Theorem admin_gate (w : world) (r : request) (d : db) :
  (forall h, guarded r = Some h ->
     (authorization h = None -> handle lib cfg w r d = (err 401 "No auth", d))
     /\ (forall resp, authMiddleware lib cfg w h = inl resp ->
           (exists msg, resp = Reply 401 (Error msg)) /\ handle lib cfg w r d = (resp, d))
     /\ (forall scheme token,
           authorization h = Some (scheme ++ space :: token) ->
           ~ In space scheme -> ~ In space token ->
           jwt_verify lib token (JWT_SECRET cfg) (now w) = None ->
           handle lib cfg w r d = (err 401 "Invalid token", d))
     /\ (forall scheme token user,
           authorization h = Some (scheme ++ space :: token) ->
           ~ In space scheme -> ~ In space token ->
           jwt_verify lib token (JWT_SECRET cfg) (now w) = Some user ->
           c_role user <> Some (lit "admin") ->
           handle lib cfg w r d = (err 403 "Forbidden", d)))
  /\ (products (snd (handle lib cfg w r d)) <> products d ->
      exists h scheme token user,
        guarded r = Some h
        /\ authorization h = Some (scheme ++ space :: token)
        /\ jwt_verify lib token (JWT_SECRET cfg) (now w) = Some user
        /\ c_role user = Some (lit "admin")).
Proof.
  split.
  - intros h G. split; [|split; [|split]].
    + intro N. apply (guarded_rejected w r h d _ G).
      unfold authMiddleware. now rewrite N.
    + intros resp A. split; [now apply auth_rejects in A|].
      now apply guarded_rejected with (h := h).
    + intros scheme token E Hs Ht V.
      apply (guarded_rejected w r h d _ G).
      unfold authMiddleware. rewrite E.
      destruct (scheme ++ space :: token) as [|c auth] eqn:E'; [now destruct scheme|].
      rewrite <- E', split_on_one by assumption. now rewrite V.
    + intros scheme token user E Hs Ht V R.
      apply (guarded_forbidden w r h d user G).
      * apply auth_accepts. eauto 7.
      * destruct (is_admin user) eqn:F; [|reflexivity].
        now apply is_admin_true in F.
  - intro Hne.
    destruct (catalogue_changed w r d Hne) as (h & user & G & A & F).
    apply auth_accepts in A as (scheme & token & E & _ & _ & V).
    apply is_admin_true in F. eauto 10.
Qed.

(** One request: the former users stay, in order, and what is added is
    an admin. *)
Lemma handle_users (w : world) (r : request) (d : db) :
  exists extra,
    users (snd (handle lib cfg w r d)) = users d ++ extra /\ Forall admin_role extra.
Proof.
  assert (Same : forall d', users d' = users d ->
            exists extra, users d' = users d ++ extra /\ Forall admin_role extra).
  { intros d' E. exists []. rewrite app_nil_r. auto. }
  destruct r as [|b|b| |h b|h id b|h id|h b|b|h payload]; cbn [handle].
  2: { unfold signup.
       destruct (sb_email b) as [[|e email]|]; try now apply Same.
       destruct (sb_password b) as [[|p password]|]; try now apply Same.
       destruct (Sql.getUserByEmail d _); [now apply Same|].
       destruct (Sql.insertUser d _) as [d'|] eqn:I; [|now apply Same].
       inserted. eexists [_].
       split; [destruct (Sql.getUserById _ _); reflexivity|].
       repeat constructor. }
  all: apply Same;
    unfold login, listProducts, createProduct, putProduct, deleteProductHandler,
      presign, checkout, webhook; branches.
Qed.

Lemma run_users (trace : list (world * request)) (d : db) :
  exists extra,
    users (run lib cfg d trace) = users d ++ extra /\ Forall admin_role extra.
Proof.
  revert d. induction trace as [|[w r] trace IH]; intro d; simpl.
  - exists []. rewrite app_nil_r. auto.
  - destruct (handle_users w r d) as (e1 & E1 & F1).
    destruct (IH (snd (handle lib cfg w r d))) as (e2 & E2 & F2).
    exists (e1 ++ e2). rewrite E2, E1, app_assoc. split; [reflexivity|].
    apply Forall_app. auto.
Qed.

Lemma find_app_found {A : Type} (f : A -> bool) (l l' : list A) (x : A) :
  find f l = Some x -> find f (l ++ l') = Some x.
Proof.
  induction l as [|a l IH]; simpl; [discriminate|].
  destruct (f a); auto.
Qed.

Lemma find_app_new {A : Type} (f : A -> bool) (l : list A) (x : A) :
  find f l = None -> f x = true -> find f (l ++ [x]) = Some x.
Proof.
  induction l as [|a l IH]; simpl; intros N T.
  - now rewrite T.
  - destruct (f a); [discriminate | auto].
Qed.

Lemma signup_answers (w : world) (b : signup_body) (d : db) (status : Z) (bd : body) (d' : db) :
  signup lib cfg w b d = (Reply status bd, d') ->
  status = 200 ->
  exists email,
    sb_email b = Some email /\ email <> []
    /\ Sql.getUserByEmail d' (Some email) <> None.
Proof.
  unfold signup, err. intros H ->.
  destruct (sb_email b) as [[|e email]|]; try discriminate.
  destruct (sb_password b) as [[|p password]|]; try discriminate.
  destruct (Sql.getUserByEmail d (Some (e :: email))) eqn:G; [discriminate|].
  destruct (Sql.insertUser d _) as [d1|] eqn:I; [|discriminate].
  inserted.
  destruct (Sql.getUserById _ _); [|discriminate].
  injection H as _ <-.
  exists (e :: email). split; [reflexivity|]. split; [discriminate|].
  unfold Sql.getUserByEmail in *. cbn [users].
  erewrite find_app_new; [discriminate | exact G |].
  cbn [Sql.text_eq u_email]. apply streq_refl.
Qed.

(** C7: after a signup answered 200 with email [e], and after any further
    requests, a signup with the same email and a password is answered 409
    [Email exists]; whether it carries a password or not, it leaves the
    whole database, and so the users table, as it was. *)
Theorem duplicate_signup_conflict (w1 : world) (b1 : signup_body) (d : db)
    (answer : body) (d1 : db) (trace : list (world * request))
    (w2 : world) (b2 : signup_body) :
  signup lib cfg w1 b1 d = (Reply 200 answer, d1) ->
  sb_email b2 = sb_email b1 ->
  snd (signup lib cfg w2 b2 (run lib cfg d1 trace)) = run lib cfg d1 trace
  /\ (truthy (sb_password b2) = true ->
      signup lib cfg w2 b2 (run lib cfg d1 trace)
      = (err 409 "Email exists", run lib cfg d1 trace)).
Proof.
  intros H1 E.
  destruct (signup_answers w1 b1 d 200 answer d1 H1 eq_refl) as (email & He & Hne & Hfound).
  assert (F : exists row, Sql.getUserByEmail (run lib cfg d1 trace) (Some email) = Some row).
  { destruct (Sql.getUserByEmail d1 (Some email)) as [row|] eqn:G; [|now elim Hfound].
    exists row. unfold Sql.getUserByEmail in *.
    destruct (run_users trace d1) as (extra & -> & _).
    now apply find_app_found. }
  destruct F as (row & F).
  unfold signup. rewrite E, He.
  destruct email as [|e email]; [now elim Hne|].
  destruct (sb_password b2) as [[|p password]|]; cbn [truthy]; cbv beta iota;
    try (split; [reflexivity | discriminate]).
  match goal with
  | |- context [Sql.getUserByEmail ?a ?e] =>
      replace (Sql.getUserByEmail a e) with (Some row) by (symmetry; exact F)
  end.
  split; reflexivity.
Qed.

(** The two failures the login handler answers: an email that has no row,
    and an email that has a row with a password that [bcrypt.compare]
    finds different, get the same 401 with the body [{error: 'Invalid'}];
    both leave the database as it was. *)
Lemma login_failures_coincide (w1 w2 : world) (b1 b2 : login_body) (d1 d2 : db)
    (e1 e2 : jsstring) (row : user_row) :
  lb_email b1 = Some e1 ->
  Sql.getUserByEmail d1 (Some e1) = None ->
  lb_email b2 = Some e2 ->
  Sql.getUserByEmail d2 (Some e2) = Some row ->
  bcrypt_compare lib (lb_password b2) (u_password_hash row) = Some false ->
  login lib cfg w1 b1 d1 = (Reply 401 (Error (lit "Invalid")), d1)
  /\ login lib cfg w2 b2 d2 = (Reply 401 (Error (lit "Invalid")), d2)
  /\ fst (login lib cfg w1 b1 d1) = fst (login lib cfg w2 b2 d2).
Proof.
  intros E1 U E2 K M. unfold login, bind_field, verifyPassword.
  rewrite E1, E2, U, K, M. repeat split.
Qed.

(** C8, on the code: the login handler checks neither field of the body.
    When [bcrypt.compare] rejects, as it does for a body without
    password, a login with an email that has no row is answered 401
    [{error: 'Invalid'}], and a login with an email that has a row gets no
    answer: the two failures are told apart.  The database is left as it
    was. *)
Theorem login_without_password (w1 w2 : world) (b1 b2 : login_body) (d : db)
    (e1 e2 : jsstring) (row : user_row) :
  lb_email b1 = Some e1 ->
  Sql.getUserByEmail d (Some e1) = None ->
  lb_email b2 = Some e2 ->
  Sql.getUserByEmail d (Some e2) = Some row ->
  bcrypt_compare lib (lb_password b2) (u_password_hash row) = None ->
  login lib cfg w1 b1 d = (Reply 401 (Error (lit "Invalid")), d)
  /\ login lib cfg w2 b2 d = (Unanswered, d)
  /\ fst (login lib cfg w1 b1 d) <> fst (login lib cfg w2 b2 d).
Proof.
  intros E1 U E2 K M. unfold login, bind_field, verifyPassword.
  rewrite E1, E2, U, K, M. repeat split. discriminate.
Qed.

Lemma getUserById_row (d : db) (id : jsstring) (user : user_view) :
  Sql.getUserById d id = Some user ->
  exists row, In row (users d) /\ uv_id user = u_id row /\ uv_role user = u_role row.
Proof.
  unfold Sql.getUserById.
  destruct (find _ (users d)) as [row|] eqn:F; [|discriminate].
  intros [= <-]. apply find_some in F as [F _]. exists row. auto.
Qed.

(** Only signup and login answer with a token, and they sign the id and
    the role of a row of the users table. *)
Lemma token_issued (w : world) (r : request) (d : db) (token : jsstring) (user : user_view) :
  fst (handle lib cfg w r d) = Reply 200 (TokenUser token user) ->
  token = generateToken lib cfg w user
  /\ exists row,
       In row (users (snd (handle lib cfg w r d)))
       /\ uv_id user = u_id row /\ uv_role user = u_role row.
Proof.
  destruct r as [|b|b| |h b|h id b|h id|h b|b|h payload]; cbn [handle].
  2: { unfold signup, err.
       repeat case_match; cbn [fst snd]; intro H; try discriminate H.
       injection H as <- <-. split; [reflexivity|]. eapply getUserById_row; eassumption. }
  2: { unfold login, err.
       repeat case_match; cbn [fst snd]; intro H; try discriminate H.
       injection H as <- <-. split; [reflexivity|]. eapply getUserById_row; eassumption. }
  all: unfold listProducts, createProduct, putProduct, deleteProductHandler, presign,
         checkout, webhook, err; cbv zeta;
       repeat case_match; cbn [fst]; intro H; try discriminate H;
       match goal with
       | A : authMiddleware _ _ _ _ = inl _ |- _ =>
           apply auth_rejects in A as [msg ->]; discriminate H
       end.
Qed.

(** C10: every user row of a database the server built from the empty
    one has the role [admin]; a token answered by signup or login signs
    the id of its user with the role [admin]; and on the create, update,
    delete and presign routes a request carrying that token as
    [Bearer <token>], when [jwt.verify] returns the claims it was signed
    with, passes the middleware and the admin check: it is never answered
    401 or 403. *)
Theorem signup_grants_admin (trace : list (world * request)) (w : world) (r : request)
    (token : jsstring) (user : user_view) :
  Forall admin_role (users (run lib cfg empty_db trace))
  /\ (fst (handle lib cfg w r (run lib cfg empty_db trace)) = Reply 200 (TokenUser token user) ->
      uv_role user = lit "admin"
      /\ token = jwt_sign lib {| c_sub := Some (uv_id user); c_role := Some (lit "admin") |}
                   (JWT_SECRET cfg) (now w)
      /\ forall w' r' h d',
           guarded r' = Some h ->
           authorization h = Some (lit "Bearer " ++ token) ->
           ~ In space token ->
           jwt_verify lib token (JWT_SECRET cfg) (now w')
           = Some {| c_sub := Some (uv_id user); c_role := Some (uv_role user) |} ->
           (exists payload,
              authMiddleware lib cfg w' h = inr payload /\ is_admin payload = true)
           /\ forall status b,
                fst (handle lib cfg w' r' d') = Reply status b ->
                status <> 401 /\ status <> 403).
Proof.
  split.
  - destruct (run_users trace empty_db) as (extra & -> & F). exact F.
  - intro H. apply token_issued in H as (Ht & row & Hin & Hid & Hrole).
    assert (R : uv_role user = lit "admin").
    { rewrite Hrole.
      destruct (handle_users w r (run lib cfg empty_db trace)) as (e1 & E1 & F1).
      destruct (run_users trace empty_db) as (e0 & E0 & F0).
      rewrite E1, E0 in Hin. cbn [users empty_db app] in Hin.
      pose proof (proj2 (Forall_app _ _ _) (conj F0 F1)) as F.
      rewrite Forall_forall in F. now apply F. }
    split; [exact R|]. split.
    + rewrite Ht. unfold generateToken. now rewrite R.
    + intros w' r' h d' G A Hsp V.
      assert (M : authMiddleware lib cfg w' h
                  = inr {| c_sub := Some (uv_id user); c_role := Some (uv_role user) |}).
      { apply auth_accepts. exists (lit "Bearer"), token.
        repeat split; auto.
        vm_compute. intuition discriminate. }
      assert (Ad : is_admin {| c_sub := Some (uv_id user); c_role := Some (uv_role user) |}
                   = true).
      { apply is_admin_true. cbn [c_role]. now rewrite R. }
      split; [eauto|].
      intros status b Hs.
      destruct (guarded_admin w' r' h d' _ status b G M Ad Hs) as [-> | [-> | [-> | ->]]];
        split; discriminate.
Qed.

End Auth.

Lemma admin_gate_witness :
  handle Demo.toy Demo.dev (Demo.at_time 5 "p1")
    (PostProduct (Demo.bearer Demo.guest_token) (Demo.ebook Demo.n19_99)) empty_db
  = (err 403 "Forbidden", empty_db).
Proof.
  apply (admin_gate Demo.toy Demo.dev (Demo.at_time 5 "p1")
           (PostProduct (Demo.bearer Demo.guest_token) (Demo.ebook Demo.n19_99)) empty_db)
    with (h := Demo.bearer Demo.guest_token) (scheme := lit "Bearer")
         (token := Demo.guest_token)
         (user := {| c_sub := Some (lit "u2"); c_role := Some (lit "guest") |}).
  - reflexivity.
  - reflexivity.
  - vm_compute. intuition discriminate.
  - vm_compute. intuition discriminate.
  - reflexivity.
  - discriminate.
Defined.

Lemma duplicate_signup_conflict_witness :
  signup Demo.toy Demo.dev (Demo.at_time 9 "u2")
    {| sb_name := None; sb_email := Some (lit "a@x.com"); sb_password := Some (lit "other") |}
    (run Demo.toy Demo.dev
       (snd (signup Demo.toy Demo.dev (Demo.at_time 5 "u1") Demo.alice empty_db))
       [(Demo.at_time 6 "o1", PostCheckout Demo.cart)])
  = (err 409 "Email exists",
     run Demo.toy Demo.dev
       (snd (signup Demo.toy Demo.dev (Demo.at_time 5 "u1") Demo.alice empty_db))
       [(Demo.at_time 6 "o1", PostCheckout Demo.cart)]).
Proof.
  eapply (duplicate_signup_conflict Demo.toy Demo.dev (Demo.at_time 5 "u1") Demo.alice
            empty_db).
  - vm_compute. reflexivity.
  - reflexivity.
  - reflexivity.
Defined.

Lemma login_failures_coincide_witness :
  fst (login Demo.toy Demo.dev (Demo.at_time 7 "")
         {| lb_email := Some (lit "nobody@x.com"); lb_password := Some (lit "pw") |}
         (snd (signup Demo.toy Demo.dev (Demo.at_time 5 "u1") Demo.alice empty_db)))
  = fst (login Demo.toy Demo.dev (Demo.at_time 8 "")
           {| lb_email := Some (lit "a@x.com"); lb_password := Some (lit "wrong") |}
           (snd (signup Demo.toy Demo.dev (Demo.at_time 5 "u1") Demo.alice empty_db))).
Proof.
  eapply (login_failures_coincide Demo.toy Demo.dev).
  - reflexivity.
  - reflexivity.
  - reflexivity.
  - vm_compute. reflexivity.
  - reflexivity.
Defined.

Lemma login_without_password_witness :
  login Demo.toy Demo.dev (Demo.at_time 7 "")
    {| lb_email := Some (lit "nobody@x.com"); lb_password := None |}
    (snd (signup Demo.toy Demo.dev (Demo.at_time 5 "u1") Demo.alice empty_db))
  = (Reply 401 (Error (lit "Invalid")),
     snd (signup Demo.toy Demo.dev (Demo.at_time 5 "u1") Demo.alice empty_db))
  /\ login Demo.toy Demo.dev (Demo.at_time 8 "")
       {| lb_email := Some (lit "a@x.com"); lb_password := None |}
       (snd (signup Demo.toy Demo.dev (Demo.at_time 5 "u1") Demo.alice empty_db))
     = (Unanswered,
        snd (signup Demo.toy Demo.dev (Demo.at_time 5 "u1") Demo.alice empty_db)).
Proof.
  destruct (login_without_password Demo.toy Demo.dev
              (Demo.at_time 7 "") (Demo.at_time 8 "")
              {| lb_email := Some (lit "nobody@x.com"); lb_password := None |}
              {| lb_email := Some (lit "a@x.com"); lb_password := None |}
              (snd (signup Demo.toy Demo.dev (Demo.at_time 5 "u1") Demo.alice empty_db))
              (lit "nobody@x.com") (lit "a@x.com")
              {| u_id := lit "u1"; u_name := lit "Alice"; u_email := lit "a@x.com";
                 u_password_hash := lit "bcrypt:pw"; u_role := lit "admin";
                 u_created_at := 5 |}
              eq_refl eq_refl eq_refl eq_refl eq_refl) as (H1 & H2 & _).
  split; [exact H1 | exact H2].
Defined.

Lemma signup_grants_admin_witness :
  exists payload,
    authMiddleware Demo.toy Demo.dev (Demo.at_time 9 "p1") (Demo.bearer Demo.admin_token)
    = inr payload
    /\ is_admin payload = true.
Proof.
  eapply (signup_grants_admin Demo.toy Demo.dev [] (Demo.at_time 5 "u1")
            (PostSignup Demo.alice) Demo.admin_token
            {| uv_id := lit "u1"; uv_name := lit "Alice"; uv_email := lit "a@x.com";
               uv_role := lit "admin"; uv_created_at := 5 |})
    with (r' := PostProduct (Demo.bearer Demo.admin_token) (Demo.ebook Demo.n19_99))
         (d' := empty_db).
  - reflexivity.
  - reflexivity.
  - reflexivity.
  - vm_compute. intuition discriminate.
  - reflexivity.
Defined.

(** ** Numbers *)

Lemma shr_1_nonneg (mrs : shr_record) : 0 <= shr_m mrs -> 0 <= shr_m (shr_1 mrs).
Proof. destruct mrs as [[|[q|q|]|[q|q|]] r s]; simpl; lia. Qed.

Lemma iter_shr_1_nonneg (n : positive) (mrs : shr_record) :
  0 <= shr_m mrs -> 0 <= shr_m (iter_pos shr_1 n mrs).
Proof.
  revert mrs. induction n as [n IH|n IH|]; simpl; intros mrs H;
    auto using shr_1_nonneg.
Qed.

Lemma shr_fexp_nonneg (pr em m e : Z) (l : location) :
  0 <= m -> 0 <= shr_m (fst (shr_fexp pr em m e l)).
Proof.
  intro H. unfold shr_fexp, shr.
  assert (H0 : 0 <= shr_m (shr_record_of_loc m l)) by (destruct l as [|[| |]]; exact H).
  destruct (fexp pr em (Zdigits2 m + e) - e); simpl; auto using iter_shr_1_nonneg.
Qed.

(** Rounding a non-negative mantissa never gives NaN. *)
Lemma binary_round_aux_not_nan (pr em : Z) (s : bool) (m e : Z) (l : location) :
  0 <= m -> binary_round_aux pr em s m e l <> S754_nan.
Proof.
  intro H. unfold binary_round_aux.
  pose proof (shr_fexp_nonneg pr em m e l H) as H1.
  destruct (shr_fexp pr em m e l) as [mrs1 e1]. cbn [fst] in H1.
  assert (H2 : 0 <= round_nearest_even (shr_m mrs1) (loc_of_shr_record mrs1)).
  { unfold round_nearest_even.
    destruct (loc_of_shr_record mrs1) as [|[| |]]; try destruct (Z.even _); lia. }
  pose proof (shr_fexp_nonneg pr em _ e1 loc_Exact H2) as H3.
  destruct (shr_fexp pr em _ e1 loc_Exact) as [mrs2 e2]. cbn [fst] in H3.
  destruct (shr_m mrs2); try lia; [discriminate|].
  destruct (e2 <=? em - pr); discriminate.
Qed.

Lemma of_Z_not_nan (z : Z) : Num.of_Z z <> S754_nan.
Proof.
  unfold Num.of_Z, binary_normalize, binary_round.
  destruct z; [discriminate| |];
    destruct (shl_align _ _ _); apply binary_round_aux_not_nan; lia.
Qed.

Lemma to_cents_not_nan (p : Num.number) :
  Num.truthy p = true -> to_cents (Some p) <> S754_nan.
Proof.
  intro T. unfold to_cents, Num.Number.
  assert (M : Num.mul p Num.hundred <> S754_nan).
  { change Num.hundred with (S754_finite false 7036874417766400 (-46)).
    destruct p as [| | |s m e]; try discriminate.
    apply binary_round_aux_not_nan. lia. }
  destruct (Num.mul p Num.hundred) as [| | |s m e]; try discriminate; [congruence|].
  unfold Num.Math_round.
  destruct (0 <=? e); [discriminate|].
  destruct (_ =? 0); [discriminate|]. apply of_Z_not_nan.
Qed.

Lemma eqb_refl_number (x : Num.number) : x <> S754_nan -> SFeqb x x = true.
Proof.
  unfold SFeqb, SFcompare. destruct x as [s|s| |s m e]; intro H.
  - reflexivity.
  - now destruct s.
  - now elim H.
  - destruct s; rewrite Z.compare_refl, Pos.compare_cont_refl; reflexivity.
Qed.

(** What SQLite keeps of a Number that is not NaN is equal to it. *)
Lemma bind_number_equal (x : Num.number) :
  x <> S754_nan -> exists stored, Sql.bind_number x = Some stored /\ SFeqb stored x = true.
Proof.
  intro H. destruct x as [s|s| |s m e]; try congruence; simpl.
  - exists (S754_zero false). now destruct s.
  - eexists. split; [reflexivity|]. now apply eqb_refl_number.
  - eexists. split; [reflexivity|]. now apply eqb_refl_number.
Qed.

Lemma bind_number_truthy (x : Num.number) :
  Num.truthy x = true -> Sql.bind_number x = Some x.
Proof. now destruct x. Qed.

Lemma bind_number_storable (x : Num.number) : storable (Sql.bind_number x).
Proof. now destruct x. Qed.

Lemma bind_nullable_storable (v : option Num.number) : storable (Sql.bind_nullable v).
Proof. destruct v as [x|]; [apply bind_number_storable | reflexivity]. Qed.

Lemma uint_digits (d : Decimal.uint) :
  Forall (fun c => is_digit c = true) (lit (NilEmpty.string_of_uint d)).
Proof. induction d; simpl; constructor; auto. Qed.

Lemma dec_digits (n : Z) :
  0 <= n -> Forall (fun c => is_digit c = true) (dec n).
Proof.
  intro H. unfold dec. destruct n as [|q|q]; [repeat constructor| |lia].
  cbn [Z.to_int NilZero.string_of_int NilZero.string_of_uint].
  destruct (Pos.to_uint q); try apply uint_digits. repeat constructor.
Qed.

Lemma two_decimals_shape (n : Z) :
  0 <= n ->
  exists int frac,
    Num.two_decimals n = int ++ Num.dot :: frac
    /\ int <> [] /\ Forall (fun c => is_digit c = true) int
    /\ Forall (fun c => is_digit c = true) frac /\ List.length frac = 2%nat.
Proof.
  intro H. unfold Num.two_decimals.
  set (m := repeat Num.zero_digit (3 - List.length (dec n)) ++ dec n).
  assert (D : Forall (fun c => is_digit c = true) m).
  { apply Forall_app. split; [|now apply dec_digits].
    apply Forall_forall. intros c Hc. apply repeat_spec in Hc. now subst c. }
  assert (L : (3 <= List.length m)%nat).
  { unfold m. rewrite length_app, repeat_length. lia. }
  exists (firstn (List.length m - 2) m), (skipn (List.length m - 2) m).
  split; [reflexivity|]. split; [|split; [|split]].
  - intro E. apply (f_equal (@List.length _)) in E.
    rewrite length_firstn in E. simpl in E. lia.
  - rewrite <- (firstn_skipn (List.length m - 2) m) in D.
    now apply Forall_app in D.
  - rewrite <- (firstn_skipn (List.length m - 2) m) in D.
    now apply Forall_app in D.
  - rewrite length_skipn. lia.
Qed.

Lemma scaled_nonneg (m : positive) (e : Z) : 0 <= Num.scaled m e.
Proof.
  unfold Num.scaled. destruct (0 <=? e) eqn:E.
  - apply Z.leb_le in E.
    apply Z.mul_nonneg_nonneg; [|lia].
    apply Z.mul_nonneg_nonneg; [lia|]. now apply Z.pow_nonneg.
  - apply Z.shiftr_nonneg.
    assert (0 <= 2 ^ (- e)) by (apply Z.pow_nonneg; lia). lia.
Qed.

(** Below 10^21, [toFixed(2)] prints exactly two decimals. *)
Lemma toFixed2_format (x : Num.number) :
  below_1e21 x = true -> two_decimal_format (Num.toFixed2 x).
Proof.
  destruct x as [s|s| |s m e]; try discriminate; intro B.
  - exists [], (lit "0"), (lit "00"). repeat split; auto; try discriminate;
      repeat constructor.
  - cbn [below_1e21] in B. apply negb_true_iff in B.
    cbn [Num.toFixed2]. rewrite B.
    destruct (two_decimals_shape (Num.scaled m e) (scaled_nonneg m e))
      as (int & frac & -> & Hi & Di & Df & Lf).
    exists (if s then lit "-" else []), int, frac.
    repeat split; auto. destruct s; auto.
Qed.

(** *** Whole cents, there and back

    [SpecFloat] rounds a mantissa by shifting it to 53 bits under a round
    bit and a sticky bit.  The lemmas below follow a quotient through
    these shifts, bound the error of the division and of the
    multiplication by 100, and conclude that a price of whole cents
    below 2^45 is stored as these cents and printed with them. *)

(** [digits2_pos p] is the number of bits of [p]. *)
Lemma digits2_bounds (p : positive) :
  2 ^ (Zpos (digits2_pos p) - 1) <= Zpos p < 2 ^ Zpos (digits2_pos p).
Proof.
  induction p as [p IH|p IH|]; cbn [digits2_pos].
  - rewrite Pos2Z.inj_succ, (Pos2Z.inj_xI p).
    replace (Z.succ (Zpos (digits2_pos p)) - 1) with (Z.succ (Zpos (digits2_pos p) - 1)) by lia.
    rewrite !Z.pow_succ_r by lia.
    generalize dependent (2 ^ (Zpos (digits2_pos p) - 1)).
    generalize dependent (2 ^ (Zpos (digits2_pos p))). intros; lia.
  - rewrite Pos2Z.inj_succ, (Pos2Z.inj_xO p).
    replace (Z.succ (Zpos (digits2_pos p)) - 1) with (Z.succ (Zpos (digits2_pos p) - 1)) by lia.
    rewrite !Z.pow_succ_r by lia.
    generalize dependent (2 ^ (Zpos (digits2_pos p) - 1)).
    generalize dependent (2 ^ (Zpos (digits2_pos p))). intros; lia.
  - simpl. lia.
Qed.

Lemma digits2_unique (p : positive) (k : Z) :
  2 ^ (k - 1) <= Zpos p < 2 ^ k -> Zpos (digits2_pos p) = k.
Proof.
  intros [L U]. pose proof (digits2_bounds p) as [L' U'].
  assert (0 < k).
  { destruct (Z_lt_le_dec 0 k) as [|Hk]; [assumption|].
    destruct (Z.eq_dec k 0) as [->|]; [simpl in U; lia|].
    rewrite Z.pow_neg_r in U by lia. lia. }
  destruct (Z_lt_le_dec (Zpos (digits2_pos p)) k) as [H1|H1].
  - assert (2 ^ Zpos (digits2_pos p) <= 2 ^ (k - 1)) by (apply Z.pow_le_mono_r; lia). lia.
  - destruct (Z_lt_le_dec k (Zpos (digits2_pos p))) as [H2|H2]; [|lia].
    assert (2 ^ k <= 2 ^ (Zpos (digits2_pos p) - 1)) by (apply Z.pow_le_mono_r; lia). lia.
Qed.

(** One shift to the right keeps the place, in units twice as large. *)
Lemma placed_shr_1 (N D k : Z) (x : shr_record) :
  0 < D -> 0 <= k -> placed N D k x -> placed N D (k + 1) (shr_1 x).
Proof.
  intros HD Hk. unfold placed.
  rewrite Z.pow_add_r by lia. change (2 ^ 1) with 2.
  assert (HP : 0 < 2 ^ k * D) by (apply Z.mul_pos_pos; [apply Z.pow_pos_nonneg|]; lia).
  replace (2 ^ k * 2 * D) with (2 * (2 ^ k * D)) by ring.
  generalize dependent (2 ^ k * D). intros P HP.
  destruct x as [m r s]. cbn [shr_m shr_r shr_s shr_1].
  destruct m as [|[p|p|]|p]; cbn [shr_m shr_r shr_s]; intros [H0 H]; try lia;
    destruct r, s; cbn [orb]; try rewrite (Pos2Z.inj_xI p) in *; try rewrite (Pos2Z.inj_xO p) in *; nia.
Qed.

Lemma placed_iter (N D : Z) (n : positive) :
  0 < D -> forall k x, 0 <= k -> placed N D k x ->
  placed N D (k + Zpos n) (iter_pos shr_1 n x).
Proof.
  intros HD. induction n as [n IH|n IH|]; intros k x Hk H; cbn [iter_pos].
  - replace (k + Zpos n~1) with (k + 1 + Zpos n + Zpos n) by lia.
    apply IH; [lia|]. apply IH; [lia|]. apply placed_shr_1; assumption.
  - replace (k + Zpos n~0) with (k + Zpos n + Zpos n) by lia.
    apply IH; [lia|]. apply IH; assumption.
  - apply placed_shr_1; assumption.
Qed.

Lemma placed_shr (N D : Z) (x : shr_record) (e n : Z) :
  0 < D -> 0 <= n -> placed N D 0 x ->
  placed N D n (fst (shr x e n)) /\ snd (shr x e n) = e + n.
Proof.
  intros HD Hn H. destruct n as [|n|n]; cbn [shr fst snd].
  - split; [assumption|lia].
  - split; [|reflexivity]. apply (placed_iter N D n HD 0 x); [lia|assumption].
  - lia.
Qed.

Lemma placed_between (N D k : Z) (x : shr_record) :
  0 < D -> 0 <= k -> placed N D k x ->
  shr_m x * (2 ^ k * D) <= N < (shr_m x + 1) * (2 ^ k * D).
Proof.
  intros HD Hk. unfold placed.
  assert (HP : 0 < 2 ^ k * D) by (apply Z.mul_pos_pos; [apply Z.pow_pos_nonneg|]; lia).
  generalize dependent (2 ^ k * D). intros P HP.
  destruct x as [m r s]; cbn [shr_m shr_r shr_s]. intros [H0 H].
  destruct r, s; nia.
Qed.

(** Rounding to nearest moves the mantissa by half a unit at most. *)
Lemma placed_round (N D k : Z) (x : shr_record) :
  0 < D -> 0 <= k -> placed N D k x ->
  let m1 := round_nearest_even (shr_m x) (loc_of_shr_record x) in
  shr_m x <= m1 <= shr_m x + 1
  /\ 2 * (m1 * (2 ^ k * D)) - 2 ^ k * D <= 2 * N <= 2 * (m1 * (2 ^ k * D)) + 2 ^ k * D.
Proof.
  intros HD Hk. unfold placed.
  assert (HP : 0 < 2 ^ k * D) by (apply Z.mul_pos_pos; [apply Z.pow_pos_nonneg|]; lia).
  generalize dependent (2 ^ k * D). intros P HP.
  destruct x as [m r s]; cbn [shr_m shr_r shr_s loc_of_shr_record]. intros [H0 H].
  destruct r, s; cbn [round_nearest_even]; try destruct (Z.even m); nia.
Qed.

(** [binary_round_aux] on a mantissa of [53 + n] bits that stands for
    [N / D]: the result is [m1 * 2^(ex + n)] for an [m1] of 53 bits within
    half a unit of [N / (D * 2^n)], written with the mantissa 2^52 and the
    next exponent when [m1] is 2^53. *)
Lemma round_aux_spec (s : bool) (mx ex : Z) (lx : location) (N D n : Z) :
  0 < D -> 0 <= n ->
  placed N D 0 (shr_record_of_loc mx lx) ->
  p52 * 2 ^ n <= mx < p53 * 2 ^ n ->
  -1074 <= ex + n -> ex + n + 1 <= 971 ->
  exists m1,
    p52 <= m1 <= p53
    /\ 2 * (m1 * (2 ^ n * D)) - 2 ^ n * D <= 2 * N <= 2 * (m1 * (2 ^ n * D)) + 2 ^ n * D
    /\ ((m1 < p53
         /\ binary_round_aux 53 1024 s mx ex lx = S754_finite s (Z.to_pos m1) (ex + n))
        \/ (m1 = p53
            /\ binary_round_aux 53 1024 s mx ex lx = S754_finite s (Z.to_pos p52) (ex + n + 1))).
Proof.
  intros HD Hn H0 Hmx Hlo Hhi.
  assert (Hpn : 0 < 2 ^ n) by (apply Z.pow_pos_nonneg; lia).
  assert (Hd : Zdigits2 mx = 53 + n).
  { destruct mx as [|p|p]; try (unfold p52 in *; lia).
    cbn [Zdigits2]. apply digits2_unique.
    replace (53 + n - 1) with (52 + n) by lia.
    rewrite !Z.pow_add_r by lia. change (2 ^ 52) with p52. change (2 ^ 53) with p53. lia. }
  unfold binary_round_aux, shr_fexp. rewrite Hd.
  assert (Hf : fexp 53 1024 (53 + n + ex) - ex = n).
  { unfold fexp, emin. lia. }
  rewrite Hf.
  destruct (placed_shr N D (shr_record_of_loc mx lx) ex n HD Hn H0) as [H1 He].
  destruct (shr (shr_record_of_loc mx lx) ex n) as [mrs' e']. cbn [fst snd] in H1, He. subst e'.
  pose proof (placed_between N D n mrs' HD Hn H1) as B1.
  pose proof (placed_between N D 0 _ HD (Z.le_refl 0) H0) as B0.
  assert (Hm0 : shr_m (shr_record_of_loc mx lx) = mx) by (destruct lx as [|[]]; reflexivity).
  rewrite Hm0 in B0. change (2 ^ 0) with 1 in B0.
  assert (Hm : p52 <= shr_m mrs' < p53).
  { unfold p52, p53 in *. nia. }
  destruct (placed_round N D n mrs' HD Hn H1) as [R1 R2].
  set (m1 := round_nearest_even (shr_m mrs') (loc_of_shr_record mrs')) in *.
  exists m1. split; [lia|]. split; [exact R2|].
  destruct (Z_lt_le_dec m1 p53) as [Hlt|Hge].
  - left. split; [assumption|].
    assert (Hd1 : Zdigits2 m1 = 53).
    { destruct m1 as [|p|p]; try (unfold p52 in *; lia).
      cbn [Zdigits2]. apply digits2_unique. change (2 ^ (53 - 1)) with p52.
      change (2 ^ 53) with p53. lia. }
    rewrite Hd1.
    replace (fexp 53 1024 (53 + (ex + n)) - (ex + n)) with 0 by (unfold fexp, emin; lia).
    cbn [shr shr_record_of_loc shr_m].
    destruct m1 as [|p|p]; try (unfold p52 in *; lia).
    replace (ex + n <=? 1024 - 53) with true by (symmetry; apply Z.leb_le; lia).
    reflexivity.
  - right. assert (E : m1 = p53) by lia. split; [assumption|]. rewrite E.
    change (Zdigits2 p53) with 54.
    replace (fexp 53 1024 (54 + (ex + n)) - (ex + n)) with 1 by (unfold fexp, emin; lia).
    cbn [shr shr_record_of_loc shr_m iter_pos]. unfold p53. cbn [shr_1 shr_m orb].
    replace (ex + n + 1 <=? 1024 - 53) with true by (symmetry; apply Z.leb_le; lia).
    reflexivity.
Qed.

Lemma hundred_eq : Num.hundred = S754_finite false (Z.to_pos m100) (-46).
Proof. reflexivity. Qed.

Lemma iter_xO (p k : positive) : Zpos (Pos.iter xO p k) = Zpos p * 2 ^ Zpos k.
Proof.
  induction k as [|k IH] using Pos.peano_ind.
  - cbn [Pos.iter]. rewrite (Pos2Z.inj_xO p). change (2 ^ 1) with 2. lia.
  - rewrite Pos.iter_succ, (Pos2Z.inj_xO (Pos.iter xO p k)), IH, Pos2Z.inj_succ.
    rewrite Z.pow_succ_r by lia. ring.
Qed.

(** A whole number below 2^53 in magnitude is a Number:
    [k = m * 2^(-a)], exactly. *)
Lemma of_Z_exact (s : bool) (k : Z) :
  0 < k < p53 ->
  exists m a, 0 <= a <= 52 /\ Zpos m = k * 2 ^ a /\ p52 <= Zpos m < p53
              /\ Num.of_Z (cond_Zopp s k) = S754_finite s m (- a).
Proof.
  intros Hc. destruct k as [|p|p]; try lia.
  assert (Hn : Num.of_Z (cond_Zopp s (Zpos p)) = binary_round 53 1024 s p 0)
    by (destruct s; reflexivity).
  rewrite Hn. clear Hn.
  unfold binary_round, shl_align.
  pose proof (digits2_bounds p) as [L U].
  set (d := Zpos (digits2_pos p)) in *.
  assert (Hd : 1 <= d <= 53).
  { split; [unfold d; lia|].
    destruct (Z_lt_le_dec 53 d) as [H|H]; [|assumption].
    assert (2 ^ 53 <= 2 ^ (d - 1)) by (apply Z.pow_le_mono_r; lia).
    change (2 ^ 53) with p53 in *. lia. }
  replace (fexp 53 1024 (d + 0)) with (d - 53) by (unfold fexp, emin; lia).
  assert (Hpow : 2 ^ (d - 1) * 2 ^ (53 - d) = p52).
  { rewrite <- Z.pow_add_r by lia. replace (d - 1 + (53 - d)) with 52 by lia. reflexivity. }
  assert (Hpow' : 2 ^ d * 2 ^ (53 - d) = p53).
  { rewrite <- Z.pow_add_r by lia. replace (d + (53 - d)) with 53 by lia. reflexivity. }
  assert (Hq : 0 < 2 ^ (53 - d)) by (apply Z.pow_pos_nonneg; lia).
  assert (R : forall mz : positive, Zpos mz = Zpos p * 2 ^ (53 - d) ->
            binary_round_aux 53 1024 s (Zpos mz) (d - 53) loc_Exact
            = S754_finite s mz (d - 53)).
  { intros mz Hmz.
    destruct (round_aux_spec s (Zpos mz) (d - 53) loc_Exact (Zpos mz) 1 0)
      as (m1 & B & E & [[Hlt R]|[Heq R]]); try lia.
    - unfold placed; cbn [shr_record_of_loc shr_m shr_r shr_s]. change (2 ^ 0) with 1. lia.
    - change (2 ^ 0) with 1. nia.
    - change (2 ^ 0) with 1 in E. assert (m1 = Zpos mz) by lia. subst m1.
      rewrite R. rewrite Z.add_0_r. reflexivity.
    - change (2 ^ 0) with 1 in E. nia. }
  destruct (d - 53 - 0) as [|k|k] eqn:Ek.
  - exists p, 0. assert (d = 53) by lia.
    replace (53 - d) with 0 in * by lia. change (2 ^ 0) with 1 in *.
    split; [lia|]. split; [lia|]. split; [lia|].
    replace (d - 53) with 0 in R by lia. rewrite (R p) by lia. reflexivity.
  - lia.
  - exists (Pos.iter xO p k), (Zpos k).
    assert (Hk : Zpos k = 53 - d) by lia.
    pose proof (iter_xO p k) as I. rewrite Hk in I.
    split; [lia|]. split; [rewrite Hk; exact I|]. split; [nia|].
    rewrite (R _ I). f_equal. lia.
Qed.

(** The division by 100 of [m0 * 2^(-a)]: the quotient is within half a
    unit of the last place of [m0 * 2^53 / m100]. *)
Lemma div_hundred (s : bool) (m0 : positive) (a : Z) :
  p52 <= Zpos m0 < p53 -> 0 <= a <= 52 ->
  exists m1 n,
    0 <= n <= 1 /\ p52 <= m1 <= p53
    /\ 2 * (m1 * (2 ^ n * m100)) - 2 ^ n * m100 <= 2 * (Zpos m0 * 2 ^ 53)
       <= 2 * (m1 * (2 ^ n * m100)) + 2 ^ n * m100
    /\ ((m1 < p53
         /\ Num.div (S754_finite s m0 (- a)) Num.hundred
            = S754_finite s (Z.to_pos m1) (- a - 7 + n))
        \/ (m1 = p53
            /\ Num.div (S754_finite s m0 (- a)) Num.hundred
               = S754_finite s (Z.to_pos p52) (- a - 7 + n + 1))).
Proof.
  intros Hm Ha. rewrite hundred_eq.
  unfold Num.div, Num.prec, Num.emax, SFdiv, SFdiv_core_binary.
  change (Z.to_pos m100) with 7036874417766400%positive.
  cbv zeta. cbn [Zdigits2]. rewrite xorb_false_r.
  rewrite (digits2_unique m0 53) by (change (2 ^ (53 - 1)) with p52; change (2 ^ 53) with p53; lia).
  change (Zpos (digits2_pos 7036874417766400)) with 53.
  replace (Z.min (fexp 53 1024 (53 + - a - (53 + -46))) (- a - -46)) with (- a - 7)
    by (unfold fexp, emin; lia).
  replace (- a - -46 - (- a - 7)) with 53 by lia.
  rewrite Z.shiftl_mul_pow2 by lia.
  pose proof (Z_div_mod (Zpos m0 * 2 ^ 53) 7036874417766400 eq_refl) as Hdiv.
  destruct (Z.div_eucl (Zpos m0 * 2 ^ 53) 7036874417766400) as [q r].
  destruct Hdiv as [Hq Hr].
  assert (Hqb : p52 <= q < p53 * 2).
  { change (2 ^ 53) with p53 in Hq. unfold p52, p53 in *. lia. }
  assert (Hloc : placed (Zpos m0 * 2 ^ 53) m100 0
                   (shr_record_of_loc q (new_location 7036874417766400 r))).
  { unfold new_location. change (Z.even 7036874417766400) with true. cbv iota.
    unfold new_location_even, placed. change (2 ^ 0) with 1. unfold m100.
    destruct (Z.eqb_spec r 0) as [E|E].
    - cbn [shr_record_of_loc shr_m shr_r shr_s]. lia.
    - destruct (Z.compare_spec (2 * r) 7036874417766400) as [C|C|C];
        cbn [shr_record_of_loc shr_m shr_r shr_s]; lia. }
  destruct (Z_lt_le_dec q p53) as [Hlt|Hge].
  - destruct (round_aux_spec s q (- a - 7) _ _ m100 0 eq_refl (Z.le_refl 0) Hloc)
      as (m1 & B & E & R); try lia; try (change (2 ^ 0) with 1; lia).
    exists m1, 0. split; [lia|]. split; [exact B|]. split; [exact E|]. exact R.
  - destruct (round_aux_spec s q (- a - 7) _ _ m100 1 eq_refl ltac:(lia) Hloc)
      as (m1 & B & E & R); try lia;
      try (change (2 ^ 1) with 2; unfold p52, p53 in *; lia).
    exists m1, 1. split; [lia|]. split; [exact B|]. split; [exact E|]. exact R.
Qed.

(** The multiplication by 100 of [mP * 2^eP]: the product is within half
    a unit of the last place of [mP * m100]. *)
Lemma mul_hundred (s : bool) (mP : positive) (eP : Z) :
  p52 <= Zpos mP < p53 -> -1000 <= eP <= 800 ->
  exists m2 n,
    52 <= n <= 53 /\ p52 <= m2 <= p53
    /\ 2 * (m2 * (2 ^ n * 1)) - 2 ^ n * 1 <= 2 * (Zpos mP * m100)
       <= 2 * (m2 * (2 ^ n * 1)) + 2 ^ n * 1
    /\ ((m2 < p53
         /\ Num.mul (S754_finite s mP eP) Num.hundred
            = S754_finite s (Z.to_pos m2) (eP + -46 + n))
        \/ (m2 = p53
            /\ Num.mul (S754_finite s mP eP) Num.hundred
               = S754_finite s (Z.to_pos p52) (eP + -46 + n + 1))).
Proof.
  intros Hm He. rewrite hundred_eq.
  unfold Num.mul, Num.prec, Num.emax, SFmul. rewrite xorb_false_r.
  change (Z.to_pos m100) with 7036874417766400%positive.
  rewrite Pos2Z.inj_mul. change (Zpos 7036874417766400) with m100.
  assert (Hloc : placed (Zpos mP * m100) 1 0
                   (shr_record_of_loc (Zpos mP * m100) loc_Exact)).
  { unfold placed. cbn [shr_record_of_loc shr_m shr_r shr_s]. change (2 ^ 0) with 1.
    unfold m100. lia. }
  destruct (Z_lt_le_dec (Zpos mP * m100) (p53 * 2 ^ 52)) as [Hlt|Hge].
  - destruct (round_aux_spec s _ (eP + -46) _ _ 1 52 eq_refl ltac:(lia) Hloc)
      as (m2 & B & E & R); try lia;
      try (change (2 ^ 52) with p52 in *; unfold p52, p53, m100 in *; lia).
    exists m2, 52. split; [lia|]. split; [exact B|]. split; [exact E|]. exact R.
  - destruct (round_aux_spec s _ (eP + -46) _ _ 1 53 eq_refl ltac:(lia) Hloc)
      as (m2 & B & E & R); try lia;
      try (change (2 ^ 52) with p52 in *; change (2 ^ 53) with p53 in *;
           unfold p52, p53, m100 in *; lia).
    exists m2, 53. split; [lia|]. split; [exact B|]. split; [exact E|]. exact R.
Qed.

(** [toFixed(2)] prints the cents [c] when [m * 2^e * 100] is within one
    half of [c], and [Math.round] returns [k] when [m * 2^e] is. *)
Lemma scaled_eq (m : positive) (e c : Z) :
  e < 0 ->
  (2 * c - 1) * 2 ^ (- e) <= 2 * (Zpos m * 100) < (2 * c + 1) * 2 ^ (- e) ->
  Num.scaled m e = c.
Proof.
  intros He H. unfold Num.scaled.
  replace (0 <=? e) with false by (symmetry; apply Z.leb_gt; lia).
  rewrite Z.shiftr_div_pow2 by lia.
  replace (1 - e) with (Z.succ (- e)) by lia. rewrite Z.pow_succ_r by lia.
  assert (0 < 2 ^ (- e)) by (apply Z.pow_pos_nonneg; lia).
  generalize dependent (2 ^ (- e)). intros E H HE.
  symmetry. apply (Z.div_unique _ _ c (2 * (Zpos m * 100) + E - 2 * E * c)); [left|]; nia.
Qed.

Lemma Math_round_eq (s : bool) (m : positive) (e k : Z) :
  e < 0 -> 0 < k ->
  (2 * k - 1) * 2 ^ (- e) < 2 * Zpos m < (2 * k + 1) * 2 ^ (- e) ->
  Num.Math_round (S754_finite s m e) = Num.of_Z (cond_Zopp s k).
Proof.
  intros He Hc H. unfold Num.Math_round.
  replace (0 <=? e) with false by (symmetry; apply Z.leb_gt; lia).
  cbv zeta.
  rewrite Z.shiftr_div_pow2 by lia.
  replace (1 - e) with (Z.succ (- e)) by lia. rewrite Z.pow_succ_r by lia.
  assert (0 < 2 ^ (- e)) by (apply Z.pow_pos_nonneg; lia).
  generalize dependent (2 ^ (- e)). intros E H HE.
  replace ((2 * cond_Zopp s (Zpos m) + E) / (2 * E)) with (cond_Zopp s k).
  - replace (cond_Zopp s k =? 0) with false
      by (symmetry; apply Z.eqb_neq; destruct s; cbn [cond_Zopp]; lia).
    reflexivity.
  - destruct s; cbn [cond_Zopp].
    + apply (Z.div_unique _ _ (- k) (2 * - Zpos m + E + 2 * E * k)); [left|]; nia.
    + apply (Z.div_unique _ _ k (2 * Zpos m + E - 2 * E * k)); [left|]; nia.
Qed.

Lemma ge_1e21_false (m : positive) (e : Z) :
  e < 0 -> Zpos m <= p53 -> Num.ge_1e21 m e = false.
Proof.
  intros He Hm. unfold Num.ge_1e21.
  replace (0 <=? e) with false by (symmetry; apply Z.leb_gt; lia).
  apply Z.leb_gt.
  assert (1 <= 2 ^ (- e)) by (apply (Z.pow_le_mono_r 2 0 (- e)); lia).
  unfold p53 in *. change (10 ^ 21) with 1000000000000000000000. nia.
Qed.

Lemma pow_shift (a k x : Z) :
  2 <= a -> 0 <= k -> x = a - 2 + k -> 2 ^ x = 2 ^ (a - 2) * 2 ^ k.
Proof. intros Ha Hk ->. apply Z.pow_add_r; lia. Qed.

Ltac concrete_powers :=
  change (2 ^ 0) with 1 in *; change (2 ^ 1) with 2 in *;
  change (2 ^ 52) with 4503599627370496 in *;
  change (2 ^ 53) with 9007199254740992 in *;
  cbv [p52 p53 m100] in *.

(** [k] cents, with the sign [s], divided by 100 and multiplied by 100
    again: the quotient prints as [k] cents, and [Math.round] of the
    product is [k] with its sign. *)
Lemma round_trip_below_limit (s : bool) (k : Z) :
  0 < k < cents_limit ->
  exists m e,
    Num.div (Num.of_Z (cond_Zopp s k)) Num.hundred = S754_finite s m e
    /\ e < 0 /\ Num.ge_1e21 m e = false /\ Num.scaled m e = k
    /\ Num.Math_round (Num.mul (S754_finite s m e) Num.hundred)
       = Num.of_Z (cond_Zopp s k).
Proof.
  intros Hc. unfold cents_limit in Hc.
  destruct (of_Z_exact s k) as (m0 & a & Ha & Hm0 & Bm0 & Hof); [unfold p53; lia|].
  assert (Ha1 : 1 <= a).
  { destruct (Z_lt_le_dec a 1) as [H|H]; [|assumption].
    assert (a = 0) as -> by lia. change (2 ^ 0) with 1 in Hm0. unfold p52 in *; lia. }
  rewrite Hof.
  destruct (div_hundred s m0 a Bm0 Ha) as (m1 & n & Hn & B1 & E1 & R1).
  assert (Hm1 : Zpos (Z.to_pos m1) = m1) by (apply Z2Pos.id; unfold p52 in *; lia).
  assert (Cn : n = 0 \/ n = 1) by lia.
  destruct R1 as [[L1 R1]|[L1 R1]]; rewrite R1;
    match goal with
    | |- exists m e, S754_finite _ ?mP ?eP = _ /\ _ =>
        exists mP, eP; split; [reflexivity|];
        assert (HmP : p52 <= Zpos mP < p53) by (try rewrite Hm1; unfold p52, p53 in *; simpl; lia);
        assert (HeP : -1000 <= eP <= 800) by lia;
        destruct (mul_hundred s mP eP HmP HeP) as (m2 & n2 & Hn2 & B2 & E2 & R2)
    end.
  all: assert (Hm2 : Zpos (Z.to_pos m2) = m2) by (apply Z2Pos.id; unfold p52 in *; lia).
  all: assert (Cn2 : n2 = 52 \/ n2 = 53) by lia.
  all: destruct Cn as [-> | ->], Cn2 as [-> | ->].
  all: destruct R2 as [[L2 R2]|[L2 R2]]; rewrite R2.
  all: rewrite ?Hm1 in *; rewrite ?Hm2 in *.
  all: change (Zpos (Z.to_pos p52)) with p52 in *.
  all: destruct (Z.eq_dec a 1) as [A1|A1];
       [ subst a; concrete_powers
       | rewrite (pow_shift a 2 a) in Hm0 by lia; change (2 ^ 2) with 4 in Hm0;
         assert (HA : 0 < 2 ^ (a - 2)) by (apply Z.pow_pos_nonneg; lia);
         concrete_powers ].
  all: try (exfalso; lia).
  all: (split; [lia|]).
  all: (split; [apply ge_1e21_false; [lia|rewrite ?Hm1; unfold p53; lia]|]).
  all: split; [apply scaled_eq; [lia|]|rewrite <- Hof; apply Math_round_eq; [lia|lia|]].
  all: rewrite ?Hm1, ?Hm2; change (Zpos (Z.to_pos 4503599627370496)) with 4503599627370496.
  all: first [ match goal with |- context [2 ^ ?x] =>
                 let v := eval vm_compute in (2 ^ x) in
                 match v with Zpos _ => change (2 ^ x) with v end end; lia
             | first [ rewrite (pow_shift a 0) by lia | rewrite (pow_shift a 1) by lia
                     | rewrite (pow_shift a 2) by lia | rewrite (pow_shift a 3) by lia
                     | rewrite (pow_shift a 4) by lia | rewrite (pow_shift a 5) by lia
                     | rewrite (pow_shift a 6) by lia | rewrite (pow_shift a 7) by lia
                     | rewrite (pow_shift a 8) by lia | rewrite (pow_shift a 9) by lia
                     | rewrite (pow_shift a 10) by lia ];
               match goal with |- context [2 ^ (_ - 2) * ?k] =>
                 let v := eval vm_compute in k in change k with v end;
               generalize dependent (2 ^ (a - 2)); intros A; intros; nia ].
Qed.

Lemma cond_Zopp_abs (c : Z) : cond_Zopp (c <? 0) (Z.abs c) = c.
Proof. destruct (Z.ltb_spec c 0); cbn [cond_Zopp]; lia. Qed.

(** A price of [c] cents, below the limit: the create handler computes
    the Number [c] from it, SQLite keeps it, and the listing prints it
    as [c / 100] with two decimals. *)
Lemma price_of_cents_round_trip (c : Z) :
  c <> 0 -> - cents_limit < c < cents_limit ->
  Num.truthy (price_of_cents c) = true
  /\ to_cents (Some (price_of_cents c)) = Num.of_Z c
  /\ Sql.bind_number (Num.of_Z c) = Some (Num.of_Z c)
  /\ render_price (Some (Num.of_Z c)) = decimal_price c.
Proof.
  intros Hc Hl.
  destruct (round_trip_below_limit (c <? 0) (Z.abs c))
    as (m & e & D & He & G & Sc & R); [lia|].
  destruct (of_Z_exact (c <? 0) (Z.abs c)) as (m0 & a & _ & _ & _ & Hof);
    [unfold cents_limit, p53 in *; lia|].
  rewrite cond_Zopp_abs in D, R, Hof.
  unfold price_of_cents, to_cents, render_price, Num.Number. rewrite D.
  split; [reflexivity|]. split; [exact R|]. split; [rewrite Hof; reflexivity|].
  cbn [Num.toFixed2]. rewrite G, Sc. reflexivity.
Qed.

(** ** The catalogue *)

Lemma insert_desc_In (r x : product_row) (l : list product_row) :
  In x (Sql.insert_desc r l) <-> x = r \/ In x l.
Proof.
  induction l as [|y l IH]; simpl.
  - intuition.
  - destruct (p_created_at y <=? p_created_at r); simpl; [intuition|].
    rewrite IH. intuition.
Qed.

(** The listing holds the rows of the table, all of them. *)
Lemma getAllProducts_In (d : db) (x : product_row) :
  In x (Sql.getAllProducts d) <-> In x (products d).
Proof.
  unfold Sql.getAllProducts. induction (products d) as [|y l IH]; simpl.
  - tauto.
  - rewrite insert_desc_In, IH. intuition.
Qed.

Lemma find_map_same {A : Type} (f : A -> bool) (g : A -> A) (l : list A) :
  (forall x, f (g x) = f x) -> find f (map g l) = option_map g (find f l).
Proof.
  intro H. induction l as [|a l IH]; simpl; [reflexivity|].
  rewrite H. destruct (f a); [reflexivity | exact IH].
Qed.

Lemma find_absent {A : Type} (f : A -> bool) (l : list A) :
  (forall x, In x l -> f x = false) -> find f l = None.
Proof.
  induction l as [|a l IH]; simpl; intro H; [reflexivity|].
  rewrite (H a) by auto. apply IH. auto.
Qed.

Lemma merged_or_else (v : field) (old : jsstring) : merged v old (or_else v old).
Proof. destruct v as [[|c s]|]; reflexivity. Qed.

Section Catalogue.

Variable lib : services.
Variable cfg : config.

Lemma handle_storable (w : world) (r : request) (d : db) :
  storable_rows d -> storable_rows (snd (handle lib cfg w r d)).
Proof.
  unfold storable_rows. intro H.
  destruct r as [|b|b| |h b|h id b|h id|h b|b|h payload]; cbn [handle].
  5: { unfold createProduct.
       repeat (case_match; inserted; try exact H).
       cbn [snd products]. apply Forall_app. split; [exact H|].
       constructor; [|constructor]. cbn [p_price_cents]. apply bind_number_storable. }
  5: { unfold putProduct.
       repeat (case_match; try exact H).
       all: cbn [snd Sql.updateProduct products]; apply Forall_map;
         (eapply Forall_impl; [|exact H]); intros x Hx;
         (destruct (streq (p_id x) id); [|exact Hx]); apply bind_nullable_storable. }
  5: { unfold deleteProductHandler.
       repeat (case_match; try exact H).
       cbn [snd Sql.deleteProduct products]. rewrite Forall_forall in *.
       intros x Hx. apply filter_In in Hx as [Hx _]. auto. }
  all: unfold signup, login, listProducts, presign, checkout, webhook; cbv zeta;
       try exact H; repeat (case_match; inserted; try exact H).
Qed.

Lemma run_storable (trace : list (world * request)) (d : db) :
  storable_rows d -> storable_rows (run lib cfg d trace).
Proof.
  revert d. induction trace as [|[w r] trace IH]; intros d H; simpl; [exact H|].
  apply IH. now apply handle_storable.
Qed.

(** C9, amended: for an admin, an update of an id that no product has is
    answered 404 and changes nothing; an update of an existing product is
    answered [{ok: true}] and keeps its id and creation time; each of
    title, description, author and asset key keeps its stored value when
    the field is omitted or is the empty string, and takes the supplied
    value otherwise; the stored cents stay when the price is omitted or
    [Math.round(price * 100)] is 0, and become that number otherwise; the
    rows of other ids, the users and the orders are untouched. *)
Theorem update_merges (trace : list (world * request)) (w : world) (h : headers)
    (id : jsstring) (b : product_body) (user : claims) :
  authMiddleware lib cfg w h = inr user ->
  is_admin user = true ->
  ((forall x, In x (products (run lib cfg empty_db trace)) -> p_id x <> id) ->
   putProduct lib cfg w h id b (run lib cfg empty_db trace)
   = (err 404 "Not found", run lib cfg empty_db trace))
  /\ forall row,
       Sql.getProductById (run lib cfg empty_db trace) id = Some row ->
       exists row',
         fst (putProduct lib cfg w h id b (run lib cfg empty_db trace)) = Reply 200 Ok
         /\ Sql.getProductById
              (snd (putProduct lib cfg w h id b (run lib cfg empty_db trace))) id = Some row'
         /\ p_id row' = p_id row /\ p_created_at row' = p_created_at row
         /\ merged (pb_title b) (p_title row) (p_title row')
         /\ merged (pb_description b) (p_description row) (p_description row')
         /\ merged (pb_author b) (p_author row) (p_author row')
         /\ merged (pb_asset_key b) (p_asset_key row) (p_asset_key row')
         /\ merged_price (pb_price b) (p_price_cents row) (p_price_cents row')
         /\ users (snd (putProduct lib cfg w h id b (run lib cfg empty_db trace)))
            = users (run lib cfg empty_db trace)
         /\ orders (snd (putProduct lib cfg w h id b (run lib cfg empty_db trace)))
            = orders (run lib cfg empty_db trace)
         /\ forall i x,
              nth_error (products (run lib cfg empty_db trace)) i = Some x ->
              p_id x <> id ->
              nth_error
                (products (snd (putProduct lib cfg w h id b (run lib cfg empty_db trace)))) i
              = Some x.
Proof.
  intros A F.
  pose proof (run_storable trace empty_db (Forall_nil _)) as St.
  set (d := run lib cfg empty_db trace) in *.
  unfold putProduct. rewrite A, F. cbn [negb]. split.
  - intro Hno. unfold Sql.getProductById. rewrite find_absent; [reflexivity|].
    intros x Hx. apply streq_false_iff. now apply Hno.
  - intros row Hrow. rewrite Hrow. cbn [fst snd].
    eexists. split; [reflexivity|]. split.
    { unfold Sql.getProductById, Sql.updateProduct in *. cbn [products].
      rewrite find_map_same.
      - rewrite Hrow. cbn [option_map].
        apply find_some in Hrow as [_ Hid]. rewrite Hid. reflexivity.
      - intro x. destruct (streq (p_id x) id) eqn:E; [exact E | exact E]. }
    cbn [p_id p_created_at p_title p_description p_author p_asset_key p_price_cents].
    repeat split; try apply merged_or_else.
    + unfold merged_price.
      destruct (Num.truthy (to_cents (pb_price b))) eqn:T; cbn [Sql.bind_nullable].
      * now apply bind_number_truthy.
      * unfold storable_rows in St. rewrite Forall_forall in St.
        apply St. unfold Sql.getProductById in Hrow.
        now apply find_some in Hrow as [Hin _].
    + intros i x Hi Hx. unfold Sql.updateProduct. cbn [products].
      rewrite nth_error_map, Hi. cbn [option_map].
      apply streq_false_iff in Hx. now rewrite Hx.
Qed.

(** C5, amended: when a create is answered 200, the table has one more
    row, with the new id; its [price_cents] is a number equal to
    [Math.round(price * 100)], computed in binary64; the listing that
    follows shows the product with the price [(price_cents / 100).toFixed(2)];
    this rendering has exactly two decimals whenever [price_cents / 100]
    is below 10^21 in magnitude; and create followed by list round-trips
    every price of whole cents below 2^45 in magnitude: when the price is
    the Number closest to [c / 100], for an integer [c] other than 0
    between -100 * 2^45 and 100 * 2^45, the stored [price_cents] is [c]
    and the listing shows [c / 100] written with two decimals. *)
Theorem price_round_trip (w : world) (h : headers) (b : product_body) (d : db)
    (answer : body) (d' : db) :
  createProduct lib cfg w h b d = (Reply 200 answer, d') ->
  exists title price row stored,
    pb_title b = Some title /\ pb_price b = Some price
    /\ products d' = products d ++ [row]
    /\ p_id row = uuid w /\ p_title row = title
    /\ p_price_cents row = Some stored
    /\ SFeqb stored (Num.Math_round (Num.mul price Num.hundred)) = true
    /\ (exists views,
          listProducts d' = (Reply 200 (ProductList views), d')
          /\ In {| pv_id := uuid w; pv_title := title;
                   pv_price := Num.toFixed2 (Num.div stored Num.hundred);
                   pv_description := p_description row; pv_author := p_author row;
                   pv_asset_key := p_asset_key row |} views)
    /\ (below_1e21 (Num.div stored Num.hundred) = true ->
        two_decimal_format (Num.toFixed2 (Num.div stored Num.hundred)))
    /\ (forall c : Z,
          c <> 0 -> - cents_limit < c < cents_limit ->
          price = price_of_cents c ->
          stored = Num.of_Z c
          /\ Num.toFixed2 (Num.div stored Num.hundred) = decimal_price c).
Proof.
  unfold createProduct, err. intro H.
  destruct (authMiddleware lib cfg w h) as [resp|user] eqn:A.
  { injection H as -> _. apply auth_rejects in A as [msg A]. discriminate A. }
  destruct (is_admin user); cbn [negb] in H; [|discriminate].
  destruct (pb_title b) as [[|t title]|] eqn:Ht; try discriminate.
  destruct (pb_price b) as [price|] eqn:Hp; [|discriminate].
  destruct (Num.truthy price) eqn:T; [|discriminate].
  destruct (Sql.insertProduct d _) as [d1|] eqn:I; [|discriminate].
  injection H as _ <-. inserted.
  destruct (bind_number_equal _ (to_cents_not_nan price T)) as (stored & Hs & Heq).
  eexists (t :: title), price, _, stored.
  split; [reflexivity|]. split; [reflexivity|]. split; [reflexivity|].
  cbn [p_id p_title p_price_cents p_description p_author p_asset_key].
  split; [reflexivity|]. split; [reflexivity|]. split; [exact Hs|].
  split; [exact Heq|]. split; [|split].
  - eexists. split; [reflexivity|].
    apply in_map_iff. eexists. split.
    2: { apply getAllProducts_In. cbn [products]. apply in_or_app. right. now left. }
    unfold view, render_price.
    cbn [p_id p_title p_price_cents p_description p_author p_asset_key].
    now rewrite Hs.
  - apply toFixed2_format.
  - intros c Hc Hl ->.
    destruct (price_of_cents_round_trip c Hc Hl) as (_ & R & B & P).
    rewrite R, B in Hs. injection Hs as <-. split; [reflexivity | exact P].
Qed.

End Catalogue.

(** C9, as stated, fails: an update that supplies the empty string as
    description leaves the stored description [old] in place. *)
Lemma empty_description_kept :
  exists row',
    fst (handle Demo.toy Demo.dev (Demo.at_time 6 "")
           (PutProduct (Demo.bearer Demo.admin_token) (lit "p1")
              {| pb_title := None; pb_price := None; pb_description := Some [];
                 pb_author := None; pb_asset_key := None |})
           (run Demo.toy Demo.dev empty_db
              [(Demo.at_time 5 "p1",
                PostProduct (Demo.bearer Demo.admin_token) (Demo.ebook Demo.n19_99))]))
    = Reply 200 Ok
    /\ Sql.getProductById
         (snd (handle Demo.toy Demo.dev (Demo.at_time 6 "")
                 (PutProduct (Demo.bearer Demo.admin_token) (lit "p1")
                    {| pb_title := None; pb_price := None; pb_description := Some [];
                       pb_author := None; pb_asset_key := None |})
                 (run Demo.toy Demo.dev empty_db
                    [(Demo.at_time 5 "p1",
                      PostProduct (Demo.bearer Demo.admin_token) (Demo.ebook Demo.n19_99))])))
         (lit "p1")
       = Some row'
    /\ p_description row' = lit "old"
    /\ p_description row' <> replaced (Some []) (lit "old").
Proof.
  eexists. split; [vm_compute; reflexivity|]. split; [vm_compute; reflexivity|].
  split; [reflexivity|]. discriminate.
Qed.

Lemma update_merges_witness :
  putProduct Demo.toy Demo.dev (Demo.at_time 6 "") (Demo.bearer Demo.admin_token)
    (lit "p2")
    {| pb_title := Some (lit "New"); pb_price := None; pb_description := None;
       pb_author := None; pb_asset_key := None |}
    (run Demo.toy Demo.dev empty_db
       [(Demo.at_time 5 "p1",
         PostProduct (Demo.bearer Demo.admin_token) (Demo.ebook Demo.n19_99))])
  = (err 404 "Not found",
     run Demo.toy Demo.dev empty_db
       [(Demo.at_time 5 "p1",
         PostProduct (Demo.bearer Demo.admin_token) (Demo.ebook Demo.n19_99))])
  /\ exists row',
       Sql.getProductById
         (snd (putProduct Demo.toy Demo.dev (Demo.at_time 6 "")
                 (Demo.bearer Demo.admin_token) (lit "p1")
                 {| pb_title := Some (lit "New"); pb_price := None; pb_description := None;
                    pb_author := None; pb_asset_key := None |}
                 (run Demo.toy Demo.dev empty_db
                    [(Demo.at_time 5 "p1",
                      PostProduct (Demo.bearer Demo.admin_token)
                        (Demo.ebook Demo.n19_99))])))
         (lit "p1")
       = Some row'
       /\ p_title row' = lit "New"
       /\ p_description row' = lit "old"
       /\ p_price_cents row' = Some (Num.of_Z 1999).
Proof.
  split.
  - eapply (update_merges Demo.toy Demo.dev
              [(Demo.at_time 5 "p1",
                PostProduct (Demo.bearer Demo.admin_token) (Demo.ebook Demo.n19_99))]).
    + reflexivity.
    + reflexivity.
    + intros x [<-|[]]. discriminate.
  - destruct (update_merges Demo.toy Demo.dev
                [(Demo.at_time 5 "p1",
                  PostProduct (Demo.bearer Demo.admin_token) (Demo.ebook Demo.n19_99))]
                (Demo.at_time 6 "") (Demo.bearer Demo.admin_token) (lit "p1")
                {| pb_title := Some (lit "New"); pb_price := None; pb_description := None;
                   pb_author := None; pb_asset_key := None |}
                {| c_sub := Some (lit "u1"); c_role := Some (lit "admin") |}
                eq_refl eq_refl) as [_ H].
    destruct (H {| p_id := lit "p1"; p_title := lit "Ebook";
                   p_price_cents := Some (Num.of_Z 1999);
                   p_description := lit "old"; p_author := []; p_asset_key := [];
                   p_created_at := 5 |} eq_refl)
      as (row' & _ & G & _ & _ & T & D & _ & _ & P & _).
    exists row'. split; [exact G|]. split; [exact T|]. split; [exact D | exact P].
Defined.

(** C5, as stated, fails twice.  The price 10^22 is stored as 10^24 cents,
    and the listing renders it as [1e+22], without decimals.  The price
    35184372088832.02, just above 2^45, is stored as 3518437208883203
    cents, and the listing renders it as [35184372088832.03]. *)
Lemma price_round_trip_fails :
  (fst (handle Demo.toy Demo.dev (Demo.at_time 6 "") GetProducts
          (run Demo.toy Demo.dev empty_db
             [(Demo.at_time 5 "p1",
               PostProduct (Demo.bearer Demo.admin_token)
                 (Demo.ebook (Num.of_Z (10 ^ 22))))]))
   = Reply 200
       (ProductList
          [ {| pv_id := lit "p1"; pv_title := lit "Ebook"; pv_price := lit "1e+22";
               pv_description := lit "old"; pv_author := []; pv_asset_key := [] |} ])
   /\ ~ two_decimal_format (lit "1e+22"))
  /\ (handle Demo.toy Demo.dev (Demo.at_time 6 "") GetProducts
        (run Demo.toy Demo.dev empty_db
           [(Demo.at_time 5 "p1",
             PostProduct (Demo.bearer Demo.admin_token)
               (Demo.ebook (price_of_cents 3518437208883202)))])
      = (Reply 200
           (ProductList
              [ {| pv_id := lit "p1"; pv_title := lit "Ebook";
                   pv_price := lit "35184372088832.03";
                   pv_description := lit "old"; pv_author := []; pv_asset_key := [] |} ]),
         {| users := [];
            products :=
              [ {| p_id := lit "p1"; p_title := lit "Ebook";
                   p_price_cents := Some (Num.of_Z 3518437208883203);
                   p_description := lit "old"; p_author := []; p_asset_key := [];
                   p_created_at := 5 |} ];
            orders := [] |})
      /\ decimal_price 3518437208883202 = lit "35184372088832.02").
Proof.
  split; [split|split].
  - vm_compute. reflexivity.
  - intros (sign & int & frac & E & _).
    assert (I : In Num.dot (lit "1e+22")).
    { rewrite E. apply in_or_app. right. apply in_or_app. right. now left. }
    vm_compute in I. intuition discriminate.
  - vm_compute. reflexivity.
  - vm_compute. reflexivity.
Qed.

(** The scenario of the specification: 19.99 is stored as 1999 cents and
    listed as [19.99]. *)
Example ebook_19_99 :
  handle Demo.toy Demo.dev (Demo.at_time 6 "") GetProducts
    (run Demo.toy Demo.dev empty_db
       [(Demo.at_time 5 "p1",
         PostProduct (Demo.bearer Demo.admin_token) (Demo.ebook Demo.n19_99))])
  = (Reply 200
       (ProductList
          [ {| pv_id := lit "p1"; pv_title := lit "Ebook"; pv_price := lit "19.99";
               pv_description := lit "old"; pv_author := []; pv_asset_key := [] |} ]),
     {| users := [];
        products :=
          [ {| p_id := lit "p1"; p_title := lit "Ebook";
               p_price_cents := Some (Num.of_Z 1999);
               p_description := lit "old"; p_author := []; p_asset_key := [];
               p_created_at := 5 |} ];
        orders := [] |}).
Proof. vm_compute. reflexivity. Qed.

Lemma price_round_trip_witness :
  exists title price row stored,
    Some (lit "Ebook") = Some title /\ Some Demo.n19_99 = Some price
    /\ [ {| p_id := lit "p1"; p_title := lit "Ebook";
            p_price_cents := Some (Num.of_Z 1999);
            p_description := lit "old"; p_author := []; p_asset_key := [];
            p_created_at := 5 |} ] = [] ++ [row]
    /\ p_id row = lit "p1" /\ p_title row = title
    /\ p_price_cents row = Some stored
    /\ SFeqb stored (Num.Math_round (Num.mul price Num.hundred)) = true
    /\ stored = Num.of_Z 1999
    /\ Num.toFixed2 (Num.div stored Num.hundred) = lit "19.99".
Proof.
  destruct (price_round_trip Demo.toy Demo.dev (Demo.at_time 5 "p1")
              (Demo.bearer Demo.admin_token) (Demo.ebook Demo.n19_99) empty_db
              (Created (lit "p1") (lit "Ebook") (lit "19.99") (Some (lit "old")) None None)
              {| users := [];
                 products :=
                   [ {| p_id := lit "p1"; p_title := lit "Ebook";
                        p_price_cents := Some (Num.of_Z 1999);
                        p_description := lit "old"; p_author := []; p_asset_key := [];
                        p_created_at := 5 |} ];
                 orders := [] |})
    as (title & price & row & stored & H1 & H2 & H3 & H4 & H5 & H6 & H7 & _ & _ & RT).
  - vm_compute. reflexivity.
  - exists title, price, row, stored.
    assert (P : price = price_of_cents 1999) by (injection H2 as <-; reflexivity).
    destruct (RT 1999 ltac:(discriminate) ltac:(unfold cents_limit; lia) P) as [S1 S2].
    repeat split; try assumption.
Defined.

(** * Further properties of the handlers *)

(** ** Checkout *)


Section Checkout.

Variable lib : services.
Variable cfg : config.




(** X2: the checkout never looks at the catalogue or at the users: on two
    databases with the same orders it gives the same answer and the same
    orders, whatever their products are, and it leaves products and users
    as they are; and when it answers with a redirect, the line items that
    Stripe received carry, item by item, the title of the item of the
    request and [Math.round(Number(price) * 100)] of its price: the
    amounts are those of the request, not those of the catalogue. *)
Theorem checkout_ignores_catalogue (w : world) (b : checkout_body) (d1 d2 : db) :
  orders d1 = orders d2 ->
  fst (checkout lib cfg w b d1) = fst (checkout lib cfg w b d2)
  /\ orders (snd (checkout lib cfg w b d1)) = orders (snd (checkout lib cfg w b d2))
  /\ products (snd (checkout lib cfg w b d1)) = products d1
  /\ users (snd (checkout lib cfg w b d1)) = users d1
  /\ forall url,
       fst (checkout lib cfg w b d1) = Reply 200 (Redirect url) ->
       exists items lines session,
         cb_items b = Some items
         /\ sessions_create lib (or_else (env_STRIPE_SECRET cfg) [])
              {| cp_line_items := lines;
                 cp_success_url := cb_successUrl b;
                 cp_cancel_url := cb_cancelUrl b;
                 cp_customer_email := cb_customerEmail b |} = Some session
         /\ url = s_url session
         /\ Forall2
              (fun i li =>
                 li_name li = i_title i
                 /\ li_unit_amount li
                    = Num.Math_round (Num.mul (Num.Number (i_price i)) Num.hundred))
              items lines.
Proof.
  intro E. unfold checkout, Sql.insertOrder, err.
  destruct (cb_items b) as [items|];
    [|cbn [fst snd]; repeat split; auto; intros url H; discriminate H].
  destruct (sessions_create lib _ _) as [session|] eqn:Hs;
    [|cbn [fst snd]; repeat split; auto; intros url H; discriminate H].
  rewrite E.
  destruct (existsb _ (orders d2)); cbn [fst snd orders products users];
    rewrite ?E; repeat split; auto; intros url H; try discriminate H.
  injection H as <-.
  exists items, (map line_item_of items), session.
  split; [reflexivity|]. split; [exact Hs|]. split; [reflexivity|].
  clear Hs. induction items as [|i items IH]; cbn [map]; constructor; auto.
Qed.


End Checkout.


Lemma checkout_ignores_catalogue_witness :
  fst (checkout Demo.toy Demo.dev (Demo.at_time 7 "o1") Demo.cart empty_db)
  = fst (checkout Demo.toy Demo.dev (Demo.at_time 7 "o1") Demo.cart
           (run Demo.toy Demo.dev empty_db
              [(Demo.at_time 5 "p1",
                PostProduct (Demo.bearer Demo.admin_token) (Demo.ebook Demo.n19_99))]))
  /\ exists lines session,
       sessions_create Demo.toy (or_else (env_STRIPE_SECRET Demo.dev) [])
         {| cp_line_items := lines;
            cp_success_url := cb_successUrl Demo.cart;
            cp_cancel_url := cb_cancelUrl Demo.cart;
            cp_customer_email := cb_customerEmail Demo.cart |} = Some session
       /\ Forall2
            (fun i li =>
               li_name li = i_title i
               /\ li_unit_amount li
                  = Num.Math_round (Num.mul (Num.Number (i_price i)) Num.hundred))
            [{| i_title := Some (lit "Ebook"); i_price := Some Demo.n19_99;
                i_quantity := None |}]
            lines.
Proof.
  destruct (checkout_ignores_catalogue Demo.toy Demo.dev (Demo.at_time 7 "o1") Demo.cart
              empty_db
              (run Demo.toy Demo.dev empty_db
                 [(Demo.at_time 5 "p1",
                   PostProduct (Demo.bearer Demo.admin_token) (Demo.ebook Demo.n19_99))])
              eq_refl) as (H & _ & _ & _ & A).
  split; [exact H|].
  destruct (A (lit "https://checkout/") eq_refl)
    as (items & lines & session & Hi & Hs & _ & F).
  injection Hi as <-. exists lines, session. split; [exact Hs | exact F].
Defined.


(** ** The catalogue, continued *)

Lemma or_else_idem (v : field) (old : jsstring) :
  or_else v (or_else v old) = or_else v old.
Proof. destruct v as [[|c s]|]; reflexivity. Qed.

Lemma filter_idem {A : Type} (f : A -> bool) (l : list A) :
  filter f (filter f l) = filter f l.
Proof.
  induction l as [|x l IH]; [reflexivity|]. simpl.
  destruct (f x) eqn:E; simpl; [rewrite E; now f_equal | exact IH].
Qed.

Lemma insert_desc_perm (r : product_row) (l : list product_row) :
  Permutation (Sql.insert_desc r l) (r :: l).
Proof.
  induction l as [|x l IH]; simpl; [reflexivity|].
  destruct (p_created_at x <=? p_created_at r); [reflexivity|].
  rewrite IH. apply perm_swap.
Qed.

Lemma insert_desc_sorted (r : product_row) (l : list product_row) :
  StronglySorted newer l -> StronglySorted newer (Sql.insert_desc r l).
Proof.
  induction l as [|x l IH]; simpl; intro H.
  - repeat constructor.
  - apply StronglySorted_inv in H as [Hl Hx].
    destruct (p_created_at x <=? p_created_at r) eqn:E.
    + apply Z.leb_le in E. constructor; [constructor; assumption|].
      constructor; [exact E|].
      eapply Forall_impl; [|exact Hx]. unfold newer. intros a Ha. lia.
    + apply Z.leb_gt in E. constructor; [auto|].
      eapply Permutation_Forall; [symmetry; apply insert_desc_perm|].
      constructor; [unfold newer; lia | exact Hx].
Qed.

(** X4: the public listing answers 200 with one entry for each row of
    the products table, no row twice or dropped, the newer rows first, and
    leaves the database as it is. *)
Theorem listing_newest_first (d : db) :
  exists rows,
    listProducts d = (Reply 200 (ProductList (map view rows)), d)
    /\ Permutation rows (products d)
    /\ StronglySorted newer rows.
Proof.
  exists (Sql.getAllProducts d). split; [reflexivity|].
  unfold Sql.getAllProducts. induction (products d) as [|x l [P S]]; simpl.
  - split; constructor.
  - split.
    + rewrite insert_desc_perm. now constructor.
    + now apply insert_desc_sorted.
Qed.

Section Catalogue_more.

Variable lib : services.
Variable cfg : config.

(** X5: for an admin, a delete is answered [{ok: true}] whether the id
    exists or not; afterwards no product has this id, the products of
    other ids are all there, users and orders are untouched, a second
    delete changes nothing, and an update of this id is answered 404. *)
Theorem delete_removes (w : world) (h : headers) (id : jsstring) (d : db)
    (user : claims) :
  authMiddleware lib cfg w h = inr user ->
  is_admin user = true ->
  fst (deleteProductHandler lib cfg w h id d) = Reply 200 Ok
  /\ Sql.getProductById (snd (deleteProductHandler lib cfg w h id d)) id = None
  /\ (forall x, In x (products (snd (deleteProductHandler lib cfg w h id d)))
                <-> In x (products d) /\ p_id x <> id)
  /\ users (snd (deleteProductHandler lib cfg w h id d)) = users d
  /\ orders (snd (deleteProductHandler lib cfg w h id d)) = orders d
  /\ deleteProductHandler lib cfg w h id (snd (deleteProductHandler lib cfg w h id d))
     = (Reply 200 Ok, snd (deleteProductHandler lib cfg w h id d))
  /\ forall b,
       putProduct lib cfg w h id b (snd (deleteProductHandler lib cfg w h id d))
       = (err 404 "Not found", snd (deleteProductHandler lib cfg w h id d)).
Proof.
  intros A F. unfold deleteProductHandler, putProduct. rewrite A, F.
  cbn [negb fst snd].
  assert (In_iff : forall x, In x (products (Sql.deleteProduct d id))
                             <-> In x (products d) /\ p_id x <> id).
  { intro x. unfold Sql.deleteProduct. cbn [products]. rewrite filter_In.
    rewrite negb_true_iff, streq_false_iff. tauto. }
  assert (Gone : Sql.getProductById (Sql.deleteProduct d id) id = None).
  { unfold Sql.getProductById. apply find_absent.
    intros x Hx. apply In_iff in Hx as [_ Hx]. now apply streq_false_iff. }
  split; [reflexivity|]. split; [exact Gone|]. split; [exact In_iff|].
  split; [reflexivity|]. split; [reflexivity|]. split.
  - f_equal. unfold Sql.deleteProduct. cbn [users products orders]. f_equal.
    apply filter_idem.
  - intro b. now rewrite Gone.
Qed.

(** X6: for an admin, a create is answered 400 [Missing], with the
    database unchanged, exactly when the title is missing or empty or the
    price is missing, 0 or NaN. *)
Theorem create_requires_title_and_price (w : world) (h : headers) (b : product_body)
    (d : db) (user : claims) :
  authMiddleware lib cfg w h = inr user ->
  is_admin user = true ->
  createProduct lib cfg w h b d = (err 400 "Missing", d)
  <-> truthy (pb_title b) = false \/ Num.truthy (Num.Number (pb_price b)) = false.
Proof.
  intros A F. unfold createProduct, err. rewrite A, F. cbn [negb].
  destruct (pb_title b) as [[|t title]|]; cbn [truthy];
    try (split; [now left | reflexivity]).
  destruct (pb_price b) as [price|]; cbn [Num.Number Num.truthy];
    [|split; [now right | reflexivity]].
  destruct (Num.truthy price) eqn:T; [|split; [now right | reflexivity]].
  split; [|intros [H|H]; discriminate].
  destruct (Sql.insertProduct d _); discriminate.
Qed.

(** X7: an update can be replayed: for an admin, the same update applied
    to the database it produced leaves that database as it is. *)
Theorem update_idempotent (w w' : world) (h h' : headers) (id : jsstring)
    (b : product_body) (d : db) (user user' : claims) :
  authMiddleware lib cfg w h = inr user -> is_admin user = true ->
  authMiddleware lib cfg w' h' = inr user' -> is_admin user' = true ->
  putProduct lib cfg w' h' id b (snd (putProduct lib cfg w h id b d))
  = (fst (putProduct lib cfg w h id b d), snd (putProduct lib cfg w h id b d)).
Proof.
  intros A F A' F'. unfold putProduct. rewrite A, F, A', F'. cbn [negb].
  destruct (Sql.getProductById d id) as [row|] eqn:G; cbn [fst snd].
  - assert (G' : Sql.getProductById
                   (Sql.updateProduct d (or_else (pb_title b) (p_title row))
                      (Sql.bind_nullable
                         (if Num.truthy (to_cents (pb_price b))
                          then Some (to_cents (pb_price b)) else p_price_cents row))
                      (or_else (pb_description b) (p_description row))
                      (or_else (pb_author b) (p_author row))
                      (or_else (pb_asset_key b) (p_asset_key row)) id) id
                 = Some {| p_id := p_id row;
                           p_title := or_else (pb_title b) (p_title row);
                           p_price_cents :=
                             Sql.bind_nullable
                               (if Num.truthy (to_cents (pb_price b))
                                then Some (to_cents (pb_price b)) else p_price_cents row);
                           p_description := or_else (pb_description b) (p_description row);
                           p_author := or_else (pb_author b) (p_author row);
                           p_asset_key := or_else (pb_asset_key b) (p_asset_key row);
                           p_created_at := p_created_at row |}).
    { unfold Sql.getProductById, Sql.updateProduct in *. cbn [products].
      rewrite find_map_same.
      - rewrite G. cbn [option_map]. apply find_some in G as [_ Hid]. now rewrite Hid.
      - intro x. destruct (streq (p_id x) id) eqn:E; exact E. }
    rewrite G'. f_equal.
    cbn [p_title p_price_cents p_description p_author p_asset_key].
    rewrite !or_else_idem.
    replace (Sql.bind_nullable
               (if Num.truthy (to_cents (pb_price b))
                then Some (to_cents (pb_price b))
                else Sql.bind_nullable
                       (if Num.truthy (to_cents (pb_price b))
                        then Some (to_cents (pb_price b)) else p_price_cents row)))
      with (Sql.bind_nullable
              (if Num.truthy (to_cents (pb_price b))
               then Some (to_cents (pb_price b)) else p_price_cents row))
      by (destruct (Num.truthy (to_cents (pb_price b)));
          [reflexivity | symmetry; apply bind_nullable_storable]).
    unfold Sql.updateProduct. cbn [users products orders]. f_equal.
    rewrite map_map. apply map_ext. intro x.
    destruct (streq (p_id x) id) eqn:E; cbn [p_id p_created_at]; now rewrite E.
  - now rewrite G.
Qed.

End Catalogue_more.

Lemma delete_removes_witness :
  Sql.getProductById
    (snd (deleteProductHandler Demo.toy Demo.dev (Demo.at_time 6 "")
            (Demo.bearer Demo.admin_token) (lit "p1")
            (run Demo.toy Demo.dev empty_db
               [(Demo.at_time 5 "p1",
                 PostProduct (Demo.bearer Demo.admin_token) (Demo.ebook Demo.n19_99))])))
    (lit "p1")
  = None.
Proof.
  destruct (delete_removes Demo.toy Demo.dev (Demo.at_time 6 "")
              (Demo.bearer Demo.admin_token) (lit "p1")
              (run Demo.toy Demo.dev empty_db
                 [(Demo.at_time 5 "p1",
                   PostProduct (Demo.bearer Demo.admin_token) (Demo.ebook Demo.n19_99))])
              {| c_sub := Some (lit "u1"); c_role := Some (lit "admin") |})
    as (_ & G & _).
  - vm_compute. reflexivity.
  - reflexivity.
  - exact G.
Defined.

Lemma create_requires_title_and_price_witness :
  createProduct Demo.toy Demo.dev (Demo.at_time 5 "p1") (Demo.bearer Demo.admin_token)
    (Demo.ebook (Num.of_Z 0)) empty_db
  = (err 400 "Missing", empty_db).
Proof.
  eapply (create_requires_title_and_price Demo.toy Demo.dev (Demo.at_time 5 "p1")
            (Demo.bearer Demo.admin_token) (Demo.ebook (Num.of_Z 0)) empty_db).
  - reflexivity.
  - reflexivity.
  - right. reflexivity.
Defined.

Lemma update_idempotent_witness :
  putProduct Demo.toy Demo.dev (Demo.at_time 7 "") (Demo.bearer Demo.admin_token)
    (lit "p1") (Demo.ebook (Num.of_Z 5))
    (snd (putProduct Demo.toy Demo.dev (Demo.at_time 6 "") (Demo.bearer Demo.admin_token)
            (lit "p1") (Demo.ebook (Num.of_Z 5))
            (run Demo.toy Demo.dev empty_db
               [(Demo.at_time 5 "p1",
                 PostProduct (Demo.bearer Demo.admin_token) (Demo.ebook Demo.n19_99))])))
  = (fst (putProduct Demo.toy Demo.dev (Demo.at_time 6 "") (Demo.bearer Demo.admin_token)
            (lit "p1") (Demo.ebook (Num.of_Z 5))
            (run Demo.toy Demo.dev empty_db
               [(Demo.at_time 5 "p1",
                 PostProduct (Demo.bearer Demo.admin_token) (Demo.ebook Demo.n19_99))])),
     snd (putProduct Demo.toy Demo.dev (Demo.at_time 6 "") (Demo.bearer Demo.admin_token)
            (lit "p1") (Demo.ebook (Num.of_Z 5))
            (run Demo.toy Demo.dev empty_db
               [(Demo.at_time 5 "p1",
                 PostProduct (Demo.bearer Demo.admin_token) (Demo.ebook Demo.n19_99))]))).
Proof.
  eapply (update_idempotent Demo.toy Demo.dev); reflexivity.
Defined.

(** ** The tables as a whole *)

Lemma existsb_absent {A : Type} (f : A -> jsstring) (k : jsstring) (l : list A) :
  existsb (fun x => streq (f x) k) l = false -> ~ In k (map f l).
Proof.
  intros E H. apply in_map_iff in H as (x & <- & Hx).
  assert (T : existsb (fun y => streq (f y) (f x)) l = true).
  { apply existsb_exists. exists x. split; [exact Hx | apply streq_refl]. }
  congruence.
Qed.

Lemma NoDup_snoc {A : Type} (l : list A) (a : A) :
  NoDup l -> ~ In a l -> NoDup (l ++ [a]).
Proof.
  intros N H. apply (Permutation_NoDup (l := a :: l)).
  - rewrite Permutation_app_comm. reflexivity.
  - now constructor.
Qed.

Lemma filter_keeps_distinct {Row Key : Type} (key : Row -> Key) (keep : Row -> bool)
    (rows : list Row) :
  NoDup (map key rows) -> NoDup (map key (filter keep rows)).
Proof.
  induction rows as [|x rows IH]; simpl; intro N; [constructor|].
  inversion N as [|? ? Hx Hrows]; subst.
  destruct (keep x); simpl; [|auto].
  constructor; [|auto].
  intro H. apply Hx. apply in_map_iff in H as (y & E & Hy).
  apply filter_In in Hy as [Hy _]. apply in_map_iff. eauto.
Qed.

Section Tables.

Variable lib : services.
Variable cfg : config.

(** One request is one write at most. *)
Lemma handle_effect (w : world) (r : request) (d : db) :
  effect d (snd (handle lib cfg w r d)).
Proof.
  destruct r as [|b|b| |h b|h id b|h id|h b|b|h payload]; cbn [handle];
    unfold signup, login, listProducts, createProduct, putProduct,
      deleteProductHandler, presign, checkout, webhook; cbv zeta;
    repeat case_match; cbn [snd];
    try apply Unchanged;
    try (eapply UserInserted; eassumption);
    try (eapply ProductInserted; eassumption);
    try (eapply OrderInserted; eassumption);
    try apply ProductUpdated; try apply ProductDeleted; apply OrderUpdated.
Qed.

Lemma effect_unique (d d' : db) : effect d d' -> unique_keys d -> unique_keys d'.
Proof.
  unfold unique_keys. intros E (Ui & Ue & Pi & Oi).
  destruct E as [|r d' I|r d' I|title pc de au ak id|id|r d' I|status sid].
  - auto.
  - pose proof I as I'. unfold Sql.insertUser in I'.
    destruct (existsb _ (users d)) eqn:X; [discriminate|]. clear I'.
    inserted. cbn [users products orders].
    rewrite !map_app. cbn [map].
    repeat split; auto; apply NoDup_snoc; auto.
    + apply (existsb_absent u_id). apply not_true_is_false. intro T.
      apply not_true_iff_false in X. apply X.
      apply existsb_exists in T as (x & Hx & Tx). apply existsb_exists.
      exists x. split; [exact Hx|]. now rewrite Tx.
    + apply (existsb_absent u_email). apply not_true_is_false. intro T.
      apply not_true_iff_false in X. apply X.
      apply existsb_exists in T as (x & Hx & Tx). apply existsb_exists.
      exists x. split; [exact Hx|]. rewrite Tx. apply orb_true_r.
  - pose proof I as I'. unfold Sql.insertProduct in I'.
    destruct (existsb _ (products d)) eqn:X; [discriminate|]. clear I'.
    inserted. cbn [users products orders].
    rewrite map_app. cbn [map].
    repeat split; auto. apply NoDup_snoc; auto. now apply (existsb_absent p_id).
  - cbn [Sql.updateProduct users products orders]. repeat split; auto.
    rewrite map_map.
    erewrite map_ext; [exact Pi|].
    intro x. cbv beta. now destruct (streq (p_id x) id).
  - cbn [Sql.deleteProduct users products orders]. repeat split; auto.
    now apply filter_keeps_distinct.
  - pose proof I as I'. unfold Sql.insertOrder in I'.
    destruct (existsb _ (orders d)) eqn:X; [discriminate|]. clear I'.
    inserted. cbn [users products orders].
    rewrite map_app. cbn [map].
    repeat split; auto. apply NoDup_snoc; auto. now apply (existsb_absent o_id).
  - cbn [Sql.updateOrderStatus users products orders]. repeat split; auto.
    rewrite map_map.
    erewrite map_ext; [exact Oi|].
    intro x. cbv beta. now destruct (Sql.text_eq (o_session_id x) sid).
Qed.

Lemma run_unique (trace : list (world * request)) (d : db) :
  unique_keys d -> unique_keys (run lib cfg d trace).
Proof.
  revert d. induction trace as [|[w r] trace IH]; intros d U; simpl; [exact U|].
  apply IH. eapply effect_unique; [apply handle_effect | exact U].
Qed.

(** X8: the keys of the schema hold in every database the server builds
    from the empty one: no two users share an id or an email, no two
    products share an id, no two orders share an id. *)
Theorem keys_stay_unique (trace : list (world * request)) :
  unique_keys (run lib cfg empty_db trace).
Proof.
  apply run_unique. repeat split; constructor.
Qed.

(** X9: the users table only grows: whatever requests arrive, the rows
    that were there stay, in place and unchanged, and every row added
    behind them has the role [admin]. *)
Theorem users_append_only (trace : list (world * request)) (d : db) :
  exists added,
    users (run lib cfg d trace) = users d ++ added
    /\ Forall admin_role added.
Proof. apply run_users. Qed.

Lemma insertUser_then_getUserById (d d' : db) (r : user_row) :
  Sql.insertUser d r = Some d' -> Sql.getUserById d' (u_id r) <> None.
Proof.
  intro I. inserted. unfold Sql.getUserById. cbn [users].
  destruct (find _ (users d ++ [r])) eqn:F; [discriminate|].
  assert (T : streq (u_id r) (u_id r) = false).
  { apply (find_none _ _ F r). apply in_or_app. right. now left. }
  rewrite streq_refl in T. discriminate T.
Qed.

(** X10: a request that is not answered 200 leaves the database exactly
    as it was, on every route. *)
Theorem errors_change_nothing (w : world) (r : request) (d : db) :
  (forall b, fst (handle lib cfg w r d) <> Reply 200 b) ->
  snd (handle lib cfg w r d) = d.
Proof.
  destruct r as [|b|b| |h b|h id b|h id|h b|b|h payload]; cbn [handle]; intro H.
  2: { unfold signup in *.
       repeat case_match; cbn [fst snd] in *; try reflexivity.
       - exfalso. eapply H. reflexivity.
       - exfalso.
         match goal with
         | I : Sql.insertUser _ _ = Some _ |- _ =>
             apply insertUser_then_getUserById in I; cbn [u_id] in I; congruence
         end. }
  all: unfold login, listProducts, createProduct, putProduct, deleteProductHandler,
         presign, checkout, webhook in *; cbv zeta in *;
       repeat case_match; cbn [fst snd] in *; try reflexivity;
       exfalso; eapply H; reflexivity.
Qed.

(** X11: signup and login compose: after a signup answered 200, and after
    any further requests, a login with the same email and password is
    answered 200 with the same user and a token for that user, and changes
    nothing, provided [bcrypt.compare] accepts the password against the
    hash [bcrypt.hash] made of it. *)
Theorem signup_then_login (w1 : world) (b1 : signup_body) (d : db)
    (token1 : jsstring) (user : user_view) (d1 : db)
    (trace : list (world * request)) (w2 : world) (password : jsstring) :
  signup lib cfg w1 b1 d = (Reply 200 (TokenUser token1 user), d1) ->
  sb_password b1 = Some password ->
  bcrypt_compare lib (Some password) (bcrypt_hash lib password (entropy w1)) = Some true ->
  login lib cfg w2 {| lb_email := sb_email b1; lb_password := Some password |}
    (run lib cfg d1 trace)
  = (Reply 200 (TokenUser (generateToken lib cfg w2 user) user), run lib cfg d1 trace).
Proof.
  unfold signup, err, hashPassword. intros H Hp Hc.
  destruct (sb_email b1) as [[|e email]|] eqn:He; try discriminate.
  rewrite Hp in H. destruct password as [|p password]; [discriminate|].
  destruct (Sql.getUserByEmail d (Some (e :: email))) eqn:G; [discriminate|].
  destruct (Sql.insertUser d _) as [d'|] eqn:I; [|discriminate].
  inserted.
  destruct (Sql.getUserById _ (uuid w1)) as [u|] eqn:Gi; [|discriminate].
  injection H as _ <- <-.
  destruct (run_users lib cfg trace
              {| users := users d ++ [ {| u_id := uuid w1; u_name := or_else (sb_name b1) [];
                                         u_email := e :: email;
                                         u_password_hash :=
                                           bcrypt_hash lib (p :: password) (entropy w1);
                                         u_role := lit "admin"; u_created_at := now w1 |} ];
                 products := products d; orders := orders d |})
    as (extra & Eu & _).
  cbn [users] in Eu.
  unfold login, bind_field, verifyPassword. cbn [lb_email lb_password].
  unfold Sql.getUserByEmail, Sql.getUserById in *. cbn [users] in Gi.
  rewrite Eu.
  erewrite find_app_found;
    [|apply find_app_new; [exact G | cbn [Sql.text_eq u_email]; apply streq_refl]].
  cbn [u_password_hash u_id]. rewrite Hc.
  destruct (find _ (users d ++ [_])) as [x|] eqn:F; [|discriminate].
  erewrite find_app_found; [|exact F]. now injection Gi as <-.
Qed.

End Tables.

Lemma errors_change_nothing_witness :
  snd (handle Demo.toy Demo.dev (Demo.at_time 5 "p1")
         (PostProduct (Demo.bearer Demo.guest_token) (Demo.ebook Demo.n19_99)) empty_db)
  = empty_db.
Proof.
  apply (errors_change_nothing Demo.toy Demo.dev (Demo.at_time 5 "p1")
           (PostProduct (Demo.bearer Demo.guest_token) (Demo.ebook Demo.n19_99)) empty_db).
  intro b. vm_compute. discriminate.
Defined.

Lemma signup_then_login_witness :
  login Demo.toy Demo.dev (Demo.at_time 9 "")
    {| lb_email := sb_email Demo.alice; lb_password := Some (lit "pw") |}
    (run Demo.toy Demo.dev
       (snd (signup Demo.toy Demo.dev (Demo.at_time 5 "u1") Demo.alice empty_db))
       [(Demo.at_time 6 "o1", PostCheckout Demo.cart)])
  = (Reply 200
       (TokenUser
          (generateToken Demo.toy Demo.dev (Demo.at_time 9 "")
             {| uv_id := lit "u1"; uv_name := lit "Alice"; uv_email := lit "a@x.com";
                uv_role := lit "admin"; uv_created_at := 5 |})
          {| uv_id := lit "u1"; uv_name := lit "Alice"; uv_email := lit "a@x.com";
             uv_role := lit "admin"; uv_created_at := 5 |}),
     run Demo.toy Demo.dev
       (snd (signup Demo.toy Demo.dev (Demo.at_time 5 "u1") Demo.alice empty_db))
       [(Demo.at_time 6 "o1", PostCheckout Demo.cart)]).
Proof.
  eapply (signup_then_login Demo.toy Demo.dev (Demo.at_time 5 "u1") Demo.alice empty_db).
  - vm_compute. reflexivity.
  - reflexivity.
  - reflexivity.
Defined.

(** ** The middleware and the webhook, continued *)

Lemma split_on_length (sep : code_unit) (s : jsstring) :
  List.length (split_on sep s) = Datatypes.S (count_occ N.eq_dec s sep).
Proof.
  induction s as [|c s IH]; [reflexivity|]. cbn [split_on count_occ].
  destruct (N.eq_dec c sep) as [->|Hc].
  - rewrite N.eqb_refl. cbn [List.length]. now rewrite IH.
  - apply N.eqb_neq in Hc. rewrite Hc.
    destruct (split_on sep s) as [|q qs] eqn:E; [now apply split_on_not_nil in E|].
    exact IH.
Qed.

Section Gate_more.

Variable lib : services.
Variable cfg : config.

(** X12: on the guarded routes a non-empty Authorization header that
    does not hold exactly one space (a bare token, a doubled space, a
    trailing space) is answered 401 [Bad auth] before any token is
    verified, and the database is unchanged. *)
Theorem malformed_header_rejected (w : world) (r : request) (h : headers)
    (auth : jsstring) (d : db) :
  guarded r = Some h ->
  authorization h = Some auth -> auth <> [] ->
  spaces auth <> 1%nat ->
  handle lib cfg w r d = (err 401 "Bad auth", d).
Proof.
  intros G A N Sp. apply (guarded_rejected lib cfg w r h d _ G).
  unfold authMiddleware. rewrite A.
  destruct auth as [|c auth]; [now elim N|].
  pose proof (split_on_length space (c :: auth)) as L.
  fold (spaces (c :: auth)) in L.
  destruct (split_on space (c :: auth)) as [|a [|t [|x l]]]; cbn [List.length] in L;
    try reflexivity.
  exfalso. apply Sp. congruence.
Qed.

(** X13: the middleware never looks at the word before the space: two
    headers with the same token and different schemes get the same
    verdict, so [Bearer] is not required. *)
Theorem scheme_is_ignored (w : world) (h1 h2 : headers) (scheme1 scheme2 token : jsstring) :
  authorization h1 = Some (scheme1 ++ space :: token) ->
  authorization h2 = Some (scheme2 ++ space :: token) ->
  ~ In space scheme1 -> ~ In space scheme2 -> ~ In space token ->
  authMiddleware lib cfg w h1 = authMiddleware lib cfg w h2.
Proof.
  intros A1 A2 S1 S2 T. unfold authMiddleware. rewrite A1, A2.
  destruct (scheme1 ++ space :: token) as [|c1 a1] eqn:E1; [now destruct scheme1|].
  destruct (scheme2 ++ space :: token) as [|c2 a2] eqn:E2; [now destruct scheme2|].
  rewrite <- E1, <- E2, !split_on_one by assumption. reflexivity.
Qed.

(** X14: an event of any other type than [checkout.session.completed]
    is acknowledged with [{received: true}] and changes nothing. *)
Theorem other_events_acknowledged (h : headers) (payload : jsstring) (event : json)
    (ty : option json) (d : db) :
  construct lib cfg payload (stripe_signature h) = Some event ->
  prop (Some event) (lit "type") = Some ty ->
  is_str ty "checkout.session.completed" = false ->
  webhook lib cfg h payload d = (Reply 200 Received, d).
Proof.
  intros C P T. unfold webhook, completed_session. now rewrite C, P, T.
Qed.

(** X15: when no webhook secret is configured (the variable is unset or
    empty), the answer of the webhook and its effect are the same for the
    same [req.body], whatever the [stripe-signature] and [Authorization]
    headers are: the signature header is never read. *)
Theorem signature_unread_without_secret (h1 h2 : headers) (payload : jsstring) (d : db) :
  truthy (env_STRIPE_WEBHOOK_SECRET cfg) = false ->
  webhook lib cfg h1 payload d = webhook lib cfg h2 payload d.
Proof.
  intro T. unfold webhook, construct.
  destruct (env_STRIPE_WEBHOOK_SECRET cfg) as [[|c s]|]; [reflexivity|discriminate|reflexivity].
Qed.

(** X16: for an admin, a presign is answered 400 [Missing], with the
    database unchanged, exactly when the file name or the content type is
    missing or empty. *)
Theorem presign_requires_fields (w : world) (h : headers) (b : presign_body) (d : db)
    (user : claims) :
  authMiddleware lib cfg w h = inr user ->
  is_admin user = true ->
  presign lib cfg w h b d = (err 400 "Missing", d)
  <-> truthy (ps_filename b) = false \/ truthy (ps_contentType b) = false.
Proof.
  intros A F. unfold presign, err. rewrite A, F. cbn [negb].
  destruct (ps_filename b) as [[|f filename]|]; cbn [truthy];
    try (split; [now left | reflexivity]).
  destruct (ps_contentType b) as [[|c contentType]|]; cbn [truthy];
    try (split; [now right | reflexivity]).
  cbv zeta. split; [|intros [H|H]; discriminate].
  destruct (getSignedUrl lib _ _ _ _); discriminate.
Qed.

End Gate_more.

Lemma malformed_header_rejected_witness :
  handle Demo.toy Demo.dev (Demo.at_time 5 "p1")
    (PostProduct {| authorization := Some Demo.admin_token; stripe_signature := None |}
       (Demo.ebook Demo.n19_99))
    empty_db
  = (err 401 "Bad auth", empty_db).
Proof.
  eapply (malformed_header_rejected Demo.toy Demo.dev).
  - reflexivity.
  - reflexivity.
  - discriminate.
  - vm_compute. discriminate.
Defined.

Lemma scheme_is_ignored_witness :
  authMiddleware Demo.toy Demo.dev (Demo.at_time 5 "")
    {| authorization := Some (lit "Basic " ++ Demo.admin_token); stripe_signature := None |}
  = authMiddleware Demo.toy Demo.dev (Demo.at_time 5 "") (Demo.bearer Demo.admin_token).
Proof.
  apply (scheme_is_ignored Demo.toy Demo.dev (Demo.at_time 5 "") _ _
           (lit "Basic") (lit "Bearer") Demo.admin_token).
  - reflexivity.
  - reflexivity.
  - vm_compute. intuition discriminate.
  - vm_compute. intuition discriminate.
  - vm_compute. intuition discriminate.
Defined.

Lemma other_events_acknowledged_witness :
  webhook Demo.toy Demo.prod (Demo.signed "whsec_1") (lit "ping")
    (run Demo.toy Demo.prod empty_db [(Demo.at_time 5 "o1", PostCheckout Demo.cart)])
  = (Reply 200 Received,
     run Demo.toy Demo.prod empty_db [(Demo.at_time 5 "o1", PostCheckout Demo.cart)]).
Proof.
  eapply (other_events_acknowledged Demo.toy Demo.prod).
  - reflexivity.
  - reflexivity.
  - reflexivity.
Defined.

Lemma signature_unread_without_secret_witness :
  webhook Demo.toy Demo.dev (Demo.signed "forged") (lit "completed:cs_a@x.com") empty_db
  = webhook Demo.toy Demo.dev Demo.anonymous (lit "completed:cs_a@x.com") empty_db.
Proof.
  apply (signature_unread_without_secret Demo.toy Demo.dev). reflexivity.
Defined.

Lemma presign_requires_fields_witness :
  presign Demo.toy Demo.dev (Demo.at_time 5 "") (Demo.bearer Demo.admin_token)
    {| ps_filename := Some []; ps_contentType := Some (lit "image/png") |} empty_db
  = (err 400 "Missing", empty_db).
Proof.
  eapply (presign_requires_fields Demo.toy Demo.dev (Demo.at_time 5 "")
            (Demo.bearer Demo.admin_token)).
  - reflexivity.
  - reflexivity.
  - left. reflexivity.
Defined.

(** ** The object key, continued *)

Lemma dec_chars (z : Z) :
  Forall (fun c => is_digit c = true \/ c = 45%N) (dec z).
Proof.
  destruct z as [|q|q].
  - repeat constructor.
  - eapply Forall_impl; [|apply dec_digits; lia]. intros c Hc. now left.
  - unfold dec. cbn [Z.to_int NilZero.string_of_int].
    change (lit (String "-" ?s)) with (45%N :: lit s).
    constructor; [now right|].
    eapply Forall_impl with (P := fun c => is_digit c = true); [intros c Hc; now left|].
    unfold NilZero.string_of_uint.
    destruct (Pos.to_uint q); try apply uint_digits. repeat constructor.
Qed.

(** X17: an object key never leaves the [uploads/] folder: whatever the
    file name and the time, the key is [uploads/] followed by a string
    without any slash. *)
Theorem key_stays_in_uploads (t : Z) (filename : jsstring) :
  exists rest,
    object_key t filename = lit "uploads/" ++ rest /\ ~ In slash rest.
Proof.
  exists (dec t ++ underscore :: sanitize filename). split; [reflexivity|].
  intro H. apply in_app_or in H as [H|[H|H]].
  - pose proof (dec_chars t) as D. rewrite Forall_forall in D.
    destruct (D _ H) as [E|E]; discriminate E.
  - discriminate H.
  - pose proof (sanitize_charset filename) as C. rewrite Forall_forall in C.
    destruct (C _ H) as [E|E]; discriminate E.
Qed.

(** X18: sanitising is stable: a sanitised name is left as it is by a
    second pass, and a name is unchanged by the first pass exactly when
    all its characters are in [A-Za-z0-9.-] or are underscores. *)
Theorem sanitize_stable (filename : jsstring) :
  sanitize (sanitize filename) = sanitize filename
  /\ (sanitize filename = filename
      <-> Forall (fun c => allowed c = true \/ c = underscore) filename).
Proof.
  split.
  - unfold sanitize. rewrite map_map. apply map_ext. intro c.
    destruct (allowed c) eqn:E; [now rewrite E | reflexivity].
  - split.
    + intro E. rewrite <- E. apply sanitize_charset.
    + induction filename as [|c f IH]; intro H; [reflexivity|].
      inversion H as [|? ? Hc Hf]; subst. cbn [sanitize map].
      fold (sanitize f). rewrite (IH Hf). f_equal.
      destruct (allowed c); [reflexivity|]. destruct Hc as [Hc|Hc]; congruence.
Qed.

(** ** The stand-alone server *)

Lemma define_lookup (k k' : jsstring) (v : json) (o : Stub.object) :
  own_property k (Stub.define k' v o)
  = if streq k' k then Some v else own_property k o.
Proof.
  induction o as [|[k0 v0] o IH]; cbn [Stub.define own_property]; [reflexivity|].
  destruct (streq k0 k') eqn:E0; cbn [own_property].
  - apply streq_true_iff in E0. subst k0.
    destruct (streq k' k); reflexivity.
  - rewrite IH. destruct (streq k0 k) eqn:E1; [|reflexivity].
    apply streq_true_iff in E1. subst k0.
    destruct (streq k' k) eqn:E2; [|reflexivity].
    apply streq_true_iff in E2. subst k'. rewrite streq_refl in E0. discriminate E0.
Qed.

Lemma own_property_app (k : jsstring) (l l' : Stub.object) :
  own_property k (l ++ l')
  = match own_property k l with
    | Some v => Some v
    | None => own_property k l'
    end.
Proof.
  induction l as [|[k0 v0] l IH]; cbn [app own_property]; [reflexivity|].
  destruct (streq k0 k); [reflexivity | exact IH].
Qed.

Lemma spread_lookup (k : jsstring) (es o : Stub.object) :
  own_property k (fold_left (fun acc kv => Stub.define (fst kv) (snd kv) acc) es o)
  = match own_property k (rev es) with
    | Some v => Some v
    | None => own_property k o
    end.
Proof.
  revert o. induction es as [|[k1 v1] es IH]; intro o; cbn [fold_left rev]; [reflexivity|].
  rewrite IH, own_property_app, define_lookup. cbn [own_property fst snd].
  destruct (own_property k (rev es)); [reflexivity|].
  destruct (streq k1 k); reflexivity.
Qed.

Lemma own_property_In (k : jsstring) (v : json) (l : Stub.object) :
  NoDup (map fst l) -> In (k, v) l -> own_property k l = Some v.
Proof.
  induction l as [|[k0 v0] l IH]; cbn [map fst own_property]; intros N H; [contradiction|].
  inversion N as [|? ? Hk Hl]; subst.
  destruct H as [[= -> ->]|H]; [now rewrite streq_refl|].
  destruct (streq k0 k) eqn:E; [|auto].
  apply streq_true_iff in E. subst k0.
  exfalso. apply Hk. apply in_map_iff. exists (k, v). auto.
Qed.

Lemma own_property_found (k : jsstring) (v : json) (l : Stub.object) :
  own_property k l = Some v -> In (k, v) l.
Proof.
  induction l as [|[k0 v0] l IH]; cbn [own_property]; [discriminate|].
  destruct (streq k0 k) eqn:E.
  - apply streq_true_iff in E. intros [= ->]. subst. now left.
  - intro H. right. now apply IH.
Qed.

Lemma own_property_rev (k : jsstring) (l : Stub.object) :
  NoDup (map fst l) -> own_property k (rev l) = own_property k l.
Proof.
  intro N.
  assert (Nr : NoDup (map fst (rev l))) by (rewrite map_rev; now apply NoDup_rev).
  destruct (own_property k l) as [v|] eqn:E.
  - apply own_property_found in E. apply own_property_In; [exact Nr|].
    now apply in_rev in E.
  - destruct (own_property k (rev l)) as [v|] eqn:Er; [|reflexivity].
    apply own_property_found in Er. apply in_rev in Er.
    apply (own_property_In k v l N) in Er. congruence.
Qed.

(** X19: what the stand-alone server stores for a POST: the product has
    every property of the body, with the value of the body; its [id] is
    the one of the body when the body has one (the generated id is
    overwritten) and [Date.now()] otherwise; and it has no other
    property. *)
Theorem stub_new_product (w : world) (body : json) (k : jsstring) :
  NoDup (map fst (Stub.own_entries body)) ->
  own_property k (Stub.newProduct w body)
  = match own_property k (Stub.own_entries body) with
    | Some v => Some v
    | None => if streq (lit "id") k then Some (JNum (Num.of_Z (now w))) else None
    end.
Proof.
  intro N. unfold Stub.newProduct, Stub.spread.
  rewrite spread_lookup, own_property_rev by exact N. reflexivity.
Qed.




Lemma stub_new_product_witness :
  own_property (lit "id")
    (Stub.newProduct (Demo.at_time 7 "")
       (JObj [(lit "name", JStr (lit "C")); (lit "id", JNum (Num.of_Z 1))]))
  = Some (JNum (Num.of_Z 1)).
Proof.
  apply (stub_new_product (Demo.at_time 7 "")
           (JObj [(lit "name", JStr (lit "C")); (lit "id", JNum (Num.of_Z 1))])
           (lit "id")).
  repeat constructor; vm_compute; intuition discriminate.
Defined.

(** ** Prices in cents *)

Lemma number_eqb_eq (x y : Num.number) : number_eqb x y = true -> x = y.
Proof.
  destruct x as [a|a| |a m e], y as [b|b| |b m' e']; simpl; try discriminate; intro H.
  - apply Bool.eqb_prop in H. now subst.
  - apply Bool.eqb_prop in H. now subst.
  - reflexivity.
  - apply andb_true_iff in H as [H He]. apply andb_true_iff in H as [Hs Hm].
    apply Bool.eqb_prop in Hs. apply Pos.eqb_eq in Hm. apply Z.eqb_eq in He. now subst.
Qed.

Lemma all_range_spec (f : Z -> bool) (a : Z) (len : positive) :
  all_range f a len = true -> forall c, a <= c < a + Zpos len -> f c = true.
Proof.
  revert a. induction len as [p IH|p IH|]; intros a H c Hc; cbn [all_range] in H.
  - apply andb_true_iff in H as [H H2]. apply andb_true_iff in H as [H0 H1].
    rewrite Pos2Z.inj_xI in Hc.
    destruct (Z.eq_dec c a) as [->|Hne]; [exact H0|].
    destruct (Z_lt_le_dec c (a + 1 + Zpos p)).
    + apply (IH _ H1). lia.
    + apply (IH _ H2). lia.
  - apply andb_true_iff in H as [H1 H2]. rewrite Pos2Z.inj_xO in Hc.
    destruct (Z_lt_le_dec c (a + Zpos p)).
    + apply (IH _ H1). lia.
    + apply (IH _ H2). lia.
  - assert (c = a) by lia. now subst.
Qed.

Lemma cents_checked : all_range cents_round_trip 0 2000 = true.
Proof. vm_compute. reflexivity. Qed.

(** X21: the round trip of a price: for every amount [c] of cents from
    0 to 1999 (prices up to 19.99), the Number closest to [c / 100] is
    turned by [Math.round(Number(price) * 100)] into exactly [c], and the
    listing renders the stored [c] as the digits of [c] with a point
    before the last two. *)
Theorem cents_round_trip_to_19_99 (c : Z) :
  0 <= c < 2000 ->
  to_cents (Some (price_of_cents c)) = Num.of_Z c
  /\ render_price (Sql.bind_number (to_cents (Some (price_of_cents c))))
     = Num.two_decimals c.
Proof.
  intro Hc.
  pose proof (all_range_spec _ _ _ cents_checked c Hc) as H.
  unfold cents_round_trip in H. apply andb_true_iff in H as [H1 H2].
  apply number_eqb_eq in H1. split; [exact H1|].
  rewrite H1. unfold render_price.
  destruct (Sql.bind_number (Num.of_Z c)) as [stored|]; [|discriminate].
  destruct (Num.div stored Num.hundred) as [s|s| |s m e]; try discriminate.
  - apply Z.eqb_eq in H2. subst c. reflexivity.
  - destruct s; [discriminate|].
    apply andb_true_iff in H2 as [G E]. apply negb_true_iff in G.
    apply Z.eqb_eq in E. cbn [Num.toFixed2 app]. now rewrite G, E.
Qed.

Lemma cents_round_trip_to_19_99_witness :
  to_cents (Some (price_of_cents 1999)) = Num.of_Z 1999
  /\ render_price (Sql.bind_number (to_cents (Some (price_of_cents 1999))))
     = Num.two_decimals 1999.
Proof. apply (cents_round_trip_to_19_99 1999). lia. Defined.

Section Reads.

Variable lib : services.
Variable cfg : config.

(** X22: the root route, the listing, the login and the presign never
    write: whatever they answer, the database is as it was (no record of
    a login or of an issued upload URL is kept). *)
Theorem read_only_routes (w : world) (r : request) (d : db) :
  read_only r = true -> snd (handle lib cfg w r d) = d.
Proof.
  destruct r; try discriminate; intros _; cbn [handle];
    unfold login, listProducts, presign; cbv zeta; branches.
Qed.

End Reads.

Lemma read_only_routes_witness :
  snd (handle Demo.toy Demo.dev (Demo.at_time 5 "")
         (PostPresign (Demo.bearer Demo.admin_token)
            {| ps_filename := Some (lit "a b"); ps_contentType := Some (lit "image/png") |})
         empty_db)
  = empty_db.
Proof.
  apply (read_only_routes Demo.toy Demo.dev). reflexivity.
Defined.
